(** * Model registration glue (src/model/register_model.py)

    A shallow embedding of the registration script: the five functions of
    [register_model.py] and [main], over an explicit world made of a file
    store and of the trace of what the script logged, printed and called,
    and a runtime that answers the calls the script makes outside itself
    (the tracking client, [pickle], [str] and [int] on objects that are
    neither strings nor integers).  The functions are computations in a monad of state and
    exceptions; [json.dump] and [json.load] are the encoder and the
    scanner of Python's [json], written out.

    The statements of the script before [main] (loading the environment,
    setting the tracking URI) are not part of the model.

    The diagnostic script [test.py] is embedded in the module
    [TestScript], with the calls and the trace of its own: it lists
    artifacts below a path, which [register_model.py] never does, and it
    changes no file.

    Boundaries of the model, each of them a property of the Python runtime
    and not of the script:
    - a [str] is a [string] whose characters are the code points U+0000 to
      U+00FF; JSON text that denotes a character above U+00FF is rejected
      by [scanstring] with a decode error of its own;
    - exceptions are the instances of [Exception]; [KeyboardInterrupt] and
      [SystemExit] are not modelled;
    - a JSON float is carried by the literal that denotes it;
    - a text file is the text Python reads from it or writes to it;
    - the recursion limit is not modelled: the decoder of the model reads
      a text of any nesting, where Python raises a [RecursionError] on a
      deep one; the statements about [json.load] are conditions on what
      decoding gives, so that they hold of a decoder with a limit too;
    - the limit on the digits of an [int] is not modelled;
    - the message of a [JSONDecodeError] carries no position. *)

From Stdlib Require Import ZArith NArith String Ascii List Lia Bool DecimalString.
From Stdlib Require DecimalPos.
From stdpp Require Import base strings gmap list.

Local Open Scope string_scope.
Local Open Scope list_scope.

(** ** Characters and text *)

Definition chr (n : N) : ascii := ascii_of_N n.
Definition ord (c : ascii) : N := N_of_ascii c.

Definition dquote : ascii := Eval cbv in chr 34.
Definition backslash : ascii := Eval cbv in chr 92.
Definition newline : ascii := Eval cbv in chr 10.

Definition str1 (c : ascii) : string := String c EmptyString.

Fixpoint join (sep : string) (l : list string) : string :=
  match l with
  | [] => ""
  | [x] => x
  | x :: rest => x +:+ sep +:+ join sep rest
  end.

Fixpoint repeat_str (n : nat) (s : string) : string :=
  match n with
  | O => ""
  | S n' => s +:+ repeat_str n' s
  end.

(** ** Python values: what [json.load] can return *)

#[warnings="-register-all"]
Inductive pyval :=
| PNone
| PBool (b : bool)
| PInt (z : Z)
| PFloat (literal : string)
| PStr (s : string)
| PList (l : list pyval)
| PDict (d : list (string * pyval)).

(** A [dict] keeps its keys in insertion order; assigning to a key that is
    present replaces the value where the key stands. *)
Fixpoint dict_set (d : list (string * pyval)) (k : string) (v : pyval)
  : list (string * pyval) :=
  match d with
  | [] => [(k, v)]
  | (k', v') :: rest =>
      if String.eqb k' k then (k, v) :: rest else (k', v') :: dict_set rest k v
  end.

Fixpoint dict_get (d : list (string * pyval)) (k : string) : option pyval :=
  match d with
  | [] => None
  | (k', v) :: rest => if String.eqb k' k then Some v else dict_get rest k
  end.

(** ** [str(int)] and [int(str)] *)

Definition str_of_int (z : Z) : string := NilZero.string_of_int (Z.to_int z).

Definition is_digit (c : ascii) : bool :=
  (48 <=? ord c)%N && (ord c <=? 57)%N.

Definition digit_val (c : ascii) : Z := Z.of_N (ord c) - 48.

(** The white space that [int] skips around a literal, on the code points
    below U+0100: the ASCII white space (tab to carriage return, and the
    space), and the white space above U+007F (U+0085 and U+00A0), which
    [int] turns into spaces first.  The separators U+001C to U+001F are
    white space for [str.isspace] and not for [int]. *)
Definition is_space (c : ascii) : bool :=
  let n := ord c in
  ((9 <=? n)%N && (n <=? 13)%N) || (n =? 32)%N
  || (n =? 133)%N || (n =? 160)%N.

Fixpoint lstrip (s : string) : string :=
  match s with
  | String c rest => if is_space c then lstrip rest else s
  | EmptyString => s
  end.

Fixpoint all_space (s : string) : bool :=
  match s with
  | String c rest => is_space c && all_space rest
  | EmptyString => true
  end.

(** Digits with single underscores between them, then optional trailing
    white space: the tail of an [int] literal once the sign is read.
    [prev] tells whether the previous character was a digit. *)
Fixpoint int_digits (s : string) (acc : Z) (prev : bool) : option Z :=
  match s with
  | EmptyString => if prev then Some acc else None
  | String c rest =>
      if is_digit c then int_digits rest (10 * acc + digit_val c) true
      else if Ascii.eqb c "_" then
        if prev then
          match rest with
          | String c' _ => if is_digit c' then int_digits rest acc false else None
          | EmptyString => None
          end
        else None
      else if prev && all_space s then Some acc
      else None
  end.

(** [int(s)] in base 10; [None] stands for the [ValueError]. *)
Definition py_int (s : string) : option Z :=
  match lstrip s with
  | String c rest =>
      if Ascii.eqb c "-" then Z.opp <$> int_digits rest 0 false
      else if Ascii.eqb c "+" then int_digits rest 0 false
      else int_digits (String c rest) 0 false
  | EmptyString => None
  end.

(** ** [json.dump(obj, file, indent=4)] *)

Definition hex_digit (n : N) : ascii :=
  if (n <? 10)%N then chr (48 + n) else chr (87 + n).

Definition hex4 (n : N) : string :=
  String (hex_digit (n / 4096 mod 16))
    (String (hex_digit (n / 256 mod 16))
       (String (hex_digit (n / 16 mod 16))
          (String (hex_digit (n mod 16)) EmptyString))).

(** One character of [py_encode_basestring_ascii]. *)
Definition escape_char (c : ascii) : string :=
  let n := ord c in
  if (n =? 34)%N then String backslash (str1 dquote)
  else if (n =? 92)%N then String backslash (str1 backslash)
  else if (n =? 10)%N then String backslash "n"
  else if (n =? 13)%N then String backslash "r"
  else if (n =? 9)%N then String backslash "t"
  else if (n =? 8)%N then String backslash "b"
  else if (n =? 12)%N then String backslash "f"
  else if (32 <=? n)%N && (n <=? 126)%N then str1 c
  else String backslash (String "u" (hex4 n)).

Fixpoint escape (s : string) : string :=
  match s with
  | EmptyString => EmptyString
  | String c rest => escape_char c +:+ escape rest
  end.

Definition encode_basestring_ascii (s : string) : string :=
  String dquote (escape s +:+ str1 dquote).

Definition newline_indent (level : nat) : string :=
  String newline (repeat_str level "    ").

Fixpoint iterencode (level : nat) (o : pyval) : string :=
  match o with
  | PNone => "null"
  | PBool true => "true"
  | PBool false => "false"
  | PInt z => str_of_int z
  | PFloat literal => literal
  | PStr s => encode_basestring_ascii s
  | PList [] => "[]"
  | PList l =>
      "[" +:+ newline_indent (S level)
      +:+ join ("," +:+ newline_indent (S level)) (map (iterencode (S level)) l)
      +:+ newline_indent level +:+ "]"
  | PDict [] => "{}"
  | PDict d =>
      "{" +:+ newline_indent (S level)
      +:+ join ("," +:+ newline_indent (S level))
            (map (fun kv => encode_basestring_ascii (fst kv) +:+ ": "
                            +:+ iterencode (S level) (snd kv)) d)
      +:+ newline_indent level +:+ "}"
  end.

Definition json_dumps_indent4 (o : pyval) : string := iterencode 0 o.


(** ** [json.load]: the scanner of [json.decoder] and [json.scanner] *)

Inductive parse (A : Type) :=
| POk (a : A) (rest : string)
| PErr (msg : string)
| PDepth.
Arguments POk {A} a rest.
Arguments PErr {A} msg.
Arguments PDepth {A}.

Definition parse_map {A B} (f : A -> B) (p : parse A) : parse B :=
  match p with
  | POk a rest => POk (f a) rest
  | PErr msg => PErr msg
  | PDepth => PDepth
  end.

(** The white space of JSON: space, tab, line feed, carriage return. *)
Definition is_ws (c : ascii) : bool :=
  let n := ord c in
  (n =? 32)%N || (n =? 9)%N || (n =? 10)%N || (n =? 13)%N.

Fixpoint skip_ws (s : string) : string :=
  match s with
  | String c rest => if is_ws c then skip_ws rest else s
  | EmptyString => s
  end.

Definition hex_val (c : ascii) : option N :=
  let n := ord c in
  if (48 <=? n)%N && (n <=? 57)%N then Some (n - 48)%N
  else if (97 <=? n)%N && (n <=? 102)%N then Some (n - 87)%N
  else if (65 <=? n)%N && (n <=? 70)%N then Some (n - 55)%N
  else None.

Definition decode_uXXXX (h1 h2 h3 h4 : ascii) : option N :=
  match hex_val h1, hex_val h2, hex_val h3, hex_val h4 with
  | Some a, Some b, Some c, Some d => Some (a * 4096 + b * 256 + c * 16 + d)%N
  | _, _, _, _ => None
  end.

(** The table [BACKSLASH] of the decoder. *)
Definition unescape (c : ascii) : option ascii :=
  let n := ord c in
  if (n =? 34)%N then Some dquote
  else if (n =? 92)%N then Some backslash
  else if (n =? 47)%N then Some "/"%char
  else if (n =? 98)%N then Some (chr 8)
  else if (n =? 102)%N then Some (chr 12)
  else if (n =? 110)%N then Some (chr 10)
  else if (n =? 114)%N then Some (chr 13)
  else if (n =? 116)%N then Some (chr 9)
  else None.

(** [scanstring] in strict mode, from the character after the opening
    quote. *)
Fixpoint scanstring (s : string) : parse string :=
  match s with
  | EmptyString => PErr "Unterminated string starting at"
  | String c rest =>
      if Ascii.eqb c dquote then POk "" rest
      else if Ascii.eqb c backslash then
        match rest with
        | EmptyString => PErr "Unterminated string starting at"
        | String esc rest1 =>
            if Ascii.eqb esc "u" then
              match rest1 with
              | String h1 (String h2 (String h3 (String h4 rest2))) =>
                  match decode_uXXXX h1 h2 h3 h4 with
                  | Some uni =>
                      if (uni <? 256)%N
                      then parse_map (String (chr uni)) (scanstring rest2)
                      else PErr "Character above U+00FF"
                  | None => PErr "Invalid \uXXXX escape"
                  end
              | _ => PErr "Invalid \uXXXX escape"
              end
            else
              match unescape esc with
              | Some ch => parse_map (String ch) (scanstring rest1)
              | None => PErr "Invalid \escape"
              end
        end
      else if (ord c <? 32)%N then PErr "Invalid control character at"
      else parse_map (String c) (scanstring rest)
  end.

Fixpoint span_digits (s : string) : string * string :=
  match s with
  | String c rest =>
      if is_digit c
      then let '(ds, r) := span_digits rest in (String c ds, r)
      else ("", s)
  | EmptyString => ("", s)
  end.

Fixpoint digits_val (s : string) (acc : Z) : Z :=
  match s with
  | String c rest => digits_val rest (10 * acc + digit_val c)
  | EmptyString => acc
  end.

(** The integer part of [NUMBER_RE]: [0], or a non-zero digit and more
    digits. *)
Definition match_integer (s : string) : option (string * string) :=
  match s with
  | String c rest =>
      if Ascii.eqb c "0" then Some ("0", rest)
      else if is_digit c then Some (span_digits s)
      else None
  | EmptyString => None
  end.

(** The fraction of [NUMBER_RE]: a dot and at least one digit. *)
Definition match_frac (s : string) : string * string :=
  match s with
  | String c rest =>
      if Ascii.eqb c "." then
        match span_digits rest with
        | (EmptyString, _) => ("", s)
        | (ds, r) => (String c ds, r)
        end
      else ("", s)
  | EmptyString => ("", s)
  end.

(** The exponent of [NUMBER_RE]: [e] or [E], an optional sign and at least
    one digit. *)
Definition match_exp (s : string) : string * string :=
  match s with
  | String c rest =>
      if Ascii.eqb c "e" || Ascii.eqb c "E" then
        let '(sign, rest1) :=
          match rest with
          | String g r => if Ascii.eqb g "-" || Ascii.eqb g "+"
                           then (str1 g, r) else ("", rest)
          | EmptyString => ("", rest)
          end in
        match span_digits rest1 with
        | (EmptyString, _) => ("", s)
        | (ds, r) => (String c (sign +:+ ds), r)
        end
      else ("", s)
  | EmptyString => ("", s)
  end.

(** [NUMBER_RE] after its optional minus sign: an [int] when the number
    has no fraction and no exponent, a [float] otherwise. *)
Definition match_unsigned (neg : bool) (s : string) : option (pyval * string) :=
  match match_integer s with
  | None => None
  | Some (int_part, s2) =>
      let '(frac, s3) := match_frac s2 in
      let '(exp, s4) := match_exp s3 in
      match frac, exp with
      | EmptyString, EmptyString =>
          let z := digits_val int_part 0 in
          Some (PInt (if neg then - z else z)%Z, s4)
      | _, _ =>
          Some (PFloat ((if neg then "-" else "") +:+ int_part +:+ frac +:+ exp), s4)
      end
  end.

Definition match_number (s : string) : option (pyval * string) :=
  match s with
  | String c rest =>
      if Ascii.eqb c "-" then match_unsigned true rest else match_unsigned false s
  | EmptyString => None
  end.

(** [s[idx:idx+len(w)] == w], with what follows [w]. *)
Fixpoint strip_prefix (w s : string) : option string :=
  match w, s with
  | EmptyString, _ => Some s
  | String a w', String b s' => if Ascii.eqb a b then strip_prefix w' s' else None
  | String _ _, EmptyString => None
  end.

Definition scan_constant (s : string) : parse pyval :=
  match strip_prefix "null" s with
  | Some r => POk PNone r
  | None =>
  match strip_prefix "true" s with
  | Some r => POk (PBool true) r
  | None =>
  match strip_prefix "false" s with
  | Some r => POk (PBool false) r
  | None =>
  match match_number s with
  | Some (v, r) => POk v r
  | None =>
  match strip_prefix "NaN" s with
  | Some r => POk (PFloat "NaN") r
  | None =>
  match strip_prefix "Infinity" s with
  | Some r => POk (PFloat "Infinity") r
  | None =>
  match strip_prefix "-Infinity" s with
  | Some r => POk (PFloat "-Infinity") r
  | None => PErr "Expecting value"
  end end end end end end end.

(** [scan_once], [JSONObject] and [JSONArray].  [depth] bounds the nesting
    of the calls; [json_loads] gives two for each character of the text,
    which is never used up ([json_loads_depth]).
    [object_items] starts after the opening quote of a key, [array_items]
    at the first character of an element. *)
Fixpoint scan_once (depth : nat) (s : string) : parse pyval :=
  match depth with
  | O => PDepth
  | S depth' =>
      match s with
      | EmptyString => PErr "Expecting value"
      | String c rest =>
          if Ascii.eqb c dquote then parse_map PStr (scanstring rest)
          else if Ascii.eqb c "{" then
            match skip_ws rest with
            | String c1 rest1 =>
                if Ascii.eqb c1 "}" then POk (PDict []) rest1
                else if Ascii.eqb c1 dquote then object_items depth' rest1 []
                else PErr "Expecting property name enclosed in double quotes"
            | EmptyString => PErr "Expecting property name enclosed in double quotes"
            end
          else if Ascii.eqb c "[" then
            match skip_ws rest with
            | String c1 rest1 =>
                if Ascii.eqb c1 "]" then POk (PList []) rest1
                else array_items depth' (String c1 rest1) []
            | EmptyString => array_items depth' EmptyString []
            end
          else scan_constant s
      end
  end
with object_items (depth : nat) (s : string) (pairs : list (string * pyval))
  : parse pyval :=
  match depth with
  | O => PDepth
  | S depth' =>
      match scanstring s with
      | PErr msg => PErr msg
      | PDepth => PDepth
      | POk key s1 =>
          match skip_ws s1 with
          | String c s2 =>
              if Ascii.eqb c ":" then
                match scan_once depth' (skip_ws s2) with
                | PErr msg => PErr msg
                | PDepth => PDepth
                | POk value s3 =>
                    let pairs' := dict_set pairs key value in
                    match skip_ws s3 with
                    | String c4 s4 =>
                        if Ascii.eqb c4 "}" then POk (PDict pairs') s4
                        else if Ascii.eqb c4 "," then
                          match skip_ws s4 with
                          | String c5 s5 =>
                              if Ascii.eqb c5 dquote
                              then object_items depth' s5 pairs'
                              else PErr "Expecting property name enclosed in double quotes"
                          | EmptyString =>
                              PErr "Expecting property name enclosed in double quotes"
                          end
                        else PErr "Expecting ',' delimiter"
                    | EmptyString => PErr "Expecting ',' delimiter"
                    end
                end
              else PErr "Expecting ':' delimiter"
          | EmptyString => PErr "Expecting ':' delimiter"
          end
      end
  end
with array_items (depth : nat) (s : string) (values : list pyval) : parse pyval :=
  match depth with
  | O => PDepth
  | S depth' =>
      match scan_once depth' s with
      | PErr msg => PErr msg
      | PDepth => PDepth
      | POk value s1 =>
          let values' := (values ++ [value])%list in
          match skip_ws s1 with
          | String c s2 =>
              if Ascii.eqb c "]" then POk (PList values') s2
              else if Ascii.eqb c "," then array_items depth' (skip_ws s2) values'
              else PErr "Expecting ',' delimiter"
          | EmptyString => PErr "Expecting ',' delimiter"
          end
      end
  end.

(** ** Exceptions *)

Inductive exn_class :=
| Exception
| OSError | FileNotFoundError | PermissionError | IsADirectoryError
| ConnectionError
| ValueError | UnicodeError | UnicodeDecodeError | JSONDecodeError
| LookupError | KeyError
| TypeError | AttributeError | EOFError
| RuntimeError | RecursionError
| PickleError | UnpicklingError
| MlflowException.

#[global] Instance exn_class_eq_dec : EqDecision exn_class.
Proof. solve_decision. Defined.

(** The base class of each class, as Python, [json], [pickle] and [mlflow]
    declare them. *)
Definition base (c : exn_class) : option exn_class :=
  match c with
  | Exception => None
  | FileNotFoundError | PermissionError | IsADirectoryError | ConnectionError =>
      Some OSError
  | UnicodeError | JSONDecodeError => Some ValueError
  | UnicodeDecodeError => Some UnicodeError
  | KeyError => Some LookupError
  | RecursionError => Some RuntimeError
  | UnpicklingError => Some PickleError
  | OSError | ValueError | LookupError | TypeError | AttributeError | EOFError
  | RuntimeError | PickleError | MlflowException => Some Exception
  end.

Fixpoint inherits (n : nat) (c d : exn_class) : bool :=
  bool_decide (c = d)
  || match n with
     | O => false
     | S n' => match base c with
               | Some b => inherits n' b d
               | None => false
               end
     end.

Definition issubclass (c d : exn_class) : bool := inherits 4 c d.

(** An exception: its class and what [str] gives on it. *)
Record exn := mk_exn { exn_type : exn_class; exn_str : string }.

Definition isinstance (e : exn) (d : exn_class) : bool :=
  issubclass (exn_type e) d.

Inductive Res (A : Type) :=
| Ok (a : A)
| Raise (e : exn).
Arguments Ok {A} a.
Arguments Raise {A} e.

(** [JSONDecoder.decode]: white space, one value, white space, the end. *)
Definition json_loads (s : string) : Res pyval :=
  match scan_once (S (S (2 * String.length s))) (skip_ws s) with
  | POk obj rest =>
      match skip_ws rest with
      | EmptyString => Ok obj
      | String _ _ => Raise (mk_exn JSONDecodeError "Extra data")
      end
  | PErr msg => Raise (mk_exn JSONDecodeError msg)
  | PDepth => Raise (mk_exn RecursionError "maximum recursion depth exceeded")
  end.

(** ** The world of the script *)

(** What the tracking client hands back.  The version of a model version
    is what the store behind the registry holds: a [str] with the REST
    store, an [int] with the SQL store. *)
Record FileInfo := mk_FileInfo { fi_path : string; fi_is_dir : bool }.
Record ModelVersion := mk_ModelVersion { mv_name : string; mv_version : pyval }.
Record Run := mk_Run { info_run_id : string }.
Inductive sk_model := SkModel (id : string).

(** The calls the script makes outside itself, with their arguments. *)
Inductive call :=
| MlflowClient
| list_artifacts (run_id : pyval)
| register_model (model_uri name : string)
| transition_model_version_stage
    (name : string) (version : pyval) (stage : string)
    (archive_existing_versions : bool)
| pickle_load (data : string)
| start_run
| log_model (model : sk_model) (artifact_path registered_model_name : string)
| sleep (seconds : Z)
| search_model_versions (filter_string : string)
| end_run (status : string).

Inductive level := INFO | WARNING | ERROR.

(** An argument of a logging call; [logging] formats them later. *)
Inductive logarg :=
| AStr (s : string)
| AInt (z : Z)
| AVal (v : pyval)
| AStrs (l : list string)
| AExn (e : exn).

(** What a call outside the script returns. *)
Inductive answer :=
| RNone
| RFileInfos (l : list FileInfo)
| RModelVersion (mv : ModelVersion)
| RModelVersions (l : list ModelVersion)
| RRun (r : Run)
| RModel (m : sk_model).

(** The trace records what the script logged and printed and each call it
    made outside itself, with what the call returned or raised. *)
Inductive event :=
| Logged (lvl : level) (fmt : string) (args : list logarg)
| Printed (line : string)
| Called (c : call) (r : Res answer).

(** The runtime outside the script.  Every answer of the tracking client
    may depend on all that happened before the call. *)
Record Runtime := mk_Runtime {
  on_MlflowClient : list event -> Res unit;
  on_list_artifacts : list event -> pyval -> Res (list FileInfo);
  on_register_model : list event -> string -> string -> Res ModelVersion;
  on_transition : list event -> string -> pyval -> string -> bool -> Res unit;
  on_pickle_load : string -> Res sk_model;
  on_start_run : list event -> Res Run;
  on_log_model : list event -> sk_model -> string -> string -> Res unit;
  on_search_model_versions : list event -> string -> Res (list ModelVersion);
  on_end_run : list event -> string -> Res unit;
  (** [str] on a float, a list or a dict *)
  str_of : pyval -> string;
  (** [int] on a value that is no [str], no [int] and no [bool] *)
  int_of : pyval -> Res Z
}.

(** A path of the file store: a regular file with its content, or a path
    that [open] refuses with an error (a directory, a file without
    permission, a path under a missing directory).  A path that is absent
    can be created. *)
Inductive fnode :=
| Regular (data : string)
| Refused (e : exn).

Record World := mk_World {
  files : gmap string fnode;
  trace : list event
}.

Definition M (A : Type) : Type := World -> Res A * World.

Definition ret {A} (a : A) : M A := fun w => (Ok a, w).

Definition raise {A} (e : exn) : M A := fun w => (Raise e, w).

Definition bind {A B} (c : M A) (k : A -> M B) : M B :=
  fun w =>
    match c w with
    | (Ok a, w') => k a w'
    | (Raise e, w') => (Raise e, w')
    end.

Declare Scope py_scope.
Delimit Scope py_scope with py.
Notation "x <- c ;; k" := (bind c (fun x => k))
  (at level 20, c at level 99, k at level 200, only parsing) : py_scope.
Notation "c ;; k" := (bind c (fun _ => k))
  (at level 100, k at level 200, only parsing, right associativity) : py_scope.
Local Open Scope py_scope.

Definition emit (ev : event) (w : World) : World :=
  mk_World (files w) (trace w ++ [ev])%list.

(** [try: body except C1: h1 except C2: h2 ...]: the first clause one of
    whose classes the exception is an instance of handles it; with none,
    the exception goes on. *)
Definition handles (e : exn) {A} (clause : list exn_class * (exn -> M A)) : bool :=
  existsb (isinstance e) (fst clause).

Definition try_except {A} (body : M A)
    (clauses : list (list exn_class * (exn -> M A))) : M A :=
  fun w =>
    match body w with
    | (Ok a, w') => (Ok a, w')
    | (Raise e, w') =>
        match find (handles e) clauses with
        | Some clause => snd clause e w'
        | None => (Raise e, w')
        end
    end.

Definition logging (lvl : level) (fmt : string) (args : list logarg) : M unit :=
  fun w => (Ok tt, emit (Logged lvl fmt args) w).

Definition print (line : string) : M unit :=
  fun w => (Ok tt, emit (Printed line) w).

Definition Res_map {A B} (f : A -> B) (r : Res A) : Res B :=
  match r with
  | Ok a => Ok (f a)
  | Raise e => Raise e
  end.

(** A call outside the script: the runtime answers from what happened
    before it, and the call is recorded with its outcome. *)
Definition extcall {A} (c : call) (inj : A -> answer)
    (respond : list event -> Res A) : M A :=
  fun w =>
    let r := respond (trace w) in
    (r, emit (Called c (Res_map inj r)) w).

(** [open(path, 'r')] or [open(path, 'rb')] and reading the file. *)
Definition open_read (path : string) : M string :=
  fun w =>
    match files w !! path with
    | Some (Regular data) => (Ok data, w)
    | Some (Refused e) => (Raise e, w)
    | None =>
        (Raise (mk_exn FileNotFoundError
                  ("[Errno 2] No such file or directory: '" +:+ path +:+ "'")), w)
    end.

(** [open(path, 'w')] and writing [data]. *)
Definition open_write (path data : string) : M unit :=
  fun w =>
    match files w !! path with
    | Some (Refused e) => (Raise e, w)
    | _ => (Ok tt, mk_World (<[path := Regular data]> (files w)) (trace w))
    end.

Definition lift {A} (r : Res A) : M A := fun w => (r, w).

(** [obj[key]] with a string key. *)
Definition getitem (obj : pyval) (key : string) : M pyval :=
  match obj with
  | PDict d =>
      match dict_get d key with
      | Some v => ret v
      | None => raise (mk_exn KeyError ("'" +:+ key +:+ "'"))
      end
  | PList _ =>
      raise (mk_exn TypeError "list indices must be integers or slices, not str")
  | PStr _ => raise (mk_exn TypeError "string indices must be integers, not 'str'")
  | PNone => raise (mk_exn TypeError "'NoneType' object is not subscriptable")
  | PBool _ => raise (mk_exn TypeError "'bool' object is not subscriptable")
  | PInt _ => raise (mk_exn TypeError "'int' object is not subscriptable")
  | PFloat _ => raise (mk_exn TypeError "'float' object is not subscriptable")
  end.

(** [x in l] for a list of strings: some element equals [x]. *)
Definition py_in (x : pyval) (l : list string) : bool :=
  match x with
  | PStr s => existsb (String.eqb s) l
  | _ => false
  end.

(** A list comprehension whose element expression can raise. *)
Fixpoint comprehension {A B} (f : A -> M B) (l : list A) : M (list B) :=
  match l with
  | [] => ret []
  | x :: rest => y <- f x ;; ys <- comprehension f rest ;; ret (y :: ys)
  end.

Definition py_max (l : list Z) : M Z :=
  match l with
  | [] => raise (mk_exn ValueError "max() iterable argument is empty")
  | x :: rest => ret (fold_left Z.max rest x)
  end.

(** ** The script *)

Section Script.

Variable rt : Runtime.

(** [str(v)], as the f-strings of the script apply it. *)
Definition py_str (v : pyval) : string :=
  match v with
  | PStr s => s
  | PInt z => str_of_int z
  | PNone => "None"
  | PBool true => "True"
  | PBool false => "False"
  | _ => str_of rt v
  end.

(** [int(v)], raising as Python does (the literal is shown between quotes,
    without the escapes of [repr]). *)
Definition py_int_val (v : pyval) : Res Z :=
  match v with
  | PStr s =>
      match py_int s with
      | Some z => Ok z
      | None =>
          Raise (mk_exn ValueError
                   ("invalid literal for int() with base 10: '" +:+ s +:+ "'"))
      end
  | PInt z => Ok z
  | PBool true => Ok 1%Z
  | PBool false => Ok 0%Z
  | _ => int_of rt v
  end.

Definition int_ (v : pyval) : M Z := lift (py_int_val v).

Definition new_MlflowClient : M unit :=
  extcall MlflowClient (fun _ => RNone) (on_MlflowClient rt).

Definition client_list_artifacts (run_id : pyval) : M (list FileInfo) :=
  extcall (list_artifacts run_id) RFileInfos (fun h => on_list_artifacts rt h run_id).

Definition mlflow_register_model (model_uri name : string) : M ModelVersion :=
  extcall (register_model model_uri name) RModelVersion
    (fun h => on_register_model rt h model_uri name).

Definition client_transition_model_version_stage
    (name : string) (version : pyval) (stage : string)
    (archive_existing_versions : bool) : M unit :=
  extcall (transition_model_version_stage name version stage archive_existing_versions)
    (fun _ => RNone)
    (fun h => on_transition rt h name version stage archive_existing_versions).

Definition pickle_load_ (data : string) : M sk_model :=
  extcall (pickle_load data) RModel (fun _ => on_pickle_load rt data).

Definition mlflow_sklearn_log_model
    (model : sk_model) (artifact_path registered_model_name : string) : M unit :=
  extcall (log_model model artifact_path registered_model_name) (fun _ => RNone)
    (fun h => on_log_model rt h model artifact_path registered_model_name).

Definition time_sleep (seconds : Z) : M unit :=
  extcall (sleep seconds) (fun _ => RNone) (fun _ => Ok tt).

Definition client_search_model_versions (filter_string : string)
  : M (list ModelVersion) :=
  extcall (search_model_versions filter_string) RModelVersions
    (fun h => on_search_model_versions rt h filter_string).

Definition mlflow_end_run (status : string) : M unit :=
  extcall (end_run status) (fun _ => RNone) (fun h => on_end_run rt h status).

(** [with mlflow.start_run() as run: body].  Leaving the block ends the
    run, as finished or as failed; an exception of the body goes on
    unless ending the run raises one of its own. *)
Definition with_start_run {A} (body : Run -> M A) : M A :=
  run <- extcall start_run RRun (on_start_run rt) ;;
  fun w =>
    match body run w with
    | (Ok a, w1) =>
        match mlflow_end_run "FINISHED" w1 with
        | (Ok _, w2) => (Ok a, w2)
        | (Raise e', w2) => (Raise e', w2)
        end
    | (Raise e, w1) =>
        match mlflow_end_run "FAILED" w1 with
        | (Ok _, w2) => (Raise e, w2)
        | (Raise e', w2) => (Raise e', w2)
        end
    end.

(** The [try] suite of [load_model_info]. *)
Definition load_model_info_try (file_path : string) : M pyval :=
  text <- open_read file_path ;;
  model_info <- lift (json_loads text) ;;
  logging INFO "Model info loaded from %s" [AStr file_path] ;;
  ret model_info.

Definition load_model_info (file_path : string) : M pyval :=
  try_except (load_model_info_try file_path)
    [ ([FileNotFoundError], fun e =>
         logging ERROR "File not found: %s" [AStr file_path] ;;
         raise e);
      ([JSONDecodeError], fun e =>
         logging ERROR "Failed to parse JSON file: %s" [AExn e] ;;
         raise e);
      ([Exception], fun e =>
         logging ERROR "Unexpected error occurred while loading model info: %s"
           [AExn e] ;;
         raise e) ].

Definition verify_run_artifacts_try (run_id : pyval) : M (list string) :=
  new_MlflowClient ;;
  artifacts <- client_list_artifacts run_id ;;
  let artifact_paths := map fi_path artifacts in
  logging INFO "Found artifacts in run %s: %s" [AVal run_id; AStrs artifact_paths] ;;
  ret artifact_paths.

Definition verify_run_artifacts (run_id : pyval) : M (list string) :=
  try_except (verify_run_artifacts_try run_id)
    [ ([Exception], fun e =>
         logging ERROR "Error listing artifacts: %s" [AExn e] ;;
         ret []) ].

Definition register_model_from_run_try
    (run_id model_path : pyval) (model_name : string) : M pyval :=
  new_MlflowClient ;;
  artifacts <- verify_run_artifacts run_id ;;
  if negb (py_in model_path artifacts) then
    raise (mk_exn ValueError
             ("Model artifact '" +:+ py_str model_path
              +:+ "' not found in run. Available artifacts: "
              +:+ py_str (PList (map PStr artifacts))))
  else
    let model_uri := "runs:/" +:+ py_str run_id +:+ "/" +:+ py_str model_path in
    logging INFO "Model URI: %s" [AStr model_uri] ;;
    model_details <- mlflow_register_model model_uri model_name ;;
    logging INFO "Model registered with name: %s, version: %s"
      [AStr (mv_name model_details); AVal (mv_version model_details)] ;;
    client_transition_model_version_stage
      model_name (mv_version model_details) "Staging" false ;;
    logging INFO "Model version %s transitioned to Staging"
      [AVal (mv_version model_details)] ;;
    ret (mv_version model_details).

Definition register_model_from_run
    (run_id model_path : pyval) (model_name : string) : M pyval :=
  try_except (register_model_from_run_try run_id model_path model_name)
    [ ([Exception], fun e =>
         logging ERROR "Error during model registration: %s" [AExn e] ;;
         raise e) ].

(** The suite of the [with mlflow.start_run()] block. *)
Definition register_model_directly_run
    (model : sk_model) (model_name : string) (run : Run) : M string :=
  mlflow_sklearn_log_model model "model" model_name ;;
  logging INFO "Model logged and registered to MLflow" [] ;;
  let run_id := info_run_id run in
  time_sleep 2 ;;
  new_MlflowClient ;;
  model_versions <-
    client_search_model_versions ("name='" +:+ model_name +:+ "'") ;;
  match model_versions with
  | [] =>
      raise (mk_exn ValueError
               ("No versions found for model '" +:+ model_name +:+ "'"))
  | _ :: _ =>
      numbers <- comprehension (fun mv => int_ (mv_version mv)) model_versions ;;
      latest_version <- py_max numbers ;;
      logging INFO "Model registered with name: %s, version: %s"
        [AStr model_name; AInt latest_version] ;;
      client_transition_model_version_stage
        model_name (PStr (str_of_int latest_version)) "Staging" false ;;
      logging INFO "Model version %s transitioned to Staging"
        [AInt latest_version] ;;
      ret (str_of_int latest_version)
  end.

Definition register_model_directly_try
    (model_file_path model_name : string) : M string :=
  data <- open_read model_file_path ;;
  model <- pickle_load_ data ;;
  logging INFO "Model loaded from %s" [AStr model_file_path] ;;
  with_start_run (register_model_directly_run model model_name).

Definition register_model_directly
    (model_file_path model_name : string) : M string :=
  try_except (register_model_directly_try model_file_path model_name)
    [ ([Exception], fun e =>
         logging ERROR "Error during direct model registration: %s" [AExn e] ;;
         raise e) ].

Definition registered_info (model_name : string) (version : pyval) : pyval :=
  PDict [ ("model_name", PStr model_name);
          ("version", version);
          ("stage", PStr "Staging") ].

Definition save_registered_model_info_try
    (model_name : string) (version : pyval) (file_path : string) : M unit :=
  open_write file_path (json_dumps_indent4 (registered_info model_name version)) ;;
  logging INFO "Registered model info saved to %s" [AStr file_path].

Definition save_registered_model_info
    (model_name : string) (version : pyval) (file_path : string) : M unit :=
  try_except (save_registered_model_info_try model_name version file_path)
    [ ([Exception], fun e =>
         logging ERROR "Error occurred while saving registered model info: %s"
           [AExn e] ;;
         raise e) ].

(** The inner [try] suite of [main]: register from the known run. *)
Definition main_from_run (model_name : string) : M pyval :=
  model_info <- load_model_info "reports/experiment_info.json" ;;
  run_id <- getitem model_info "run_id" ;;
  model_path <- getitem model_info "model_path" ;;
  logging INFO "Retrieved run_id: %s, model_path: %s" [AVal run_id; AVal model_path] ;;
  version <- register_model_from_run run_id model_path model_name ;;
  print ("Model '" +:+ model_name +:+ "' version " +:+ py_str version
         +:+ " successfully registered from run " +:+ py_str run_id +:+ "!") ;;
  ret version.

(** The handler of the inner [try]: register from the saved file. *)
Definition main_fallback (model_name : string) (e : exn) : M pyval :=
  logging WARNING "Could not register from existing run: %s" [AExn e] ;;
  logging INFO "Attempting to register model directly from file..." [] ;;
  let model_file_path := "./models/model.pkl" in
  version <- register_model_directly model_file_path model_name ;;
  print ("Model '" +:+ model_name +:+ "' version " +:+ version
         +:+ " successfully registered from file!") ;;
  ret (PStr version).

Definition main_finish (model_name : string) (version : pyval) : M unit :=
  save_registered_model_info model_name version "reports/registered_model_info.json" ;;
  print "Model transitioned to Staging stage.".

Definition main_failed (e : exn) : M unit :=
  logging ERROR "Failed to complete the model registration process: %s" [AExn e] ;;
  print ("Error: " +:+ exn_str e) ;;
  raise e.

Definition main_try : M unit :=
  let model_name := "sentiment_model" in
  version <-
    try_except (main_from_run model_name)
      [ ([FileNotFoundError; ValueError], main_fallback model_name) ] ;;
  main_finish model_name version.

Definition main : M unit :=
  try_except main_try [ ([Exception], main_failed) ].

End Script.

(** * The vocabulary of the properties *)

(** The world [w] after the events [evs]. *)
Definition emits (evs : list event) (w : World) : World :=
  mk_World (files w) (trace w ++ evs)%list.

(** The events through which the script changes the model registry. *)
Definition registry_write (ev : event) : bool :=
  match ev with
  | Called (register_model _ _) _
  | Called (transition_model_version_stage _ _ _ _) _
  | Called (log_model _ _ _) _ => true
  | _ => false
  end.

(** [x in l], as a proposition. *)
Definition among (x : pyval) (l : list string) : Prop :=
  exists s, x = PStr s /\ In s l.

(** [m] is the greatest number of [l]. *)
Definition maximum (m : Z) (l : list Z) : Prop :=
  In m l /\ Forall (fun z => z <= m)%Z l.

(** The trace of the [with] suite of [register_model_directly] when it
    returns: the model is logged, the client reports [versions], and the
    version [latest] is staged. *)
Definition suite_events (model : sk_model) (model_name : string)
    (versions : list ModelVersion) (latest : Z) : list event :=
  [ Called (log_model model "model" model_name) (Ok RNone);
    Logged INFO "Model logged and registered to MLflow" [];
    Called (sleep 2) (Ok RNone);
    Called MlflowClient (Ok RNone);
    Called (search_model_versions ("name='" +:+ model_name +:+ "'"))
      (Ok (RModelVersions versions));
    Logged INFO "Model registered with name: %s, version: %s"
      [AStr model_name; AInt latest];
    Called (transition_model_version_stage
              model_name (PStr (str_of_int latest)) "Staging" false) (Ok RNone);
    Logged INFO "Model version %s transitioned to Staging" [AInt latest] ].

(** The client reports no version of the model. *)
Definition no_versions (model_name : string) : event :=
  Called (search_model_versions ("name='" +:+ model_name +:+ "'"))
    (Ok (RModelVersions [])).

(** The outcome [r], in the world [w'], of a call in the world [w] that
    did [evs]: a version that is returned is [str] of the greatest number
    that [int] reads in the versions the client reported, and it reported
    them after the model was logged; when the client reported no version,
    the run is ended as failed and an error is raised: the [ValueError]
    of line 118 when ending the run returned, and the error of ending the
    run when that raised. *)
Definition latest_version_outcome (rt : Runtime) (model_name : string) (w : World)
    (r : Res string) (w' : World) : Prop :=
  exists evs,
    w' = emits evs w
    /\ (forall version, r = Ok version ->
        exists before versions numbers latest after,
          evs = before
                ++ Called (search_model_versions ("name='" +:+ model_name +:+ "'"))
                     (Ok (RModelVersions versions)) :: after
          /\ (exists model,
                 In (Called (log_model model "model" model_name) (Ok RNone)) before)
          /\ Forall2 (fun mv z => py_int_val rt (mv_version mv) = Ok z) versions numbers
          /\ maximum latest numbers
          /\ version = str_of_int latest)
    /\ (In (no_versions model_name) evs ->
        exists ended : Res unit,
          In (Called (end_run "FAILED") (Res_map (fun _ => RNone) ended)) evs
          /\ r = Raise match ended with
                       | Ok _ =>
                           mk_exn ValueError
                             ("No versions found for model '" +:+ model_name +:+ "'")
                       | Raise e => e
                       end).

(** The last change to the registry among [evs] moves [version] of
    [model_name] to the stage Staging, without archiving. *)
Definition staged_last (model_name : string) (version : pyval)
    (evs : list event) : Prop :=
  exists before after,
    evs = before
          ++ Called (transition_model_version_stage model_name version "Staging" false)
               (Ok RNone) :: after
    /\ existsb registry_write after = false.

(** [main] from the handler of the inner [try] on: register from the saved
    file, save the information, and the outer handler around both. *)
Definition main_after_fallback (rt : Runtime) (e : exn) : M unit :=
  try_except
    (bind (main_fallback rt "sentiment_model" e) (main_finish "sentiment_model"))
    [ ([Exception], main_failed) ].

(** [open(path, 'w')] succeeds. *)
Definition writable (w : World) (path : string) : Prop :=
  forall e, files w !! path <> Some (Refused e).

(** The text between two members of an object at level 1: a comma, a new
    line, four spaces and the quote that opens the next key. *)
Definition next_member (rest : string) : string :=
  String "," (String newline
    (String " " (String " " (String " " (String " " (String dquote rest)))))).

(** A member whose value is a string, from its key on: the key, a colon, a
    space, the value between quotes. *)
Definition member (key value rest : string) : string :=
  escape key +:+ String dquote (String ":" (String " " (String dquote
    (escape value +:+ String dquote rest)))).

(** Two worlds with the same trace and the same files, the file at [p]
    apart. *)
Definition same_but (p : string) (w1 w2 : World) : Prop :=
  trace w1 = trace w2 /\ forall q, q <> p -> files w1 !! q = files w2 !! q.

(** Two outcomes with the same result, in worlds that differ at most in
    the file at [p]. *)
Definition agree (p : string) {A} (x y : Res A * World) : Prop :=
  fst x = fst y /\ same_but p (snd x) (snd y).

(** A computation that does not depend on the file at [p]. *)
Definition ignores (p : string) {A} (c : M A) : Prop :=
  forall w1 w2, same_but p w1 w2 -> agree p (c w1) (c w2).

(** Lines 168 to 172 of [main]: registering from the run, once the two
    fields are read. *)
Definition register_known_run (rt : Runtime) (model_name : string)
    (run_id model_path : pyval) : M pyval :=
  bind (logging INFO "Retrieved run_id: %s, model_path: %s"
          [AVal run_id; AVal model_path]) (fun _ =>
  bind (register_model_from_run rt run_id model_path model_name) (fun version =>
  bind (print ("Model '" +:+ model_name +:+ "' version " +:+ py_str rt version
               +:+ " successfully registered from run " +:+ py_str rt run_id +:+ "!"))
       (fun _ => ret version))).

(** [main_from_run] after [load_model_info] returned the dict [d]. *)
Definition with_model_info (rt : Runtime) (model_name : string)
    (d : list (string * pyval)) : M pyval :=
  bind (getitem (PDict d) "run_id") (fun run_id =>
  bind (getitem (PDict d) "model_path") (fun model_path =>
  register_known_run rt model_name run_id model_path)).

(** * Concrete runtimes and worlds *)

(** A runtime in which every call succeeds: the run has the artifact
    [model], the registry gives version 3 to a model registered from a
    run, and reports the versions 2 and 10 of a model. *)
Definition quiet_runtime : Runtime :=
  {| on_MlflowClient := fun _ => Ok tt;
     on_list_artifacts := fun _ _ => Ok [mk_FileInfo "model" true];
     on_register_model := fun _ _ name => Ok (mk_ModelVersion name (PStr "3"));
     on_transition := fun _ _ _ _ _ => Ok tt;
     on_pickle_load := fun data => Ok (SkModel data);
     on_start_run := fun _ => Ok (mk_Run "run-1");
     on_log_model := fun _ _ _ _ => Ok tt;
     on_search_model_versions := fun _ _ =>
       Ok [mk_ModelVersion "sentiment_model" (PStr "2");
           mk_ModelVersion "sentiment_model" (PStr "10")];
     on_end_run := fun _ _ => Ok tt;
     str_of := fun v =>
       match v with
       | PList [] => "[]"
       | PDict [] => "{}"
       | _ => "<object>"
       end;
     int_of := fun _ =>
       Raise (mk_exn TypeError "int() argument must be a string or a real number") |}.

(** The same, with a registry that refuses to register a model from a
    run. *)
Definition registry_refuses : Runtime :=
  {| on_MlflowClient := on_MlflowClient quiet_runtime;
     on_list_artifacts := on_list_artifacts quiet_runtime;
     on_register_model := fun _ _ _ =>
       Raise (mk_exn MlflowException "RESOURCE_DOES_NOT_EXIST");
     on_transition := on_transition quiet_runtime;
     on_pickle_load := on_pickle_load quiet_runtime;
     on_start_run := on_start_run quiet_runtime;
     on_log_model := on_log_model quiet_runtime;
     on_search_model_versions := on_search_model_versions quiet_runtime;
     on_end_run := on_end_run quiet_runtime;
     str_of := str_of quiet_runtime;
     int_of := int_of quiet_runtime |}.

(** The same, with a client that cannot list the artifacts of a run. *)
Definition listing_fails : Runtime :=
  {| on_MlflowClient := on_MlflowClient quiet_runtime;
     on_list_artifacts := fun _ _ =>
       Raise (mk_exn MlflowException "RESOURCE_DOES_NOT_EXIST");
     on_register_model := on_register_model quiet_runtime;
     on_transition := on_transition quiet_runtime;
     on_pickle_load := on_pickle_load quiet_runtime;
     on_start_run := on_start_run quiet_runtime;
     on_log_model := on_log_model quiet_runtime;
     on_search_model_versions := on_search_model_versions quiet_runtime;
     on_end_run := on_end_run quiet_runtime;
     str_of := str_of quiet_runtime;
     int_of := int_of quiet_runtime |}.

(** The same, with a registry that reports no version of any model. *)
Definition no_version_reported : Runtime :=
  {| on_MlflowClient := on_MlflowClient quiet_runtime;
     on_list_artifacts := on_list_artifacts quiet_runtime;
     on_register_model := on_register_model quiet_runtime;
     on_transition := on_transition quiet_runtime;
     on_pickle_load := on_pickle_load quiet_runtime;
     on_start_run := on_start_run quiet_runtime;
     on_log_model := on_log_model quiet_runtime;
     on_search_model_versions := fun _ _ => Ok [];
     on_end_run := on_end_run quiet_runtime;
     str_of := str_of quiet_runtime;
     int_of := int_of quiet_runtime |}.

(** [s] between double quotes. *)
Definition quoted (s : string) : string := String dquote (s +:+ str1 dquote).

(** [{"run_id": "abc123", "model_path": "model"}] *)
Definition experiment_info_text : string :=
  "{" +:+ quoted "run_id" +:+ ": " +:+ quoted "abc123" +:+ ", "
  +:+ quoted "model_path" +:+ ": " +:+ quoted "model" +:+ "}".

(** [{"model_path": "model", "metrics": [1, 2], "run_id": "abc123"}] *)
Definition experiment_info_text' : string :=
  "{" +:+ quoted "model_path" +:+ ": " +:+ quoted "model" +:+ ", "
  +:+ quoted "metrics" +:+ ": [1, 2], "
  +:+ quoted "run_id" +:+ ": " +:+ quoted "abc123" +:+ "}".

(** Both files of the script are there. *)
Definition world_known_run : World :=
  {| files := {[ "reports/experiment_info.json" := Regular experiment_info_text;
                 "./models/model.pkl" := Regular "pickled model" ]};
     trace := [] |}.

(** The same, with the other text in experiment_info.json. *)
Definition world_known_run' : World :=
  {| files := {[ "reports/experiment_info.json" := Regular experiment_info_text';
                 "./models/model.pkl" := Regular "pickled model" ]};
     trace := [] |}.

(** Only the saved model is there. *)
Definition world_saved_model : World :=
  {| files := {[ "./models/model.pkl" := Regular "pickled model" ]};
     trace := [] |}.

(** A registry that reports a version that is no number. *)
Definition version_is_no_number : Runtime :=
  {| on_MlflowClient := on_MlflowClient quiet_runtime;
     on_list_artifacts := on_list_artifacts quiet_runtime;
     on_register_model := on_register_model quiet_runtime;
     on_transition := on_transition quiet_runtime;
     on_pickle_load := on_pickle_load quiet_runtime;
     on_start_run := on_start_run quiet_runtime;
     on_log_model := on_log_model quiet_runtime;
     on_search_model_versions := fun _ _ =>
       Ok [mk_ModelVersion "sentiment_model" (PStr "v1")];
     on_end_run := on_end_run quiet_runtime;
     str_of := str_of quiet_runtime;
     int_of := int_of quiet_runtime |}.

(** experiment_info.json holds [{"model_path": "model"}]. *)
Definition world_no_run_id : World :=
  {| files := {[ "reports/experiment_info.json" :=
                   Regular ("{" +:+ quoted "model_path" +:+ ": " +:+ quoted "model" +:+ "}");
                 "./models/model.pkl" := Regular "pickled model" ]};
     trace := [] |}.

(** experiment_info.json holds [[1, 2]]. *)
Definition world_not_an_object : World :=
  {| files := {[ "reports/experiment_info.json" := Regular "[1, 2]";
                 "./models/model.pkl" := Regular "pickled model" ]};
     trace := [] |}.

(** experiment_info.json holds a line that is no JSON. *)
Definition world_invalid_json : World :=
  {| files := {[ "reports/experiment_info.json" := Regular "run_id: abc123";
                 "./models/model.pkl" := Regular "pickled model" ]};
     trace := [] |}.

(** * More vocabulary: files and traces *)

(** [c] changes no file. *)
Definition keeps_files {A} (c : M A) : Prop :=
  forall w, files (snd (c w)) = files w.

(** [c] changes no file but, at most, the file at [p]. *)
Definition writes_only (p : string) {A} (c : M A) : Prop :=
  forall w q, q <> p -> files (snd (c w)) !! q = files w !! q.

(** [c] only adds to the trace. *)
Definition grows {A} (c : M A) : Prop :=
  forall w, exists evs, trace (snd (c w)) = trace w ++ evs.

(** A stage transition that succeeded. *)
Definition staged (ev : event) : bool :=
  match ev with
  | Called (transition_model_version_stage _ _ _ _) (Ok _) => true
  | _ => false
  end.

(** What [verify_run_artifacts] does and returns: the client could not be
    created, or the listing failed, or the artifacts were listed. *)
Definition verified (run_id : pyval) (paths : list string) (evs : list event) : Prop :=
  (exists e,
      paths = []
      /\ evs = [ Called MlflowClient (Raise e);
                 Logged ERROR "Error listing artifacts: %s" [AExn e] ])
  \/ (exists e,
         paths = []
         /\ evs = [ Called MlflowClient (Ok RNone);
                    Called (list_artifacts run_id) (Raise e);
                    Logged ERROR "Error listing artifacts: %s" [AExn e] ])
  \/ (exists artifacts,
         paths = map fi_path artifacts
         /\ evs = [ Called MlflowClient (Ok RNone);
                    Called (list_artifacts run_id) (Ok (RFileInfos artifacts));
                    Logged INFO "Found artifacts in run %s: %s"
                      [AVal run_id; AStrs (map fi_path artifacts)] ]).

(** The URI under which [register_model_from_run] registers. *)
Definition model_uri (rt : Runtime) (run_id model_path : pyval) : string :=
  "runs:/" +:+ py_str rt run_id +:+ "/" +:+ py_str rt model_path.

(** The trace of the [with] suite of [register_model_directly] up to the
    answer [r] to its search. *)
Definition until_search (model : sk_model) (model_name : string)
    (r : Res answer) : list event :=
  [ Called (log_model model "model" model_name) (Ok RNone);
    Logged INFO "Model logged and registered to MLflow" [];
    Called (sleep 2) (Ok RNone);
    Called MlflowClient (Ok RNone);
    Called (search_model_versions ("name='" +:+ model_name +:+ "'")) r ].

(** How the run is ended when the [with] suite ends with [r]. *)
Definition run_status {A} (r : Res A) : string :=
  match r with
  | Ok _ => "FINISHED"
  | Raise _ => "FAILED"
  end.

(** What leaves the [with] block when the suite ends with [r] and ending
    the run answers [ended]. *)
Definition after_run {A} (r : Res A) (ended : Res unit) : Res A :=
  match ended with
  | Ok _ => r
  | Raise e => Raise e
  end.

(** What the handler of [register_model_directly] logs. *)
Definition direct_error_log {A} (r : Res A) : list event :=
  match r with
  | Ok _ => []
  | Raise e => [Logged ERROR "Error during direct model registration: %s" [AExn e]]
  end.

(** The characters of an ASCII text file: the printable ones, and the new
    line. *)
Definition printable_or_newline (c : ascii) : bool :=
  ((32 <=? ord c)%N && (ord c <=? 126)%N) || (ord c =? 10)%N.

Fixpoint ascii_text (s : string) : bool :=
  match s with
  | EmptyString => true
  | String c rest => printable_or_newline c && ascii_text rest
  end.

(** The successful move of a version of a model to Staging. *)
Definition staging (model_name : string) (version : pyval) : event :=
  Called (transition_model_version_stage model_name version "Staging" false) (Ok RNone).

(** The stage transitions that succeeded, when a registration ends with
    [r]: the one of the returned version, or none. *)
Definition staged_by (model_name : string) (r : Res pyval) : list event :=
  match r with
  | Ok version => [staging model_name version]
  | Raise _ => []
  end.

(** * The diagnostic script (test.py)

    The script is one module-level suite: it reads
    reports/experiment_info.json, prints it, and lists the artifacts of
    the run on the standard output.  The model starts at line 16, after
    the tracking URI has been set.  [json.dumps(model_info, indent=2)] is
    a function of the runtime: no property depends on the text. *)

Module TestScript.

(** The calls of the script to the tracking client:
    [client.list_artifacts(run_id)] has no path,
    [client.list_artifacts(run_id, artifact.path)] has one. *)
Inductive call :=
| MlflowClient
| list_artifacts (run_id : pyval) (path : option string).

(** What the script printed and each call it made, with what the call
    returned or raised. *)
Inductive event :=
| Printed (line : string)
| Called (c : call) (r : Res answer).

Record Runtime := mk_Runtime {
  on_MlflowClient : list event -> Res unit;
  on_list_artifacts : list event -> pyval -> option string -> Res (list FileInfo);
  (** [str] on a float, a list or a dict *)
  str_of : pyval -> string;
  (** [json.dumps(v, indent=2)] *)
  json_dumps_indent2 : pyval -> string
}.

(** The script changes no file: its state is what it has printed and
    called so far. *)
Definition M (A : Type) : Type := list event -> Res A * list event.

Definition ret {A} (a : A) : M A := fun h => (Ok a, h).

Definition raise {A} (e : exn) : M A := fun h => (Raise e, h).

Definition lift {A} (r : Res A) : M A := fun h => (r, h).

Definition bind {A B} (c : M A) (k : A -> M B) : M B :=
  fun h =>
    match c h with
    | (Ok a, h') => k a h'
    | (Raise e, h') => (Raise e, h')
    end.

Declare Scope test_scope.
Delimit Scope test_scope with test.
Notation "x <- c ;; k" := (bind c (fun x => k))
  (at level 20, c at level 99, k at level 200, only parsing) : test_scope.
Notation "c ;; k" := (bind c (fun _ => k))
  (at level 100, k at level 200, only parsing, right associativity) : test_scope.
Local Open Scope test_scope.

Definition print (line : string) : M unit :=
  fun h => (Ok tt, h ++ [Printed line]).

Definition extcall {A} (c : call) (inj : A -> answer)
    (respond : list event -> Res A) : M A :=
  fun h =>
    let r := respond h in
    (r, h ++ [Called c (Res_map inj r)]).

(** [try: body except Exception as e: handler]. *)
Definition try_except_Exception {A} (body : M A) (handler : exn -> M A) : M A :=
  fun h =>
    match body h with
    | (Ok a, h') => (Ok a, h')
    | (Raise e, h') => if isinstance e Exception then handler e h' else (Raise e, h')
    end.

(** [for x in l: body]. *)
Fixpoint for_each {A} (l : list A) (body : A -> M unit) : M unit :=
  match l with
  | [] => ret tt
  | x :: rest => body x ;; for_each rest body
  end.

(** [open(path, 'r')] and reading the file. *)
Definition open_read (fs : gmap string fnode) (path : string) : M string :=
  lift match fs !! path with
       | Some (Regular data) => Ok data
       | Some (Refused e) => Raise e
       | None =>
           Raise (mk_exn FileNotFoundError
                    ("[Errno 2] No such file or directory: '" +:+ path +:+ "'"))
       end.

(** [obj[key]] with a string key. *)
Definition getitem (obj : pyval) (key : string) : M pyval :=
  match obj with
  | PDict d =>
      match dict_get d key with
      | Some v => ret v
      | None => raise (mk_exn KeyError ("'" +:+ key +:+ "'"))
      end
  | PList _ =>
      raise (mk_exn TypeError "list indices must be integers or slices, not str")
  | PStr _ => raise (mk_exn TypeError "string indices must be integers, not 'str'")
  | PNone => raise (mk_exn TypeError "'NoneType' object is not subscriptable")
  | PBool _ => raise (mk_exn TypeError "'bool' object is not subscriptable")
  | PInt _ => raise (mk_exn TypeError "'int' object is not subscriptable")
  | PFloat _ => raise (mk_exn TypeError "'float' object is not subscriptable")
  end.

Definition str_of_bool (b : bool) : string := if b then "True" else "False".

Section Script.

Variable rt : Runtime.
Variable fs : gmap string fnode.

(** [str(v)], as the f-strings of the script apply it. *)
Definition py_str (v : pyval) : string :=
  match v with
  | PStr s => s
  | PInt z => str_of_int z
  | PNone => "None"
  | PBool b => str_of_bool b
  | _ => str_of rt v
  end.

Definition new_MlflowClient : M unit :=
  extcall MlflowClient (fun _ => RNone) (on_MlflowClient rt).

Definition client_list_artifacts (run_id : pyval) (path : option string)
  : M (list FileInfo) :=
  extcall (list_artifacts run_id path) RFileInfos
    (fun h => on_list_artifacts rt h run_id path).

(** Lines 40 to 46: one artifact of the run and, for a directory, what
    it holds. *)
Definition show_artifact (run_id : pyval) (artifact : FileInfo) : M unit :=
  print ("  - " +:+ fi_path artifact
         +:+ " (is_dir: " +:+ str_of_bool (fi_is_dir artifact) +:+ ")") ;;
  if fi_is_dir artifact then
    sub_artifacts <- client_list_artifacts run_id (Some (fi_path artifact)) ;;
    for_each sub_artifacts (fun sub_art => print ("    - " +:+ fi_path sub_art))
  else ret tt.

(** Lines 32 to 52: the [try] suite. *)
Definition listing (run_id : pyval) : M unit :=
  artifacts <- client_list_artifacts run_id None ;;
  print (String newline ("Available artifacts in run " +:+ py_str run_id +:+ ":")) ;;
  print (repeat_str 50 "-") ;;
  match artifacts with
  | [] => print "No artifacts found!"
  | _ => for_each artifacts (show_artifact run_id)
  end ;;
  print (String newline (repeat_str 50 "=")) ;;
  print (String newline "Suggested fixes:") ;;
  print "1. Check if the model was logged with a different artifact_path" ;;
  print "2. Update 'model_path' in experiment_info.json to match the actual artifact path" ;;
  print "3. Re-run your training script to ensure the model is logged correctly".

(** Lines 16 to 55. *)
Definition script : M unit :=
  text <- open_read fs "reports/experiment_info.json" ;;
  model_info <- lift (json_loads text) ;;
  print "Model Info from JSON:" ;;
  print (json_dumps_indent2 rt model_info) ;;
  print (String newline (repeat_str 50 "=" +:+ str1 newline)) ;;
  run_id <- getitem model_info "run_id" ;;
  print ("Run ID: " +:+ py_str run_id) ;;
  new_MlflowClient ;;
  try_except_Exception (listing run_id)
    (fun e => print ("Error listing artifacts: " +:+ exn_str e)).

End Script.

(** The directories whose contents a trace asked for, in order. *)
Fixpoint sub_listings (evs : list event) : list string :=
  match evs with
  | [] => []
  | Called (list_artifacts _ (Some path)) _ :: rest => path :: sub_listings rest
  | _ :: rest => sub_listings rest
  end.

(** The calls of a trace that listed artifacts. *)
Definition is_listing (ev : event) : bool :=
  match ev with
  | Called (list_artifacts _ _) _ => true
  | _ => false
  end.

(** The calls of a trace that raised. *)
Definition failed (ev : event) : bool :=
  match ev with
  | Called _ (Raise _) => true
  | _ => false
  end.

(** The paths of the directories among the artifacts. *)
Definition directories (artifacts : list FileInfo) : list string :=
  map fi_path (List.filter fi_is_dir artifacts).

(** Every call of the trace asks what a directory of the run holds. *)
Definition asks_only (run_id : pyval) (evs : list event) : Prop :=
  forall c ans, In (Called c ans) evs -> exists p, c = list_artifacts run_id (Some p).

(** The trace ends with the one call that raised: asking what a directory
    holds raised [e]. *)
Definition stops_at (e : exn) (run_id : pyval) (evs : list event) : Prop :=
  exists evs0 p,
    evs = evs0 ++ [Called (list_artifacts run_id (Some p)) (Raise e)]
    /\ List.filter failed evs0 = [].

(** What showing the artifacts does: it asks for every directory in turn,
    up to the first call that raises. *)
Definition shown (run_id : pyval) (artifacts : list FileInfo) (r : Res unit)
    (evs : list event) : Prop :=
  asks_only run_id evs
  /\ match r with
     | Ok _ => sub_listings evs = directories artifacts /\ List.filter failed evs = []
     | Raise e => sub_listings evs `prefix_of` directories artifacts /\ stops_at e run_id evs
     end.

Definition only_prints (evs : list event) : Prop :=
  forall c ans, ~ In (Called c ans) evs.

(** What the [try] suite does: it lists the run, and shows what it got. *)
Definition listed (run_id : pyval) (r : Res unit) (evs : list event) : Prop :=
  exists first evs1,
    evs = Called (list_artifacts run_id None) (Res_map RFileInfos first) :: evs1
    /\ match first with
       | Raise e => r = Raise e /\ evs1 = []
       | Ok artifacts => shown run_id artifacts r evs1
       end.

(** reports/experiment_info.json holds an object whose [run_id] is
    [run_id]. *)
Definition names_run (fs : gmap string fnode) (run_id : pyval) : Prop :=
  exists text d,
    fs !! "reports/experiment_info.json" = Some (Regular text)
    /\ json_loads text = Ok (PDict d)
    /\ dict_get d "run_id" = Some run_id.

(** What the handler prints. *)
Definition error_line (r : Res unit) : list event :=
  match r with
  | Ok _ => []
  | Raise e => [Printed ("Error listing artifacts: " +:+ exn_str e)]
  end.

(** The three ways the script runs: it raises before it creates the
    client, creating the client raises, or the client is created and the
    [try] statement runs. *)
Definition ran (fs : gmap string fnode) (r : Res unit) (evs : list event) : Prop :=
  (exists e, r = Raise e /\ only_prints evs)
  \/ (exists e pre,
         r = Raise e /\ only_prints pre /\ evs = pre ++ [Called MlflowClient (Raise e)])
  \/ (exists run_id pre rl levs,
         r = Ok tt
         /\ names_run fs run_id
         /\ only_prints pre
         /\ listed run_id rl levs
         /\ evs = pre ++ Called MlflowClient (Ok RNone) :: levs ++ error_line rl).

(** A runtime whose run holds a file and a directory with one file. *)
Definition one_directory : Runtime :=
  {| on_MlflowClient := fun _ => Ok tt;
     on_list_artifacts := fun _ _ path =>
       match path with
       | None => Ok [mk_FileInfo "metrics.json" false; mk_FileInfo "model" true]
       | Some _ => Ok [mk_FileInfo "model/model.pkl" false]
       end;
     str_of := fun _ => "";
     json_dumps_indent2 := fun _ => "" |}.

(** A runtime whose client cannot list what a directory holds. *)
Definition directory_refused : Runtime :=
  {| on_MlflowClient := fun _ => Ok tt;
     on_list_artifacts := fun _ _ path =>
       match path with
       | None => Ok [mk_FileInfo "model" true; mk_FileInfo "other" true]
       | Some _ => Raise (mk_exn MlflowException "INTERNAL_ERROR")
       end;
     str_of := fun _ => "";
     json_dumps_indent2 := fun _ => "" |}.

(** A runtime that cannot create the client. *)
Definition no_client : Runtime :=
  {| on_MlflowClient := fun _ => Raise (mk_exn MlflowException "no tracking URI");
     on_list_artifacts := fun _ _ _ => Ok [];
     str_of := fun _ => "";
     json_dumps_indent2 := fun _ => "" |}.

End TestScript.

(** * The vocabulary of the claims on errors *)

(** The fallback of [main], in the words of the specification: after the
    two records of the handler, register directly from the saved file
    './models/model.pkl' with [register_model_directly], print the
    version, save the information with [save_registered_model_info] and
    print the last line; an error of either function is logged, printed
    and raised. *)
Definition fallback_to_saved_model (rt : Runtime) (e : exn) : M unit :=
  fun w =>
    let failed (e' : exn) (w' : World) : Res unit * World :=
      (Raise e',
       emits [ Logged ERROR "Failed to complete the model registration process: %s"
                 [AExn e'];
               Printed ("Error: " +:+ exn_str e') ] w') in
    match register_model_directly rt "./models/model.pkl" "sentiment_model"
            (emits [ Logged WARNING "Could not register from existing run: %s" [AExn e];
                     Logged INFO "Attempting to register model directly from file..." [] ]
               w) with
    | (Raise e', w1) => failed e' w1
    | (Ok version, w1) =>
        match save_registered_model_info "sentiment_model" (PStr version)
                "reports/registered_model_info.json"
                (emits [ Printed ("Model 'sentiment_model' version " +:+ version
                                  +:+ " successfully registered from file!") ] w1) with
        | (Raise e', w2) => failed e' w2
        | (Ok _, w2) => (Ok tt, emits [Printed "Model transitioned to Staging stage."] w2)
        end
    end.

(** A text that no JSON value begins: it is blank, or the first character
    after its white space begins no string, object, array, number or
    constant. *)
Definition begins_no_value (s : string) : bool :=
  match skip_ws s with
  | EmptyString => true
  | String c _ =>
      negb (Ascii.eqb c dquote || Ascii.eqb c "{" || Ascii.eqb c "[" || Ascii.eqb c "-"
            || is_digit c || Ascii.eqb c "n" || Ascii.eqb c "t" || Ascii.eqb c "f"
            || Ascii.eqb c "N" || Ascii.eqb c "I")
  end.




(** The record that [load_model_info] logs for the error [e]. *)
Definition load_error_record (file_path : string) (e : exn) : event :=
  if isinstance e FileNotFoundError
  then Logged ERROR "File not found: %s" [AStr file_path]
  else if isinstance e JSONDecodeError
  then Logged ERROR "Failed to parse JSON file: %s" [AExn e]
  else Logged ERROR "Unexpected error occurred while loading model info: %s" [AExn e].

(** * More runtimes *)

(** A runtime that cannot create the tracking client. *)
Definition no_client : Runtime :=
  {| on_MlflowClient := fun _ => Raise (mk_exn MlflowException "no tracking URI");
     on_list_artifacts := on_list_artifacts quiet_runtime;
     on_register_model := on_register_model quiet_runtime;
     on_transition := on_transition quiet_runtime;
     on_pickle_load := on_pickle_load quiet_runtime;
     on_start_run := on_start_run quiet_runtime;
     on_log_model := on_log_model quiet_runtime;
     on_search_model_versions := on_search_model_versions quiet_runtime;
     on_end_run := on_end_run quiet_runtime;
     str_of := str_of quiet_runtime;
     int_of := int_of quiet_runtime |}.

(** A registry that reports no version of any model, and a tracking
    server that cannot end a run. *)
Definition run_cannot_end : Runtime :=
  {| on_MlflowClient := on_MlflowClient quiet_runtime;
     on_list_artifacts := on_list_artifacts quiet_runtime;
     on_register_model := on_register_model quiet_runtime;
     on_transition := on_transition quiet_runtime;
     on_pickle_load := on_pickle_load quiet_runtime;
     on_start_run := on_start_run quiet_runtime;
     on_log_model := on_log_model quiet_runtime;
     on_search_model_versions := fun _ _ => Ok [];
     on_end_run := fun _ _ => Raise (mk_exn MlflowException "INTERNAL_ERROR");
     str_of := str_of quiet_runtime;
     int_of := int_of quiet_runtime |}.

(** A registry over the SQL store: the versions are [int]s. *)
Definition sql_store : Runtime :=
  {| on_MlflowClient := on_MlflowClient quiet_runtime;
     on_list_artifacts := on_list_artifacts quiet_runtime;
     on_register_model := fun _ _ name => Ok (mk_ModelVersion name (PInt 1));
     on_transition := on_transition quiet_runtime;
     on_pickle_load := on_pickle_load quiet_runtime;
     on_start_run := on_start_run quiet_runtime;
     on_log_model := on_log_model quiet_runtime;
     on_search_model_versions := fun _ _ =>
       Ok [mk_ModelVersion "sentiment_model" (PInt 1);
           mk_ModelVersion "sentiment_model" (PInt 2)];
     on_end_run := on_end_run quiet_runtime;
     str_of := str_of quiet_runtime;
     int_of := int_of quiet_runtime |}.

(** * Properties *)

(** ** The exception monad *)

Lemma isinstance_Exception (e : exn) : isinstance e Exception = true.
Proof. destruct e as [c msg]; destruct c; reflexivity. Qed.

Lemma try_except_Ok {A} (body : M A) clauses w a w1 :
  body w = (Ok a, w1) -> try_except body clauses w = (Ok a, w1).
Proof. intros H; unfold try_except; rewrite H; reflexivity. Qed.

Lemma try_except_Raise {A} (body : M A) clauses w e w1 :
  body w = (Raise e, w1) ->
  try_except body clauses w =
    match find (handles e) clauses with
    | Some clause => snd clause e w1
    | None => (Raise e, w1)
    end.
Proof. intros H; unfold try_except; rewrite H; reflexivity. Qed.

Lemma bind_Ok {A B} (c : M A) (k : A -> M B) w a w1 :
  c w = (Ok a, w1) -> bind c k w = k a w1.
Proof. intros H; unfold bind; rewrite H; reflexivity. Qed.

Lemma bind_Raise {A B} (c : M A) (k : A -> M B) w e w1 :
  c w = (Raise e, w1) -> bind c k w = (Raise e, w1).
Proof. intros H; unfold bind; rewrite H; reflexivity. Qed.

(** [try: suite except Exception as e: logging.error(fmt, e); raise]. *)
Lemma try_log_raise {A} (suite : M A) fmt w :
  try_except suite
    [ ([Exception], fun e => bind (logging ERROR fmt [AExn e]) (fun _ => raise e)) ] w
  = match suite w with
    | (Ok a, w1) => (Ok a, w1)
    | (Raise e, w1) => (Raise e, emit (Logged ERROR fmt [AExn e]) w1)
    end.
Proof.
  unfold try_except. destruct (suite w) as [[a | e] w1]; [reflexivity |].
  simpl. unfold handles; simpl. rewrite isinstance_Exception. reflexivity.
Qed.

(** ** The handlers of [load_model_info] *)

Lemma load_model_info_Raise file_path w e w1 :
  load_model_info_try file_path w = (Raise e, w1) ->
  load_model_info file_path w =
    (Raise e,
     emit (if isinstance e FileNotFoundError
           then Logged ERROR "File not found: %s" [AStr file_path]
           else if isinstance e JSONDecodeError
           then Logged ERROR "Failed to parse JSON file: %s" [AExn e]
           else Logged ERROR "Unexpected error occurred while loading model info: %s"
                  [AExn e]) w1).
Proof.
  intros H. unfold load_model_info. rewrite (try_except_Raise _ _ _ _ _ H).
  destruct e as [c msg]; destruct c; reflexivity.
Qed.

(** ** Running the script by hand *)

Lemma emit_emits ev w : emit ev w = emits [ev] w.
Proof. reflexivity. Qed.

Lemma emits_emits evs1 evs2 w : emits evs2 (emits evs1 w) = emits (evs1 ++ evs2)%list w.
Proof. unfold emits; simpl. rewrite <- app_assoc. reflexivity. Qed.

Lemma emits_nil w : emits [] w = w.
Proof. destruct w; unfold emits; simpl. rewrite app_nil_r. reflexivity. Qed.

Lemma bind_extcall {A B} c inj (respond : list event -> Res A) (k : A -> M B) w :
  bind (extcall c inj respond) k w =
    match respond (trace w) with
    | Ok a => k a (emits [Called c (Ok (inj a))] w)
    | Raise e => (Raise e, emits [Called c (Raise e)] w)
    end.
Proof. unfold bind, extcall; simpl. destruct (respond (trace w)); reflexivity. Qed.

Lemma bind_logging {B} lvl fmt args (k : unit -> M B) w :
  bind (logging lvl fmt args) k w = k tt (emits [Logged lvl fmt args] w).
Proof. reflexivity. Qed.

Lemma bind_print {B} line (k : unit -> M B) w :
  bind (print line) k w = k tt (emits [Printed line] w).
Proof. reflexivity. Qed.

Lemma bind_ret {A B} (a : A) (k : A -> M B) w : bind (ret a) k w = k a w.
Proof. reflexivity. Qed.

Lemma bind_raise {A B} e (k : A -> M B) w : bind (raise e) k w = (Raise e, w).
Proof. reflexivity. Qed.

Lemma bind_bind {A B C} (c : M A) (k : A -> M B) (k' : B -> M C) w :
  bind (bind c k) k' w = bind c (fun a => bind (k a) k') w.
Proof. unfold bind. destruct (c w) as [[a | e] w1]; reflexivity. Qed.

Lemma trace_emits evs w : trace (emits evs w) = (trace w ++ evs)%list.
Proof. reflexivity. Qed.

Lemma files_emits evs w : files (emits evs w) = files w.
Proof. reflexivity. Qed.

Create Rewrite HintDb run.
#[local] Hint Rewrite @bind_extcall @bind_logging @bind_print @bind_ret @bind_raise
  emit_emits emits_emits trace_emits files_emits : run.

(** ** C3: [verify_run_artifacts] *)

Lemma verify_run_artifacts_run rt run_id w :
  verify_run_artifacts rt run_id w =
    match on_MlflowClient rt (trace w) with
    | Raise e =>
        (Ok [], emits [Called MlflowClient (Raise e);
                       Logged ERROR "Error listing artifacts: %s" [AExn e]] w)
    | Ok u =>
        match on_list_artifacts rt (trace w ++ [Called MlflowClient (Ok RNone)]) run_id with
        | Raise e =>
            (Ok [], emits [Called MlflowClient (Ok RNone);
                           Called (list_artifacts run_id) (Raise e);
                           Logged ERROR "Error listing artifacts: %s" [AExn e]] w)
        | Ok artifacts =>
            (Ok (map fi_path artifacts),
             emits [Called MlflowClient (Ok RNone);
                    Called (list_artifacts run_id) (Ok (RFileInfos artifacts));
                    Logged INFO "Found artifacts in run %s: %s"
                      [AVal run_id; AStrs (map fi_path artifacts)]] w)
        end
    end.
Proof.
  unfold verify_run_artifacts, try_except, verify_run_artifacts_try,
    new_MlflowClient, client_list_artifacts.
  rewrite bind_extcall.
  destruct (on_MlflowClient rt (trace w)) as [u | e].
  - rewrite bind_extcall. simpl.
    destruct (on_list_artifacts rt _ run_id) as [artifacts | e].
    + autorewrite with run. reflexivity.
    + simpl. unfold handles; simpl. rewrite isinstance_Exception. simpl.
      autorewrite with run. reflexivity.
  - simpl. unfold handles; simpl. rewrite isinstance_Exception. simpl.
    autorewrite with run. reflexivity.
Qed.

(** C3. [verify_run_artifacts] never raises.  It asks the runtime for a
    client and then for the artifacts of the run.  When creating the
    client or listing the artifacts raises, it logs the error and returns
    the empty list; when the client lists the artifacts, it returns their
    paths, in the order the client gave them. *)
Theorem verify_run_artifacts_returns rt run_id w :
  exists paths evs,
    verify_run_artifacts rt run_id w = (Ok paths, emits evs w)
    /\ match on_MlflowClient rt (trace w) with
       | Raise e =>
           paths = []
           /\ evs = [ Called MlflowClient (Raise e);
                      Logged ERROR "Error listing artifacts: %s" [AExn e] ]
       | Ok _ =>
           match on_list_artifacts rt (trace w ++ [Called MlflowClient (Ok RNone)])
                   run_id with
           | Raise e =>
               paths = []
               /\ evs = [ Called MlflowClient (Ok RNone);
                          Called (list_artifacts run_id) (Raise e);
                          Logged ERROR "Error listing artifacts: %s" [AExn e] ]
           | Ok artifacts =>
               paths = map fi_path artifacts
               /\ evs = [ Called MlflowClient (Ok RNone);
                          Called (list_artifacts run_id) (Ok (RFileInfos artifacts));
                          Logged INFO "Found artifacts in run %s: %s"
                            [AVal run_id; AStrs (map fi_path artifacts)] ]
           end
       end.
Proof.
  rewrite verify_run_artifacts_run.
  destruct (on_MlflowClient rt (trace w)) as [u | e];
    [destruct (on_list_artifacts rt _ run_id) as [artifacts | e] |];
    eexists _, _; repeat split; reflexivity.
Qed.

(** ** C8: a missing artifact *)

Lemma py_in_among x l : py_in x l = true <-> among x l.
Proof.
  unfold among, py_in. split.
  - destruct x; try discriminate. intros H.
    apply existsb_exists in H as (t & Ht & Heq).
    apply String.eqb_eq in Heq. subst. eauto.
  - intros (s & -> & Hs). apply existsb_exists. exists s.
    split; [assumption | apply String.eqb_refl].
Qed.



(** What [verify_run_artifacts] adds to the trace changes no registry. *)
Lemma verify_run_artifacts_reads_only rt run_id w paths w' :
  verify_run_artifacts rt run_id w = (Ok paths, w') ->
  exists evs, w' = emits evs w /\ existsb registry_write evs = false.
Proof.
  rewrite verify_run_artifacts_run.
  destruct (on_MlflowClient rt (trace w)) as [u | e];
    [destruct (on_list_artifacts rt _ run_id) as [artifacts | e] |];
    intros H; injection H as _ <-; eexists; split; reflexivity.
Qed.


(** ** C7: the returned version is staged *)

Ltac oracle H :=
  match type of H with
  | context [match ?x with Ok _ => _ | Raise _ => _ end] =>
      destruct x eqn:?; try discriminate H
  end.

Lemma register_model_from_run_Ok rt run_id model_path model_name w version w' :
  register_model_from_run rt run_id model_path model_name w = (Ok version, w') ->
  exists evs uri mv,
    version = mv_version mv
    /\ existsb registry_write evs = false
    /\ w' = emits (evs ++
                   [ Logged INFO "Model URI: %s" [AStr uri];
                     Called (register_model uri model_name) (Ok (RModelVersion mv));
                     Logged INFO "Model registered with name: %s, version: %s"
                       [AStr (mv_name mv); AVal (mv_version mv)];
                     Called (transition_model_version_stage
                               model_name version "Staging" false) (Ok RNone);
                     Logged INFO "Model version %s transitioned to Staging"
                       [AVal (mv_version mv)] ]) w.
Proof.
  intros H. unfold register_model_from_run in H. rewrite try_log_raise in H.
  destruct (register_model_from_run_try rt run_id model_path model_name w)
    as [[v | e] w1] eqn:E; [| discriminate H].
  injection H as -> ->.
  unfold register_model_from_run_try, new_MlflowClient in E.
  rewrite bind_extcall in E. oracle E.
  destruct (verify_run_artifacts rt run_id
              (emits [Called MlflowClient (Ok RNone)] w)) as [[paths | e] wv] eqn:Ev.
  2:{ rewrite (bind_Raise _ _ _ _ _ Ev) in E. discriminate E. }
  rewrite (bind_Ok _ _ _ _ _ Ev) in E.
  destruct (verify_run_artifacts_reads_only _ _ _ _ _ Ev) as (evs & -> & Hevs).
  destruct (negb (py_in model_path paths)); [discriminate E |].
  unfold mlflow_register_model, client_transition_model_version_stage in E.
  autorewrite with run in E. oracle E.
  autorewrite with run in E. oracle E.
  autorewrite with run in E. unfold ret in E. injection E as <- <-.
  exists (Called MlflowClient (Ok RNone) :: evs). eexists _, _.
  split; [reflexivity |]. split; [simpl; exact Hevs |].
  simpl. rewrite <- !app_assoc. reflexivity.
Qed.

(** ** C9: the latest version *)

Lemma bind_lift {A B} (r : Res A) (k : A -> M B) w :
  bind (lift r) k w = match r with Ok a => k a w | Raise e => (Raise e, w) end.
Proof. unfold bind, lift. destruct r; reflexivity. Qed.

Lemma bind_int rt {B} v (k : Z -> M B) w :
  bind (int_ rt v) k w =
    match py_int_val rt v with Ok z => k z w | Raise e => (Raise e, w) end.
Proof. apply bind_lift. Qed.

Lemma comprehension_int rt (versions : list ModelVersion) w :
  (exists numbers,
      comprehension (fun mv => int_ rt (mv_version mv)) versions w = (Ok numbers, w)
      /\ Forall2 (fun mv z => py_int_val rt (mv_version mv) = Ok z) versions numbers)
  \/ (exists e,
         comprehension (fun mv => int_ rt (mv_version mv)) versions w = (Raise e, w)
         /\ Exists (fun mv => py_int_val rt (mv_version mv) = Raise e) versions).
Proof.
  induction versions as [| mv rest IH].
  - left. exists []. split; [reflexivity | constructor].
  - cbn [comprehension]. rewrite !bind_int.
    destruct (py_int_val rt (mv_version mv)) as [z | e] eqn:Hz.
    + destruct IH as [(numbers & Hc & HF) | (e & Hc & HE)].
      * left. exists (z :: numbers). rewrite (bind_Ok _ _ _ _ _ Hc).
        split; [reflexivity | constructor; assumption].
      * right. exists e. rewrite (bind_Raise _ _ _ _ _ Hc).
        split; [reflexivity | constructor 2; assumption].
    + right. exists e. split; [reflexivity | constructor 1; assumption].
Qed.

Lemma fold_left_max_ge (l : list Z) (x : Z) :
  (x <= fold_left Z.max l x)%Z
  /\ Forall (fun z => z <= fold_left Z.max l x)%Z l
  /\ In (fold_left Z.max l x) (x :: l).
Proof.
  revert x. induction l as [| y l IH]; intros x; simpl.
  - split; [lia |]. split; [constructor | auto].
  - destruct (IH (Z.max x y)) as (H1 & H2 & H3).
    split; [lia |]. split.
    + constructor; [lia | assumption].
    + destruct H3 as [H3 | H3]; [| auto].
      rewrite <- H3.
      destruct (Z.max_spec x y) as [[_ E] | [_ E]]; rewrite E; auto.
Qed.

Lemma py_max_maximum x rest w :
  py_max (x :: rest) w = (Ok (fold_left Z.max rest x), w)
  /\ maximum (fold_left Z.max rest x) (x :: rest).
Proof.
  split; [reflexivity |].
  destruct (fold_left_max_ge rest x) as (H1 & H2 & H3).
  split; [assumption | constructor; assumption].
Qed.

Lemma register_model_directly_run_outcome rt model model_name run w :
  exists r evs,
    register_model_directly_run rt model model_name run w = (r, emits evs w)
    /\ (forall version, r = Ok version ->
        exists versions numbers latest,
          Forall2 (fun mv z => py_int_val rt (mv_version mv) = Ok z) versions numbers
          /\ maximum latest numbers
          /\ version = str_of_int latest
          /\ evs = suite_events model model_name versions latest)
    /\ (In (no_versions model_name) evs ->
        exists e, r = Raise e /\ exn_type e = ValueError)
    /\ (forall status a, ~ In (Called (end_run status) a) evs).
Proof.
  unfold register_model_directly_run, mlflow_sklearn_log_model, time_sleep,
    new_MlflowClient, client_search_model_versions,
    client_transition_model_version_stage, no_versions.
  autorewrite with run.
  destruct (on_log_model rt _ _ _ _) as [u | e]; autorewrite with run;
    [| eexists _, _; split; [reflexivity |];
       repeat split; [discriminate | simpl; intuition congruence ..]].
  destruct (on_MlflowClient rt _) as [u' | e]; autorewrite with run;
    [| eexists _, _; split; [reflexivity |];
       repeat split; [discriminate | simpl; intuition congruence ..]].
  destruct (on_search_model_versions rt _ _) as [versions | e]; autorewrite with run;
    [| eexists _, _; split; [reflexivity |];
       repeat split; [discriminate | simpl; intuition congruence ..]].
  destruct versions as [| mv rest].
  { autorewrite with run. eexists _, _. split; [reflexivity |].
    repeat split; [discriminate | simpl; eauto | simpl; intuition congruence]. }
  remember (mv :: rest) as versions eqn:Hversions.
  assert (Hne : versions <> []) by (subst; discriminate).
  clear Hversions mv rest.
  assert (Hnot : forall (pre post : list event),
             ~ In (no_versions model_name) pre ->
             ~ In (no_versions model_name) post ->
             ~ In (no_versions model_name)
                 (pre ++ Called (search_model_versions ("name='" +:+ model_name +:+ "'"))
                           (Ok (RModelVersions versions)) :: post)).
  { intros pre post H1 H2 H. apply in_app_or in H as [H | [H | H]]; auto.
    unfold no_versions in H. congruence. }
  match goal with
  | |- context [bind (comprehension ?f versions) ?k ?w0] =>
      destruct (comprehension_int rt versions w0)
        as [(numbers & Hc & HF) | (e & Hc & HE)];
      [rewrite (bind_Ok _ _ _ _ _ Hc) | rewrite (bind_Raise _ _ _ _ _ Hc)]
  end.
  2:{ eexists _, _. split; [reflexivity |].
      repeat split; [discriminate | | simpl; intuition congruence].
      intros H. exfalso. revert H.
      apply (Hnot [_; _; _; _] []); simpl; unfold no_versions; intuition congruence. }
  destruct numbers as [| x numbers'].
  { inversion HF. congruence. }
  match goal with
  | |- context [bind (py_max (x :: numbers')) ?k ?w0] =>
      destruct (py_max_maximum x numbers' w0) as [Hm Hmax];
      rewrite (bind_Ok _ _ _ _ _ Hm)
  end.
  autorewrite with run.
  destruct (on_transition rt _ _ _ _ _) as [u'' | e]; autorewrite with run.
  2:{ eexists _, _. split; [reflexivity |].
      repeat split; [discriminate | | simpl; intuition congruence].
      intros H. exfalso. revert H.
      apply (Hnot [_; _; _; _] [_; _]); simpl; unfold no_versions; intuition congruence. }
  unfold ret. eexists _, _. split; [reflexivity |].
  repeat split.
  - intros version [= <-]. exists versions, (x :: numbers'), (fold_left Z.max numbers' x).
    repeat split; try assumption; apply Hmax.
  - intros H. exfalso. revert H.
    apply (Hnot [_; _; _; _] [_; _; _]); simpl; unfold no_versions; intuition congruence.
  - simpl; intuition congruence.
Qed.

Lemma register_model_directly_outcome rt model_file_path model_name w :
  exists r evs,
    register_model_directly rt model_file_path model_name w = (r, emits evs w)
    /\ (forall version, r = Ok version ->
        exists data model run versions numbers latest,
          Forall2 (fun mv z => py_int_val rt (mv_version mv) = Ok z) versions numbers
          /\ maximum latest numbers
          /\ version = str_of_int latest
          /\ evs = [ Called (pickle_load data) (Ok (RModel model));
                     Logged INFO "Model loaded from %s" [AStr model_file_path];
                     Called start_run (Ok (RRun run)) ]
                   ++ suite_events model model_name versions latest
                   ++ [ Called (end_run "FINISHED") (Ok RNone) ])
    /\ (In (no_versions model_name) evs ->
        exists e, r = Raise e
                  /\ (In (Called (end_run "FAILED") (Ok RNone)) evs ->
                      exn_type e = ValueError)).
Proof.
  unfold register_model_directly. rewrite try_log_raise.
  unfold register_model_directly_try, pickle_load_, with_start_run.
  unfold bind at 1, open_read.
  destruct (files w !! model_file_path) as [[data | e] |];
    [| eexists _, _; autorewrite with run; split; [reflexivity |];
       split; [discriminate | unfold no_versions; simpl; intuition congruence] ..].
  autorewrite with run.
  destruct (on_pickle_load rt data) as [model | e]; autorewrite with run;
    [| eexists _, _; split; [reflexivity |];
       split; [discriminate | unfold no_versions; simpl; intuition congruence]].
  destruct (on_start_run rt _) as [run | e]; autorewrite with run;
    [| eexists _, _; split; [reflexivity |];
       split; [discriminate | unfold no_versions; simpl; intuition congruence]].
  match goal with
  | |- context [register_model_directly_run rt model model_name run ?w0] =>
      destruct (register_model_directly_run_outcome rt model model_name run w0)
        as (r & evs & Hr & Hok & Hnone & Hend)
  end.
  autorewrite with run in Hr. rewrite Hr.
  assert (Hin : forall (post : list event),
             In (no_versions model_name)
                ([ Called (pickle_load data) (Ok (RModel model));
                   Logged INFO "Model loaded from %s" [AStr model_file_path];
                   Called start_run (Ok (RRun run)) ] ++ evs ++ post) ->
             ~ In (no_versions model_name) post ->
             exists e, r = Raise e /\ exn_type e = ValueError).
  { intros post H Hpost. apply Hnone.
    apply in_app_or in H as [H | H];
      [unfold no_versions in H; simpl in H; intuition congruence |].
    apply in_app_or in H as [H | H]; [assumption | contradiction]. }
  unfold mlflow_end_run, extcall. simpl.
  destruct r as [version | e].
  - destruct (on_end_run rt _ "FINISHED") as [u | e']; simpl; autorewrite with run;
      eexists _, _; (split; [reflexivity |]); split.
    + intros v [= <-].
      destruct (Hok version eq_refl) as (versions & numbers & latest & HF & Hmax & Hv & ->).
      exists data, model, run, versions, numbers, latest.
      repeat split; try assumption; apply Hmax.
    + intros H. destruct (Hin [_] H) as (e & He & _); [| discriminate He].
      unfold no_versions; simpl; intuition congruence.
    + discriminate.
    + intros H. destruct (Hin [_; _] H) as (e & He & _); [| discriminate He].
      unfold no_versions; simpl; intuition congruence.
  - destruct (on_end_run rt _ "FAILED") as [u | e']; simpl; autorewrite with run;
      eexists _, _; (split; [reflexivity |]); split.
    + discriminate.
    + intros H. destruct (Hin [_; _] H) as (e0 & [= <-] & He).
      { unfold no_versions; simpl; intuition congruence. }
      exists e. auto.
    + discriminate.
    + intros H. exists e'. split; [reflexivity |]. intros Hf. exfalso.
      simpl in Hf. destruct Hf as [Hf | [Hf | [Hf | Hf]]]; try congruence.
      apply in_app_or in Hf as [Hf | Hf]; [exact (Hend _ _ Hf) |].
      simpl in Hf; intuition congruence.
Qed.

(** ** The decoder always answers *)

Lemma skip_ws_length s : String.length (skip_ws s) <= String.length s.
Proof.
  induction s as [| c s IH]; simpl; [lia |].
  destruct (is_ws c); simpl; lia.
Qed.

Lemma parse_map_POk {A B} (f : A -> B) p b r :
  parse_map f p = POk b r -> exists a, p = POk a r /\ b = f a.
Proof. destruct p; simpl; intros H; try discriminate. injection H as <- <-. eauto. Qed.

Lemma scanstring_length_le n : forall s v r,
  String.length s <= n -> scanstring s = POk v r -> String.length r < String.length s.
Proof.
  induction n as [| n IH]; intros s v r Hn H.
  - destruct s; [discriminate H | simpl in Hn; lia].
  - destruct s as [| c s]; [discriminate H |].
    simpl in Hn. cbn [scanstring] in H.
    destruct (Ascii.eqb c dquote).
    { injection H as _ <-. simpl. lia. }
    destruct (Ascii.eqb c backslash).
    + destruct s as [| esc s1]; [discriminate H |].
      destruct (Ascii.eqb esc "u").
      * destruct s1 as [| h1 [| h2 [| h3 [| h4 s2]]]]; try discriminate H.
        destruct (decode_uXXXX h1 h2 h3 h4); [| discriminate H].
        destruct (_ <? _)%N; [| discriminate H].
        apply parse_map_POk in H as (? & H & _).
        apply IH in H; simpl in *; lia.
      * destruct (unescape esc); [| discriminate H].
        apply parse_map_POk in H as (? & H & _).
        apply IH in H; simpl in *; lia.
    + destruct (_ <? _)%N; [discriminate H |].
      apply parse_map_POk in H as (? & H & _).
      apply IH in H; simpl in *; lia.
Qed.

Lemma scanstring_length s v r :
  scanstring s = POk v r -> String.length r < String.length s.
Proof. apply (scanstring_length_le (String.length s)). lia. Qed.

Lemma span_digits_length s ds r :
  span_digits s = (ds, r) -> String.length r <= String.length s.
Proof.
  revert ds r. induction s as [| c s IH]; simpl; intros ds r H.
  - injection H as _ <-. simpl. lia.
  - destruct (is_digit c).
    + destruct (span_digits s) as [ds' r']. injection H as _ <-.
      specialize (IH _ _ eq_refl). lia.
    + injection H as _ <-. simpl. lia.
Qed.

Lemma match_integer_length s i r :
  match_integer s = Some (i, r) -> String.length r < String.length s.
Proof.
  unfold match_integer. destruct s as [| c s]; [discriminate |].
  destruct (Ascii.eqb c "0").
  - intros [= _ <-]. simpl. lia.
  - destruct (is_digit c) eqn:Hd; [| discriminate].
    intros [= H]. simpl in H. rewrite Hd in H.
    destruct (span_digits s) as [ds r'] eqn:Hs. injection H as _ <-.
    apply span_digits_length in Hs. simpl. lia.
Qed.

Lemma match_frac_length s f r :
  match_frac s = (f, r) -> String.length r <= String.length s.
Proof.
  unfold match_frac. destruct s as [| c s]; [intros [= _ <-]; lia |].
  destruct (Ascii.eqb c ".").
  - destruct (span_digits s) as [[| d ds] r'] eqn:Hs; intros [= _ <-]; [lia |].
    apply span_digits_length in Hs. simpl. lia.
  - intros [= _ <-]. lia.
Qed.

Lemma match_exp_length s f r :
  match_exp s = (f, r) -> String.length r <= String.length s.
Proof.
  unfold match_exp. destruct s as [| c s]; [intros [= _ <-]; lia |].
  destruct (_ || _); [| intros [= _ <-]; lia].
  destruct s as [| g s'].
  - simpl. intros [= _ <-]. simpl. lia.
  - destruct (_ || _).
    + destruct (span_digits s') as [[| d ds] r'] eqn:Hs; intros [= _ <-]; [lia |].
      apply span_digits_length in Hs. simpl. lia.
    + destruct (span_digits (String g s')) as [[| d ds] r'] eqn:Hs; intros [= _ <-]; [lia |].
      apply span_digits_length in Hs. simpl in *. lia.
Qed.

Lemma match_unsigned_length neg s v r :
  match_unsigned neg s = Some (v, r) -> String.length r < String.length s.
Proof.
  unfold match_unsigned.
  destruct (match_integer s) as [[i s2] |] eqn:Hi; [| discriminate].
  destruct (match_frac s2) as [f s3] eqn:Hf.
  destruct (match_exp s3) as [x s4] eqn:Hx.
  apply match_integer_length in Hi. apply match_frac_length in Hf.
  apply match_exp_length in Hx.
  destruct f, x; intros [= _ <-]; lia.
Qed.

Lemma match_number_length s v r :
  match_number s = Some (v, r) -> String.length r < String.length s.
Proof.
  unfold match_number. destruct s as [| c s]; [discriminate |].
  destruct (Ascii.eqb c "-"); intros H; apply match_unsigned_length in H;
    simpl in *; lia.
Qed.

Lemma strip_prefix_length w s r :
  strip_prefix w s = Some r -> String.length s = String.length w + String.length r.
Proof.
  revert s. induction w as [| a w IH]; intros s; simpl.
  - intros [= <-]. reflexivity.
  - destruct s as [| b s]; [discriminate |].
    destruct (Ascii.eqb a b); [| discriminate].
    intros H. apply IH in H. simpl. lia.
Qed.

Lemma scan_constant_length s v r :
  scan_constant s = POk v r -> String.length r < String.length s.
Proof.
  unfold scan_constant.
  repeat match goal with
         | |- context [strip_prefix ?w s] =>
             let H := fresh "H" in
             destruct (strip_prefix w s) eqn:H;
             [apply strip_prefix_length in H; simpl in H; intros [= _ <-]; lia |]
         | |- context [match_number s] =>
             let H := fresh "H" in
             destruct (match_number s) as [[? ?] |] eqn:H;
             [apply match_number_length in H; intros [= _ <-]; lia |]
         end.
  discriminate.
Qed.

Lemma scanstring_not_depth_le n : forall s,
  String.length s <= n -> scanstring s <> PDepth.
Proof.
  induction n as [| n IH]; intros s Hn.
  - destruct s; [discriminate | simpl in Hn; lia].
  - destruct s as [| c s]; [discriminate |].
    simpl in Hn. cbn [scanstring].
    assert (Hmap : forall ch t, String.length t <= n ->
                     parse_map (String ch) (scanstring t) <> PDepth).
    { intros ch t Ht. specialize (IH t Ht).
      destruct (scanstring t); simpl; congruence. }
    destruct (Ascii.eqb c dquote); [discriminate |].
    destruct (Ascii.eqb c backslash).
    + destruct s as [| esc s1]; [discriminate |].
      destruct (Ascii.eqb esc "u").
      * destruct s1 as [| h1 [| h2 [| h3 [| h4 s2]]]]; try discriminate.
        destruct (decode_uXXXX h1 h2 h3 h4); [| discriminate].
        destruct (_ <? _)%N; [| discriminate].
        apply Hmap. simpl in Hn. lia.
      * destruct (unescape esc); [| discriminate].
        apply Hmap. simpl in Hn. lia.
    + destruct (_ <? _)%N; [discriminate |]. apply Hmap. lia.
Qed.

Lemma scanstring_not_depth s : scanstring s <> PDepth.
Proof. apply (scanstring_not_depth_le (String.length s)). lia. Qed.

Lemma scan_constant_not_depth s : scan_constant s <> PDepth.
Proof.
  unfold scan_constant.
  repeat match goal with
         | |- context [match ?x with _ => _ end] => destruct x as [[? ?] |] || destruct x
         end; discriminate.
Qed.

Ltac dm IH :=
  match goal with
  | |- context [match skip_ws ?a with _ => _ end] =>
      let E := fresh "E" in
      let F := fresh "F" in
      pose proof (skip_ws_length a) as F; destruct (skip_ws a) eqn:E;
      cbn [String.length] in F
  | |- context [match scanstring ?a with _ => _ end] =>
      let E := fresh "E" in
      destruct (scanstring a) eqn:E;
      [apply scanstring_length in E | | exfalso; exact (scanstring_not_depth _ E)]
  | |- context [match scan_once ?d ?a with _ => _ end] =>
      let E := fresh "E" in
      try match a with skip_ws ?x => pose proof (skip_ws_length x) end;
      destruct (scan_once d a) eqn:E;
      [apply (proj1 (IH _)) in E | |]
  | |- context [if ?b then _ else _] => destruct b
  end.

Ltac fin IH :=
  let Hp := fresh "Hp" in
  intros Hp;
  first
    [ discriminate Hp
    | injection Hp as _ <-; lia
    | apply (proj1 (proj2 (IH _))) in Hp; cbn [String.length] in Hp; lia
    | apply (proj2 (proj2 (IH _))) in Hp; cbn [String.length] in Hp;
      try match type of Hp with
          | context [skip_ws ?x] => pose proof (skip_ws_length x)
          end; lia ].

Lemma scan_consumes depth : forall s,
  (forall v r, scan_once depth s = POk v r -> String.length r < String.length s)
  /\ (forall pairs v r,
         object_items depth s pairs = POk v r -> String.length r < String.length s)
  /\ (forall vals v r,
         array_items depth s vals = POk v r -> String.length r < String.length s).
Proof.
  induction depth as [| d IH]; intros s.
  - repeat split; intros; discriminate.
  - repeat split.
    + intros v r. cbn [scan_once]. destruct s as [| c rest]; [discriminate |].
      cbn [String.length].
      destruct (Ascii.eqb c dquote).
      { intros Hp. apply parse_map_POk in Hp as (? & Hp & _).
        apply scanstring_length in Hp. lia. }
      destruct (Ascii.eqb c "{"); [repeat dm IH; fin IH |].
      destruct (Ascii.eqb c "["); [repeat dm IH; fin IH |].
      intros Hp. apply scan_constant_length in Hp. simpl in Hp. lia.
    + intros pairs v r. cbn [object_items]. repeat dm IH; fin IH.
    + intros vals v r. cbn [array_items]. repeat dm IH; fin IH.
Qed.

Ltac dmd IH :=
  match goal with
  | |- context [match skip_ws ?a with _ => _ end] =>
      let E := fresh "E" in
      let F := fresh "F" in
      pose proof (skip_ws_length a) as F; destruct (skip_ws a) eqn:E;
      cbn [String.length] in F
  | |- context [match scanstring ?a with _ => _ end] =>
      let E := fresh "E" in
      destruct (scanstring a) eqn:E;
      [apply scanstring_length in E | | exfalso; exact (scanstring_not_depth _ E)]
  | |- context [match scan_once ?d ?a with _ => _ end] =>
      let E := fresh "E" in
      let N := fresh "N" in
      try match a with skip_ws ?x => pose proof (skip_ws_length x) end;
      pose proof (proj1 (IH a)) as N;
      destruct (scan_once d a) eqn:E;
      [apply (proj1 (scan_consumes _ _)) in E | | exfalso; apply N; [lia | reflexivity]]
  | |- context [if ?b then _ else _] => destruct b
  end.

Lemma scan_depth depth : forall s,
  (2 * String.length s < depth -> scan_once depth s <> PDepth)
  /\ (2 * String.length s + 1 < depth ->
      forall pairs, object_items depth s pairs <> PDepth)
  /\ (2 * String.length s + 1 < depth ->
      forall vals, array_items depth s vals <> PDepth).
Proof.
  induction depth as [| d IH]; intros s.
  - repeat split; intros; lia.
  - repeat split.
    + intros Hd. cbn [scan_once]. destruct s as [| c rest]; [discriminate |].
      cbn [String.length] in Hd.
      destruct (Ascii.eqb c dquote).
      { pose proof (scanstring_not_depth rest).
        destruct (scanstring rest); simpl; congruence. }
      destruct (Ascii.eqb c "{").
      { repeat dmd IH; try discriminate.
        apply (proj1 (proj2 (IH _))). lia. }
      destruct (Ascii.eqb c "[").
      { repeat dmd IH; try discriminate;
          apply (proj2 (proj2 (IH _))); cbn [String.length]; lia. }
      apply scan_constant_not_depth.
    + intros Hd pairs. cbn [object_items].
      repeat dmd IH; try discriminate.
      apply (proj1 (proj2 (IH _))). lia.
    + intros Hd vals. cbn [array_items].
      repeat dmd IH; try discriminate.
      apply (proj2 (proj2 (IH _))).
      match goal with
      | |- context [skip_ws ?x] => pose proof (skip_ws_length x)
      end. lia.
Qed.

(** The depth that [json_loads] gives to [scan_once] is enough for any
    text: in the model, the nesting of a text never stops its decoding. *)
Lemma json_loads_depth s :
  scan_once (S (S (2 * String.length s))) (skip_ws s) <> PDepth.
Proof.
  apply (proj1 (scan_depth _ _)). pose proof (skip_ws_length s). lia.
Qed.

(** ** C4 and C5: the JSON that [save_registered_model_info] writes *)

Lemma append_cons x (a b : string) : String x a +:+ b = String x (a +:+ b).
Proof. reflexivity. Qed.

Lemma append_nil_l (b : string) : "" +:+ b = b.
Proof. reflexivity. Qed.

Lemma append_assoc (a b c : string) : (a +:+ b) +:+ c = a +:+ (b +:+ c).
Proof.
  induction a as [| x a IH]; [reflexivity |].
  rewrite !append_cons, IH. reflexivity.
Qed.

Create Rewrite HintDb str.
#[local] Hint Rewrite append_assoc append_cons append_nil_l : str.

(** The decoder reads back each character as the encoder escapes it. *)
Lemma scanstring_escape_char c tail :
  scanstring (escape_char c +:+ tail) = parse_map (String c) (scanstring tail).
Proof. destruct c as [[] [] [] [] [] [] [] []]; reflexivity. Qed.

Lemma scanstring_escape s rest :
  scanstring (escape s +:+ String dquote rest) = POk s rest.
Proof.
  induction s as [| c s IH]; [reflexivity |].
  cbn [escape]. rewrite append_assoc, scanstring_escape_char, IH. reflexivity.
Qed.

Section Decoding.

#[local] Arguments scanstring : simpl never.
#[local] Arguments escape : simpl never.

Lemma object_items_more d key value pairs rest :
  object_items (S (S d)) (member key value (next_member rest)) pairs
  = object_items (S d) rest (dict_set pairs key (PStr value)).
Proof.
  unfold member. cbn [object_items]. rewrite scanstring_escape.
  simpl. rewrite scanstring_escape. reflexivity.
Qed.

Lemma object_items_last d key value pairs rest :
  object_items (S (S d)) (member key value (String newline (String "}" rest))) pairs
  = POk (PDict (dict_set pairs key (PStr value))) rest.
Proof.
  unfold member. cbn [object_items]. rewrite scanstring_escape.
  simpl. rewrite scanstring_escape. reflexivity.
Qed.

Lemma scan_once_object d rest :
  scan_once (S d)
    (String "{" (String newline
       (String " " (String " " (String " " (String " " (String dquote rest)))))))
  = object_items d rest [].
Proof. reflexivity. Qed.

End Decoding.

Lemma skip_ws_brace rest : skip_ws (String "{" rest) = String "{" rest.
Proof. reflexivity. Qed.

Lemma depth_String4 a b c d rest :
  S (S (2 * String.length (String a (String b (String c (String d rest))))))
  = S (S (S (S (S (S (2 * String.length rest + 4)))))).
Proof. cbn [String.length]. lia. Qed.

(** The text of [json.dump(registered_info, file, indent=4)]. *)
Lemma json_dumps_registered_info model_name version :
  json_dumps_indent4 (registered_info model_name (PStr version)) =
    String "{" (String newline
      (String " " (String " " (String " " (String " " (String dquote
        (member "model_name" model_name
           (next_member
              (member "version" version
                 (next_member
                    (member "stage" "Staging"
                       (String newline (String "}" EmptyString))))))))))))).
Proof.
  unfold json_dumps_indent4, registered_info, member, next_member.
  cbv [iterencode map join fst snd newline_indent repeat_str
       encode_basestring_ascii str1].
  autorewrite with str. reflexivity.
Qed.

Lemma json_loads_registered_info model_name version :
  json_loads (json_dumps_indent4 (registered_info model_name (PStr version)))
  = Ok (registered_info model_name (PStr version)).
Proof.
  rewrite json_dumps_registered_info. unfold json_loads.
  rewrite skip_ws_brace, depth_String4.
  rewrite scan_once_object, object_items_more, object_items_more, object_items_last.
  reflexivity.
Qed.

Lemma save_registered_model_info_run model_name version file_path w :
  save_registered_model_info model_name version file_path w =
    match files w !! file_path with
    | Some (Refused e) =>
        (Raise e,
         emits [Logged ERROR "Error occurred while saving registered model info: %s"
                  [AExn e]] w)
    | _ =>
        (Ok tt,
         emits [Logged INFO "Registered model info saved to %s" [AStr file_path]]
           (mk_World
              (<[file_path :=
                   Regular (json_dumps_indent4 (registered_info model_name version))]>
                 (files w))
              (trace w)))
    end.
Proof.
  unfold save_registered_model_info. rewrite try_log_raise.
  unfold save_registered_model_info_try, bind, open_write.
  destruct (files w !! file_path) as [[data | e] |]; reflexivity.
Qed.

(** C4. On a path that can be opened for writing,
    [save_registered_model_info] returns and leaves in the file a JSON
    text that decodes to an object with exactly the keys [model_name],
    [version] and [stage], holding the given model name, the given
    version and the string "Staging". *)
Theorem save_registered_model_info_writes_schema model_name version file_path w :
  writable w file_path ->
  exists text w',
    save_registered_model_info model_name (PStr version) file_path w = (Ok tt, w')
    /\ files w' !! file_path = Some (Regular text)
    /\ json_loads text =
         Ok (PDict [ ("model_name", PStr model_name);
                     ("version", PStr version);
                     ("stage", PStr "Staging") ]).
Proof.
  intros Hw. rewrite save_registered_model_info_run.
  exists (json_dumps_indent4 (registered_info model_name (PStr version))).
  destruct (files w !! file_path) as [[data | e] |] eqn:Hf;
    [| exfalso; exact (Hw e Hf) |];
    (eexists; split; [reflexivity |]; split;
     [simpl; apply lookup_insert_eq | apply json_loads_registered_info]).
Qed.

(** C5. After [save_registered_model_info(model_name, version, p)] has
    returned, [load_model_info(p)] returns the dictionary
    [{'model_name': model_name, 'version': version, 'stage': 'Staging'}]. *)
Theorem registered_model_info_round_trip model_name version p w w1 :
  save_registered_model_info model_name (PStr version) p w = (Ok tt, w1) ->
  load_model_info p w1 =
    (Ok (PDict [ ("model_name", PStr model_name);
                 ("version", PStr version);
                 ("stage", PStr "Staging") ]),
     emit (Logged INFO "Model info loaded from %s" [AStr p]) w1).
Proof.
  rewrite save_registered_model_info_run. intros H.
  assert (Hp : files w1 !! p
               = Some (Regular (json_dumps_indent4
                                  (registered_info model_name (PStr version))))).
  { destruct (files w !! p) as [[data | e] |]; try discriminate H;
      injection H as <-; simpl; apply lookup_insert_eq. }
  unfold load_model_info. apply try_except_Ok.
  unfold load_model_info_try, bind at 1, open_read. rewrite Hp.
  unfold lift, bind at 1. rewrite json_loads_registered_info. reflexivity.
Qed.

(** ** C6: what [main] reads in experiment_info.json *)

Lemma same_but_emit p ev w1 w2 :
  same_but p w1 w2 -> same_but p (emit ev w1) (emit ev w2).
Proof. intros [Ht Hf]. split; simpl; [rewrite Ht; reflexivity | exact Hf]. Qed.

Lemma ignores_ret p {A} (a : A) : ignores p (ret a).
Proof. intros w1 w2 H. split; [reflexivity | exact H]. Qed.

Lemma ignores_raise p {A} e : ignores p (@raise A e).
Proof. intros w1 w2 H. split; [reflexivity | exact H]. Qed.

Lemma ignores_lift p {A} (r : Res A) : ignores p (lift r).
Proof. intros w1 w2 H. split; [reflexivity | exact H]. Qed.

Lemma agree_bind p {A B} (c c' : M A) (k : A -> M B) w1 w2 :
  agree p (c w1) (c' w2) -> (forall a, ignores p (k a)) ->
  agree p (bind c k w1) (bind c' k w2).
Proof.
  intros [Hr Hw] Hk. unfold bind.
  destruct (c w1) as [r1 w1'], (c' w2) as [r2 w2']. simpl in Hr, Hw. subst r2.
  destruct r1 as [a | e]; [apply Hk; exact Hw | split; [reflexivity | exact Hw]].
Qed.

Lemma agree_try_except p {A} (body body' : M A) clauses w1 w2 :
  agree p (body w1) (body' w2) ->
  Forall (fun clause => forall e, ignores p (snd clause e)) clauses ->
  agree p (try_except body clauses w1) (try_except body' clauses w2).
Proof.
  intros [Hr Hw] Hcl. unfold try_except.
  destruct (body w1) as [r1 w1'], (body' w2) as [r2 w2']. simpl in Hr, Hw. subst r2.
  destruct r1 as [a | e]; [split; [reflexivity | exact Hw] |].
  destruct (find (handles e) clauses) as [clause |] eqn:Hfind.
  - apply find_some in Hfind as [Hin _].
    rewrite List.Forall_forall in Hcl. apply (Hcl clause Hin e). exact Hw.
  - split; [reflexivity | exact Hw].
Qed.

Lemma ignores_bind p {A B} (c : M A) (k : A -> M B) :
  ignores p c -> (forall a, ignores p (k a)) -> ignores p (bind c k).
Proof. intros Hc Hk w1 w2 H. apply agree_bind; [apply Hc, H | exact Hk]. Qed.

Lemma ignores_try_except p {A} (body : M A) clauses :
  ignores p body ->
  Forall (fun clause => forall e, ignores p (snd clause e)) clauses ->
  ignores p (try_except body clauses).
Proof. intros Hb Hcl w1 w2 H. apply agree_try_except; [apply Hb, H | exact Hcl]. Qed.

Lemma ignores_logging p lvl fmt args : ignores p (logging lvl fmt args).
Proof. intros w1 w2 H. split; [reflexivity | apply same_but_emit, H]. Qed.

Lemma ignores_print p line : ignores p (print line).
Proof. intros w1 w2 H. split; [reflexivity | apply same_but_emit, H]. Qed.

Lemma ignores_extcall p {A} c inj (respond : list event -> Res A) :
  ignores p (extcall c inj respond).
Proof.
  intros w1 w2 H. unfold extcall; simpl. destruct H as [Ht Hf].
  rewrite Ht. split; [reflexivity |]. split; simpl; [rewrite Ht; reflexivity | exact Hf].
Qed.

Lemma ignores_open_read p q : q <> p -> ignores p (open_read q).
Proof.
  intros Hq w1 w2 [Ht Hf]. unfold open_read. rewrite (Hf q Hq).
  destruct (files w2 !! q) as [[data | e] |]; (split; [reflexivity | split; assumption]).
Qed.

Lemma ignores_open_write p q data : q <> p -> ignores p (open_write q data).
Proof.
  intros Hq w1 w2 [Ht Hf]. unfold open_write. rewrite (Hf q Hq).
  destruct (files w2 !! q) as [[data' | e] |];
    (split; [reflexivity |]); (split; [exact Ht |]); simpl; try exact Hf;
    intros q' Hq'; destruct (decide (q = q')) as [-> | Hne];
    rewrite ?lookup_insert_eq, ?lookup_insert_ne by assumption; auto.
Qed.

Lemma ignores_comprehension p {A B} (f : A -> M B) l :
  (forall a, ignores p (f a)) -> ignores p (comprehension f l).
Proof.
  intros Hf. induction l as [| x rest IH]; simpl.
  - apply ignores_ret.
  - apply ignores_bind; [apply Hf |]. intros y.
    apply ignores_bind; [exact IH |]. intros ys. apply ignores_ret.
Qed.

Lemma ignores_with_start_run p rt {A} (body : Run -> M A) :
  (forall run, ignores p (body run)) -> ignores p (with_start_run rt body).
Proof.
  intros Hb. unfold with_start_run.
  apply ignores_bind; [apply ignores_extcall |]. intros run w1 w2 H.
  destruct (Hb run w1 w2 H) as [Hr Hw].
  destruct (body run w1) as [r1 w1'], (body run w2) as [r2 w2']. simpl in Hr, Hw.
  subst r2.
  destruct r1 as [a | e].
  - destruct (ignores_extcall p (end_run "FINISHED") (fun _ => RNone)
                (fun h => on_end_run rt h "FINISHED") w1' w2' Hw) as [Hr' Hw'].
    unfold mlflow_end_run.
    destruct (extcall _ _ _ w1') as [r1 w1''], (extcall _ _ _ w2') as [r2 w2''].
    simpl in Hr', Hw'. subst r2. destruct r1; split; auto.
  - destruct (ignores_extcall p (end_run "FAILED") (fun _ => RNone)
                (fun h => on_end_run rt h "FAILED") w1' w2' Hw) as [Hr' Hw'].
    unfold mlflow_end_run.
    destruct (extcall _ _ _ w1') as [r1 w1''], (extcall _ _ _ w2') as [r2 w2''].
    simpl in Hr', Hw'. subst r2. destruct r1; split; auto.
Qed.

Create HintDb ignores.
#[local] Hint Resolve ignores_ret ignores_raise ignores_lift ignores_logging
  ignores_print ignores_extcall ignores_open_read ignores_open_write : ignores.

Ltac ignores :=
  repeat first
    [ solve [auto with ignores]
    | apply ignores_bind; [| intros ?]
    | apply ignores_try_except
    | apply List.Forall_nil
    | apply List.Forall_cons; [intros ?; cbn [snd] |]
    | apply ignores_with_start_run; intros ?
    | apply ignores_comprehension; intros ? ].

Lemma ignores_verify_run_artifacts p rt run_id :
  ignores p (verify_run_artifacts rt run_id).
Proof.
  unfold verify_run_artifacts, verify_run_artifacts_try, new_MlflowClient,
    client_list_artifacts.
  ignores.
Qed.

Lemma ignores_register_model_from_run p rt run_id model_path model_name :
  ignores p (register_model_from_run rt run_id model_path model_name).
Proof.
  unfold register_model_from_run, register_model_from_run_try, new_MlflowClient,
    mlflow_register_model, client_transition_model_version_stage.
  apply ignores_try_except; [| ignores].
  apply ignores_bind; [ignores |]. intros _.
  apply ignores_bind; [apply ignores_verify_run_artifacts |]. intros artifacts.
  destruct (negb (py_in model_path artifacts)); ignores.
Qed.

Lemma ignores_register_model_directly p rt model_file_path model_name :
  model_file_path <> p ->
  ignores p (register_model_directly rt model_file_path model_name).
Proof.
  intros Hp.
  unfold register_model_directly, register_model_directly_try, pickle_load_.
  apply ignores_try_except; [| ignores].
  apply ignores_bind; [apply ignores_open_read, Hp |]. intros data.
  apply ignores_bind; [ignores |]. intros model.
  apply ignores_bind; [ignores |]. intros _.
  apply ignores_with_start_run. intros run.
  unfold register_model_directly_run, mlflow_sklearn_log_model, time_sleep,
    new_MlflowClient, client_search_model_versions,
    client_transition_model_version_stage.
  do 4 (apply ignores_bind; [ignores |]; intros _).
  apply ignores_bind; [ignores |]. intros model_versions.
  destruct model_versions as [| mv rest]; [ignores |].
  apply ignores_bind.
  { apply ignores_comprehension. intros mv'. unfold int_. ignores. }
  intros numbers. apply ignores_bind; [| intros ?; ignores].
  unfold py_max. destruct numbers; ignores.
Qed.

Lemma ignores_save_registered_model_info p model_name version file_path :
  file_path <> p ->
  ignores p (save_registered_model_info model_name version file_path).
Proof.
  intros Hp. unfold save_registered_model_info, save_registered_model_info_try.
  apply ignores_try_except; [| ignores].
  apply ignores_bind; [apply ignores_open_write, Hp | intros ?; ignores].
Qed.

Lemma load_model_info_Ok file_path text model_info w :
  files w !! file_path = Some (Regular text) ->
  json_loads text = Ok model_info ->
  load_model_info file_path w =
    (Ok model_info, emit (Logged INFO "Model info loaded from %s" [AStr file_path]) w).
Proof.
  intros Hf Hj. unfold load_model_info. apply try_except_Ok.
  unfold load_model_info_try, bind at 1, open_read. rewrite Hf.
  unfold lift, bind at 1. rewrite Hj. reflexivity.
Qed.

Lemma main_from_run_with_model_info rt model_name text d w :
  files w !! "reports/experiment_info.json" = Some (Regular text) ->
  json_loads text = Ok (PDict d) ->
  main_from_run rt model_name w =
    with_model_info rt model_name d
      (emit (Logged INFO "Model info loaded from %s"
               [AStr "reports/experiment_info.json"]) w).
Proof.
  intros Hf Hj. unfold main_from_run.
  rewrite (bind_Ok _ _ _ _ _ (load_model_info_Ok _ _ _ _ Hf Hj)). reflexivity.
Qed.

Lemma ignores_with_model_info p rt model_name d :
  ignores p (with_model_info rt model_name d).
Proof.
  unfold with_model_info, register_known_run, getitem.
  destruct (dict_get d "run_id"); [| exact (ignores_raise p _)].
  destruct (dict_get d "model_path");
    [| apply ignores_bind; [ignores |]; intros ?; exact (ignores_raise p _)].
  do 3 (apply ignores_bind; [ignores |]; intros ?).
  apply ignores_bind; [apply ignores_register_model_from_run |]. intros version.
  ignores.
Qed.

(** C6. [main] takes from reports/experiment_info.json the values of
    [run_id] and [model_path] and calls [register_model_from_run] on these
    two values; two files that hold a dict with the same two values give
    the same registration from the run, and the same [main]: same result,
    same trace, same files (the file that was read apart). *)
Theorem main_reads_run_id_and_model_path rt :
  (forall w text d run_id model_path,
      files w !! "reports/experiment_info.json" = Some (Regular text) ->
      json_loads text = Ok (PDict d) ->
      dict_get d "run_id" = Some run_id ->
      dict_get d "model_path" = Some model_path ->
      main_from_run rt "sentiment_model" w =
        register_known_run rt "sentiment_model" run_id model_path
          (emit (Logged INFO "Model info loaded from %s"
                   [AStr "reports/experiment_info.json"]) w))
  /\ (forall w1 w2 text1 text2 d1 d2,
         same_but "reports/experiment_info.json" w1 w2 ->
         files w1 !! "reports/experiment_info.json" = Some (Regular text1) ->
         files w2 !! "reports/experiment_info.json" = Some (Regular text2) ->
         json_loads text1 = Ok (PDict d1) ->
         json_loads text2 = Ok (PDict d2) ->
         dict_get d1 "run_id" = dict_get d2 "run_id" ->
         dict_get d1 "model_path" = dict_get d2 "model_path" ->
         agree "reports/experiment_info.json"
           (main_from_run rt "sentiment_model" w1)
           (main_from_run rt "sentiment_model" w2)
         /\ agree "reports/experiment_info.json" (main rt w1) (main rt w2)).
Proof.
  split.
  - intros w text d run_id model_path Hf Hj Hr Hm.
    rewrite (main_from_run_with_model_info _ _ _ _ _ Hf Hj).
    unfold with_model_info, getitem. rewrite Hr, Hm. reflexivity.
  - intros w1 w2 text1 text2 d1 d2 Hw Hf1 Hf2 Hj1 Hj2 Hr Hm.
    assert (Hfrom : agree "reports/experiment_info.json"
                      (main_from_run rt "sentiment_model" w1)
                      (main_from_run rt "sentiment_model" w2)).
    { rewrite (main_from_run_with_model_info _ _ _ _ _ Hf1 Hj1),
        (main_from_run_with_model_info _ _ _ _ _ Hf2 Hj2).
      assert (Hsame : with_model_info rt "sentiment_model" d1
                      = with_model_info rt "sentiment_model" d2).
      { unfold with_model_info, getitem. rewrite Hr, Hm. reflexivity. }
      rewrite Hsame. apply ignores_with_model_info, same_but_emit, Hw. }
    split; [exact Hfrom |].
    unfold main, main_try.
    apply agree_try_except; [| unfold main_failed; ignores].
    apply agree_bind.
    + apply agree_try_except; [exact Hfrom |].
      apply List.Forall_cons; [| apply List.Forall_nil]. intros e. cbn [snd].
      unfold main_fallback.
      do 2 (apply ignores_bind; [ignores |]; intros _).
      apply ignores_bind; [| intros ?; ignores].
      apply ignores_register_model_directly. discriminate.
    + intros version. unfold main_finish.
      apply ignores_bind; [| intros ?; ignores].
      apply ignores_save_registered_model_info. discriminate.
Qed.

Lemma save_registered_model_info_witness :
  exists text w',
    save_registered_model_info "sentiment_model" (PStr "3")
      "reports/registered_model_info.json" world_saved_model = (Ok tt, w')
    /\ files w' !! "reports/registered_model_info.json" = Some (Regular text)
    /\ json_loads text =
         Ok (PDict [ ("model_name", PStr "sentiment_model");
                     ("version", PStr "3");
                     ("stage", PStr "Staging") ]).
Proof.
  apply (save_registered_model_info_writes_schema "sentiment_model" "3"
           "reports/registered_model_info.json" world_saved_model).
  intros e. vm_compute. discriminate.
Defined.

Lemma registered_model_info_round_trip_witness :
  let w1 := snd (save_registered_model_info "sentiment_model" (PStr "3")
                   "reports/registered_model_info.json" world_saved_model) in
  load_model_info "reports/registered_model_info.json" w1 =
    (Ok (PDict [ ("model_name", PStr "sentiment_model");
                 ("version", PStr "3");
                 ("stage", PStr "Staging") ]),
     emit (Logged INFO "Model info loaded from %s"
             [AStr "reports/registered_model_info.json"]) w1).
Proof.
  apply (registered_model_info_round_trip "sentiment_model" "3"
           "reports/registered_model_info.json" world_saved_model).
  vm_compute. reflexivity.
Defined.

Lemma main_reads_run_id_and_model_path_witness :
  main_from_run quiet_runtime "sentiment_model" world_known_run =
    register_known_run quiet_runtime "sentiment_model" (PStr "abc123") (PStr "model")
      (emit (Logged INFO "Model info loaded from %s"
               [AStr "reports/experiment_info.json"]) world_known_run)
  /\ agree "reports/experiment_info.json"
       (main_from_run quiet_runtime "sentiment_model" world_known_run)
       (main_from_run quiet_runtime "sentiment_model" world_known_run')
  /\ agree "reports/experiment_info.json"
       (main quiet_runtime world_known_run) (main quiet_runtime world_known_run').
Proof.
  split.
  - apply (proj1 (main_reads_run_id_and_model_path quiet_runtime)
             world_known_run experiment_info_text
             [("run_id", PStr "abc123"); ("model_path", PStr "model")]);
      vm_compute; reflexivity.
  - apply (proj2 (main_reads_run_id_and_model_path quiet_runtime)
             world_known_run world_known_run'
             experiment_info_text experiment_info_text'
             [("run_id", PStr "abc123"); ("model_path", PStr "model")]
             [("model_path", PStr "model"); ("metrics", PList [PInt 1; PInt 2]);
              ("run_id", PStr "abc123")]);
      try (vm_compute; reflexivity).
    split; [reflexivity |]. intros q Hq. unfold world_known_run, world_known_run'.
    simpl. rewrite !lookup_insert_ne by congruence. reflexivity.
Defined.


(** ** Examples *)

Example py_int_examples :
  map py_int ["12"; " 12 "; "+5"; "-7"; "1_000"; "007"]
  = [Some 12; Some 12; Some 5; Some (-7); Some 1000; Some 7]%Z
  /\ map py_int [""; "_1"; "1__0"; "1_"; "1 2"; "- 1"; "v3"]
     = [None; None; None; None; None; None; None].
Proof. split; reflexivity. Qed.

(** [int] skips the white space of ASCII and U+0085 and U+00A0, and not
    the separators U+001C to U+001F. *)
Example py_int_white_space :
  map py_int [String (chr 9) "12"; String (chr 133) "12"; "12" +:+ str1 (chr 160)]
  = [Some 12; Some 12; Some 12]%Z
  /\ map py_int [String (chr 28) "12"; "12" +:+ str1 (chr 31); String (chr 29) "12"]
     = [None; None; None].
Proof. split; reflexivity. Qed.

(** [int] on the versions of the two stores. *)
Example py_int_val_examples :
  map (py_int_val quiet_runtime) [PStr "10"; PInt 10; PBool true]
  = [Ok 10; Ok 10; Ok 1]%Z
  /\ py_int_val quiet_runtime (PStr "v1")
     = Raise (mk_exn ValueError "invalid literal for int() with base 10: 'v1'").
Proof. split; reflexivity. Qed.

Example str_of_int_examples :
  map str_of_int [0; 7; 10; -3]%Z = ["0"; "7"; "10"; "-3"].
Proof. reflexivity. Qed.

(** The text that [save_registered_model_info] writes. *)
Example json_dumps_example :
  json_dumps_indent4 (registered_info "sentiment_model" (PStr "3"))
  = "{" +:+ str1 newline
    +:+ "    " +:+ quoted "model_name" +:+ ": " +:+ quoted "sentiment_model"
    +:+ "," +:+ str1 newline
    +:+ "    " +:+ quoted "version" +:+ ": " +:+ quoted "3" +:+ "," +:+ str1 newline
    +:+ "    " +:+ quoted "stage" +:+ ": " +:+ quoted "Staging" +:+ str1 newline
    +:+ "}".
Proof. reflexivity. Qed.

Example json_loads_examples :
  json_loads experiment_info_text
  = Ok (PDict [("run_id", PStr "abc123"); ("model_path", PStr "model")])
  /\ json_loads "[1, 2.5e3, true, null, [], {}]"
     = Ok (PList [PInt 1; PFloat "2.5e3"; PBool true; PNone; PList []; PDict []])
  /\ json_loads "[[[[" = Raise (mk_exn JSONDecodeError "Expecting value")
  /\ json_loads "{" =
       Raise (mk_exn JSONDecodeError
                "Expecting property name enclosed in double quotes")
  /\ json_loads "1 2" = Raise (mk_exn JSONDecodeError "Extra data").
Proof. repeat split; reflexivity. Qed.

(** [main] with both files there and a runtime in which every call
    succeeds. *)
Example main_registers_from_the_run :
  fst (main quiet_runtime world_known_run) = Ok tt
  /\ trace (snd (main quiet_runtime world_known_run))
     = [ Logged INFO "Model info loaded from %s" [AStr "reports/experiment_info.json"];
         Logged INFO "Retrieved run_id: %s, model_path: %s"
           [AVal (PStr "abc123"); AVal (PStr "model")];
         Called MlflowClient (Ok RNone);
         Called MlflowClient (Ok RNone);
         Called (list_artifacts (PStr "abc123"))
           (Ok (RFileInfos [mk_FileInfo "model" true]));
         Logged INFO "Found artifacts in run %s: %s"
           [AVal (PStr "abc123"); AStrs ["model"]];
         Logged INFO "Model URI: %s" [AStr "runs:/abc123/model"];
         Called (register_model "runs:/abc123/model" "sentiment_model")
           (Ok (RModelVersion (mk_ModelVersion "sentiment_model" (PStr "3"))));
         Logged INFO "Model registered with name: %s, version: %s"
           [AStr "sentiment_model"; AVal (PStr "3")];
         Called (transition_model_version_stage "sentiment_model" (PStr "3")
                   "Staging" false)
           (Ok RNone);
         Logged INFO "Model version %s transitioned to Staging" [AVal (PStr "3")];
         Printed "Model 'sentiment_model' version 3 successfully registered from run abc123!";
         Logged INFO "Registered model info saved to %s"
           [AStr "reports/registered_model_info.json"];
         Printed "Model transitioned to Staging stage." ]
  /\ files (snd (main quiet_runtime world_known_run))
       !! "reports/registered_model_info.json"
     = Some (Regular (json_dumps_indent4
                        (registered_info "sentiment_model" (PStr "3")))).
Proof. repeat split; vm_compute; reflexivity. Qed.

(** [main] with no experiment_info.json: the saved model is registered,
    as version 10. *)
Example main_registers_the_saved_model :
  fst (main quiet_runtime world_saved_model) = Ok tt
  /\ In (Called (transition_model_version_stage "sentiment_model" (PStr "10")
                    "Staging" false)
           (Ok RNone))
        (trace (snd (main quiet_runtime world_saved_model)))
  /\ files (snd (main quiet_runtime world_saved_model))
       !! "reports/registered_model_info.json"
     = Some (Regular (json_dumps_indent4
                        (registered_info "sentiment_model" (PStr "10")))).
Proof. repeat split; vm_compute; tauto. Qed.

(** When the listing fails, [verify_run_artifacts] logs the error and
    returns the empty list. *)
Example verify_run_artifacts_listing_fails :
  verify_run_artifacts listing_fails (PStr "abc123") world_known_run
  = (Ok [],
     emits [ Called MlflowClient (Ok RNone);
             Called (list_artifacts (PStr "abc123"))
               (Raise (mk_exn MlflowException "RESOURCE_DOES_NOT_EXIST"));
             Logged ERROR "Error listing artifacts: %s"
               [AExn (mk_exn MlflowException "RESOURCE_DOES_NOT_EXIST")] ]
       world_known_run).
Proof. reflexivity. Qed.

(** An error inside [register_model_directly] is logged and raised
    again. *)
Example register_model_directly_no_version :
  fst (register_model_directly no_version_reported "./models/model.pkl"
         "sentiment_model" world_saved_model)
  = Raise (mk_exn ValueError "No versions found for model 'sentiment_model'")
  /\ last (trace (snd (register_model_directly no_version_reported
                         "./models/model.pkl" "sentiment_model" world_saved_model)))
     = Some (Logged ERROR "Error during direct model registration: %s"
               [AExn (mk_exn ValueError
                        "No versions found for model 'sentiment_model'")]).
Proof. split; vm_compute; reflexivity. Qed.

(** * Further properties of the script *)

(** ** Files and traces *)

Lemma keeps_files_ret {A} (a : A) : keeps_files (ret a).
Proof. intros w. reflexivity. Qed.

Lemma keeps_files_raise {A} e : keeps_files (@raise A e).
Proof. intros w. reflexivity. Qed.

Lemma keeps_files_lift {A} (r : Res A) : keeps_files (lift r).
Proof. intros w. reflexivity. Qed.

Lemma keeps_files_logging lvl fmt args : keeps_files (logging lvl fmt args).
Proof. intros w. reflexivity. Qed.

Lemma keeps_files_print line : keeps_files (print line).
Proof. intros w. reflexivity. Qed.

Lemma keeps_files_extcall {A} c inj (respond : list event -> Res A) :
  keeps_files (extcall c inj respond).
Proof. intros w. reflexivity. Qed.

Lemma keeps_files_open_read path : keeps_files (open_read path).
Proof.
  intros w. unfold open_read.
  destruct (files w !! path) as [[data | e] |]; reflexivity.
Qed.

Lemma keeps_files_bind {A B} (c : M A) (k : A -> M B) :
  keeps_files c -> (forall a, keeps_files (k a)) -> keeps_files (bind c k).
Proof.
  intros Hc Hk w. unfold bind. specialize (Hc w).
  destruct (c w) as [[a | e] w1]; simpl in Hc; [| exact Hc].
  rewrite Hk. exact Hc.
Qed.

Lemma keeps_files_try_except {A} (body : M A) clauses :
  keeps_files body ->
  Forall (fun clause => forall e, keeps_files (snd clause e)) clauses ->
  keeps_files (try_except body clauses).
Proof.
  intros Hb Hcl w. unfold try_except. specialize (Hb w).
  destruct (body w) as [[a | e] w1]; simpl in Hb; [exact Hb |].
  destruct (find (handles e) clauses) as [clause |] eqn:Hfind; [| exact Hb].
  apply find_some in Hfind as [Hin _].
  rewrite List.Forall_forall in Hcl. rewrite (Hcl clause Hin e). exact Hb.
Qed.

Lemma keeps_files_comprehension {A B} (f : A -> M B) l :
  (forall a, keeps_files (f a)) -> keeps_files (comprehension f l).
Proof.
  intros Hf. induction l as [| x rest IH]; simpl.
  - apply keeps_files_ret.
  - apply keeps_files_bind; [apply Hf |]. intros y.
    apply keeps_files_bind; [exact IH |]. intros ys. apply keeps_files_ret.
Qed.

Lemma keeps_files_with_start_run rt {A} (body : Run -> M A) :
  (forall run, keeps_files (body run)) -> keeps_files (with_start_run rt body).
Proof.
  intros Hb. unfold with_start_run.
  apply keeps_files_bind; [apply keeps_files_extcall |]. intros run w.
  specialize (Hb run w). unfold mlflow_end_run, extcall.
  destruct (body run w) as [[a | e] w1]; simpl in *;
    destruct (on_end_run rt (trace w1) _); exact Hb.
Qed.

Create HintDb keeps.
#[local] Hint Resolve keeps_files_ret keeps_files_raise keeps_files_lift
  keeps_files_logging keeps_files_print keeps_files_extcall keeps_files_open_read
  : keeps.

Ltac keeps :=
  repeat first
    [ solve [auto with keeps]
    | apply keeps_files_bind; [| intros ?]
    | apply keeps_files_try_except
    | apply List.Forall_nil
    | apply List.Forall_cons; [intros ?; cbn [snd] |]
    | apply keeps_files_with_start_run; intros ?
    | apply keeps_files_comprehension; intros ? ].

Lemma keeps_files_load_model_info file_path : keeps_files (load_model_info file_path).
Proof. unfold load_model_info, load_model_info_try. keeps. Qed.

Lemma keeps_files_verify_run_artifacts rt run_id :
  keeps_files (verify_run_artifacts rt run_id).
Proof.
  unfold verify_run_artifacts, verify_run_artifacts_try, new_MlflowClient,
    client_list_artifacts.
  keeps.
Qed.

Lemma keeps_files_register_model_from_run rt run_id model_path model_name :
  keeps_files (register_model_from_run rt run_id model_path model_name).
Proof.
  unfold register_model_from_run, register_model_from_run_try, new_MlflowClient,
    mlflow_register_model, client_transition_model_version_stage.
  apply keeps_files_try_except; [| keeps].
  apply keeps_files_bind; [keeps |]. intros _.
  apply keeps_files_bind; [apply keeps_files_verify_run_artifacts |]. intros artifacts.
  destruct (negb (py_in model_path artifacts)); keeps.
Qed.

Lemma keeps_files_register_model_directly rt model_file_path model_name :
  keeps_files (register_model_directly rt model_file_path model_name).
Proof.
  unfold register_model_directly, register_model_directly_try, pickle_load_.
  apply keeps_files_try_except; [| keeps].
  do 3 (apply keeps_files_bind; [keeps |]; intros ?).
  apply keeps_files_with_start_run. intros run.
  unfold register_model_directly_run, mlflow_sklearn_log_model, time_sleep,
    new_MlflowClient, client_search_model_versions,
    client_transition_model_version_stage.
  do 4 (apply keeps_files_bind; [keeps |]; intros _).
  apply keeps_files_bind; [keeps |]. intros model_versions.
  destruct model_versions as [| mv rest]; [keeps |].
  apply keeps_files_bind.
  { apply keeps_files_comprehension. intros mv'. unfold int_. keeps. }
  intros numbers. apply keeps_files_bind; [| intros ?; keeps].
  unfold py_max. destruct numbers; keeps.
Qed.

Lemma keeps_files_main_from_run rt model_name : keeps_files (main_from_run rt model_name).
Proof.
  unfold main_from_run.
  apply keeps_files_bind; [apply keeps_files_load_model_info |]. intros model_info.
  apply keeps_files_bind; [unfold getitem; destruct model_info; try destruct (dict_get _ _); keeps |].
  intros run_id.
  apply keeps_files_bind; [unfold getitem; destruct model_info; try destruct (dict_get _ _); keeps |].
  intros model_path.
  apply keeps_files_bind; [keeps |]. intros _.
  apply keeps_files_bind; [apply keeps_files_register_model_from_run |]. intros version.
  keeps.
Qed.

Lemma keeps_files_main_fallback rt model_name e :
  keeps_files (main_fallback rt model_name e).
Proof.
  unfold main_fallback.
  do 2 (apply keeps_files_bind; [keeps |]; intros _).
  apply keeps_files_bind; [apply keeps_files_register_model_directly |]. intros version.
  keeps.
Qed.

(** The inner [try] statement of [main]. *)
Lemma keeps_files_main_register rt :
  keeps_files
    (try_except (main_from_run rt "sentiment_model")
       [ ([FileNotFoundError; ValueError], main_fallback rt "sentiment_model") ]).
Proof.
  apply keeps_files_try_except; [apply keeps_files_main_from_run |].
  apply List.Forall_cons; [| apply List.Forall_nil].
  intros e. apply keeps_files_main_fallback.
Qed.

Lemma grows_ret {A} (a : A) : grows (ret a).
Proof. intros w. exists []. simpl. rewrite app_nil_r. reflexivity. Qed.

Lemma grows_raise {A} e : grows (@raise A e).
Proof. intros w. exists []. simpl. rewrite app_nil_r. reflexivity. Qed.

Lemma grows_lift {A} (r : Res A) : grows (lift r).
Proof. intros w. exists []. simpl. rewrite app_nil_r. reflexivity. Qed.

Lemma grows_logging lvl fmt args : grows (logging lvl fmt args).
Proof. intros w. eexists. reflexivity. Qed.

Lemma grows_print line : grows (print line).
Proof. intros w. eexists. reflexivity. Qed.

Lemma grows_extcall {A} c inj (respond : list event -> Res A) :
  grows (extcall c inj respond).
Proof. intros w. eexists. reflexivity. Qed.

Lemma grows_open_read path : grows (open_read path).
Proof.
  intros w. exists []. unfold open_read.
  destruct (files w !! path) as [[data | e] |]; simpl; rewrite app_nil_r; reflexivity.
Qed.

Lemma grows_open_write path data : grows (open_write path data).
Proof.
  intros w. exists []. unfold open_write.
  destruct (files w !! path) as [[data' | e] |]; simpl; rewrite app_nil_r; reflexivity.
Qed.

Lemma grows_bind {A B} (c : M A) (k : A -> M B) :
  grows c -> (forall a, grows (k a)) -> grows (bind c k).
Proof.
  intros Hc Hk w. unfold bind. destruct (Hc w) as [evs Hevs].
  destruct (c w) as [[a | e] w1]; simpl in Hevs; [| eauto].
  destruct (Hk a w1) as [evs' Hevs']. exists (evs ++ evs').
  rewrite Hevs', Hevs, app_assoc. reflexivity.
Qed.

Lemma grows_try_except {A} (body : M A) clauses :
  grows body ->
  Forall (fun clause => forall e, grows (snd clause e)) clauses ->
  grows (try_except body clauses).
Proof.
  intros Hb Hcl w. unfold try_except. destruct (Hb w) as [evs Hevs].
  destruct (body w) as [[a | e] w1]; simpl in Hevs; [eauto |].
  destruct (find (handles e) clauses) as [clause |] eqn:Hfind; [| eauto].
  apply find_some in Hfind as [Hin _].
  rewrite List.Forall_forall in Hcl.
  destruct (Hcl clause Hin e w1) as [evs' Hevs']. exists (evs ++ evs').
  rewrite Hevs', Hevs, app_assoc. reflexivity.
Qed.

Lemma grows_comprehension {A B} (f : A -> M B) l :
  (forall a, grows (f a)) -> grows (comprehension f l).
Proof.
  intros Hf. induction l as [| x rest IH]; simpl.
  - apply grows_ret.
  - apply grows_bind; [apply Hf |]. intros y.
    apply grows_bind; [exact IH |]. intros ys. apply grows_ret.
Qed.

Lemma grows_with_start_run rt {A} (body : Run -> M A) :
  (forall run, grows (body run)) -> grows (with_start_run rt body).
Proof.
  intros Hb. unfold with_start_run.
  apply grows_bind; [apply grows_extcall |]. intros run w.
  destruct (Hb run w) as [evs Hevs]. unfold mlflow_end_run, extcall.
  destruct (body run w) as [[a | e] w1]; simpl in *;
    destruct (on_end_run rt (trace w1) _); simpl; rewrite Hevs, <- app_assoc; eauto.
Qed.

Create HintDb grows.
#[local] Hint Resolve grows_ret grows_raise grows_lift grows_logging grows_print
  grows_extcall grows_open_read grows_open_write : grows.

Ltac grows :=
  repeat first
    [ solve [auto with grows]
    | apply grows_bind; [| intros ?]
    | apply grows_try_except
    | apply List.Forall_nil
    | apply List.Forall_cons; [intros ?; cbn [snd] |]
    | apply grows_with_start_run; intros ?
    | apply grows_comprehension; intros ? ].

Lemma grows_getitem obj key : grows (getitem obj key).
Proof. unfold getitem. destruct obj; try destruct (dict_get _ _); grows. Qed.

Lemma grows_register_model_from_run rt run_id model_path model_name :
  grows (register_model_from_run rt run_id model_path model_name).
Proof.
  unfold register_model_from_run, register_model_from_run_try,
    verify_run_artifacts, verify_run_artifacts_try, new_MlflowClient,
    mlflow_register_model, client_transition_model_version_stage,
    client_list_artifacts.
  apply grows_try_except; [| grows].
  apply grows_bind; [grows |]. intros _.
  apply grows_bind; [grows |]. intros artifacts.
  destruct (negb (py_in model_path artifacts)); grows.
Qed.

Lemma grows_register_model_directly rt model_file_path model_name :
  grows (register_model_directly rt model_file_path model_name).
Proof.
  unfold register_model_directly, register_model_directly_try, pickle_load_.
  apply grows_try_except; [| grows].
  do 3 (apply grows_bind; [grows |]; intros ?).
  apply grows_with_start_run. intros run.
  unfold register_model_directly_run, mlflow_sklearn_log_model, time_sleep,
    new_MlflowClient, client_search_model_versions,
    client_transition_model_version_stage.
  do 4 (apply grows_bind; [grows |]; intros _).
  apply grows_bind; [grows |]. intros model_versions.
  destruct model_versions as [| mv rest]; [grows |].
  apply grows_bind.
  { apply grows_comprehension. intros mv'. unfold int_. grows. }
  intros numbers. apply grows_bind; [| intros ?; grows].
  unfold py_max. destruct numbers; grows.
Qed.

Lemma grows_main_try rt : grows (main_try rt).
Proof.
  unfold main_try, main_from_run, main_fallback, main_finish, load_model_info,
    load_model_info_try, save_registered_model_info, save_registered_model_info_try.
  apply grows_bind.
  - apply grows_try_except.
    + apply grows_bind; [grows |]. intros model_info.
      do 2 (apply grows_bind; [apply grows_getitem |]; intros ?).
      apply grows_bind; [grows |]. intros _.
      apply grows_bind; [apply grows_register_model_from_run |]. intros ?. grows.
    + apply List.Forall_cons; [| apply List.Forall_nil]. intros e. cbn [snd].
      do 2 (apply grows_bind; [grows |]; intros _).
      apply grows_bind; [apply grows_register_model_directly |]. intros ?. grows.
  - intros version. grows.
Qed.

Lemma keeps_files_writes_only p {A} (c : M A) : keeps_files c -> writes_only p c.
Proof. intros H w q _. rewrite H. reflexivity. Qed.

Lemma writes_only_bind p {A B} (c : M A) (k : A -> M B) :
  writes_only p c -> (forall a, writes_only p (k a)) -> writes_only p (bind c k).
Proof.
  intros Hc Hk w q Hq. unfold bind. specialize (Hc w q Hq).
  destruct (c w) as [[a | e] w1]; simpl in Hc; [| exact Hc].
  rewrite (Hk a w1 q Hq). exact Hc.
Qed.

Lemma writes_only_try_except p {A} (body : M A) clauses :
  writes_only p body ->
  Forall (fun clause => forall e, writes_only p (snd clause e)) clauses ->
  writes_only p (try_except body clauses).
Proof.
  intros Hb Hcl w q Hq. unfold try_except. specialize (Hb w q Hq).
  destruct (body w) as [[a | e] w1]; simpl in Hb; [exact Hb |].
  destruct (find (handles e) clauses) as [clause |] eqn:Hfind; [| exact Hb].
  apply find_some in Hfind as [Hin _].
  rewrite List.Forall_forall in Hcl. rewrite (Hcl clause Hin e w1 q Hq). exact Hb.
Qed.

Lemma writes_only_save_registered_model_info model_name version file_path :
  writes_only file_path (save_registered_model_info model_name version file_path).
Proof.
  intros w q Hq. rewrite save_registered_model_info_run.
  destruct (files w !! file_path) as [[data | e] |]; simpl;
    rewrite ?lookup_insert_ne by congruence; reflexivity.
Qed.

(** X1. Whatever happens, [main] changes no file but
    reports/registered_model_info.json: it leaves experiment_info.json and
    the saved model as they were. *)
Theorem main_writes_only_registered_model_info rt :
  writes_only "reports/registered_model_info.json" (main rt).
Proof.
  unfold main, main_try.
  apply writes_only_try_except.
  - apply writes_only_bind.
    + apply keeps_files_writes_only, keeps_files_main_register.
    + intros version. unfold main_finish. apply writes_only_bind.
      * apply writes_only_save_registered_model_info.
      * intros _. apply keeps_files_writes_only, keeps_files_print.
  - apply List.Forall_cons; [| apply List.Forall_nil]. intros e. cbn [snd].
    apply keeps_files_writes_only. unfold main_failed. keeps.
Qed.

(** X2. When [main] raises, it has written no file at all, and the last
    things it did were to log the failure and to print the error that it
    raises. *)
Theorem main_failure_writes_nothing rt w e w' :
  main rt w = (Raise e, w') ->
  files w' = files w
  /\ exists evs,
       trace w' =
         trace w ++ evs
         ++ [ Logged ERROR "Failed to complete the model registration process: %s"
                [AExn e];
              Printed ("Error: " +:+ exn_str e) ].
Proof.
  unfold main. unfold try_except at 1.
  destruct (main_try rt w) as [[u | e1] w1] eqn:Htry; [discriminate |].
  simpl. unfold handles; simpl. rewrite isinstance_Exception. simpl.
  unfold main_failed. autorewrite with run. unfold raise.
  intros [= <- <-]. simpl.
  destruct (grows_main_try rt w) as [evs Hevs]. rewrite Htry in Hevs. simpl in Hevs.
  split; [| exists evs; rewrite Hevs, <- app_assoc; reflexivity].
  unfold main_try in Htry. unfold bind at 1 in Htry.
  pose proof (keeps_files_main_register rt w) as Hk.
  destruct (try_except _ _ w) as [[version | e2] w2]; simpl in Hk.
  - unfold main_finish, bind at 1 in Htry.
    rewrite save_registered_model_info_run in Htry.
    destruct (files w2 !! _) as [[data | e3] |]; try discriminate Htry.
    injection Htry as _ <-. exact Hk.
  - injection Htry as _ <-. exact Hk.
Qed.

(** ** The inner [try] of [main] *)

(** [main], from the outcome of the registration from the known run. *)
Lemma main_after_from_run rt w r w1 :
  main_from_run rt "sentiment_model" w = (r, w1) ->
  main rt w =
    match r with
    | Ok version =>
        try_except (main_finish "sentiment_model" version)
          [ ([Exception], main_failed) ] w1
    | Raise e =>
        if isinstance e FileNotFoundError || isinstance e ValueError
        then main_after_fallback rt e w1
        else main_failed e w1
    end.
Proof.
  intros H. unfold main, main_try, main_after_fallback.
  unfold try_except at 1. unfold bind at 1. unfold try_except at 1.
  rewrite H. destruct r as [version | e]; [reflexivity |].
  simpl. unfold handles. simpl. rewrite orb_false_r.
  destruct (isinstance e FileNotFoundError || isinstance e ValueError); simpl.
  - reflexivity.
  - rewrite isinstance_Exception. reflexivity.
Qed.

(** Which classes the inner handler of [main] catches. *)
Lemma inner_handler_catches (c : exn_class) msg :
  isinstance (mk_exn c msg) FileNotFoundError || isinstance (mk_exn c msg) ValueError
  = match c with
    | FileNotFoundError | ValueError | UnicodeError | UnicodeDecodeError
    | JSONDecodeError => true
    | _ => false
    end.
Proof. destruct c; reflexivity. Qed.

(** X3. When experiment_info.json holds an object that lacks [run_id], or
    has [run_id] and lacks [model_path], [main] raises the [KeyError] of
    that key: it does not call the tracking client and does not fall back
    to the saved model. *)
Theorem main_missing_field_raises_KeyError rt w text d key :
  files w !! "reports/experiment_info.json" = Some (Regular text) ->
  json_loads text = Ok (PDict d) ->
  (key = "run_id" /\ dict_get d "run_id" = None)
  \/ (key = "model_path" /\ dict_get d "run_id" <> None
      /\ dict_get d "model_path" = None) ->
  main rt w =
    (Raise (mk_exn KeyError ("'" +:+ key +:+ "'")),
     emits [ Logged INFO "Model info loaded from %s"
               [AStr "reports/experiment_info.json"];
             Logged ERROR "Failed to complete the model registration process: %s"
               [AExn (mk_exn KeyError ("'" +:+ key +:+ "'"))];
             Printed ("Error: '" +:+ key +:+ "'") ] w).
Proof.
  intros Hf Hj Hkey.
  assert (Hfrom : main_from_run rt "sentiment_model" w
                  = (Raise (mk_exn KeyError ("'" +:+ key +:+ "'")),
                     emit (Logged INFO "Model info loaded from %s"
                             [AStr "reports/experiment_info.json"]) w)).
  { rewrite (main_from_run_with_model_info _ _ _ _ _ Hf Hj).
    unfold with_model_info, getitem.
    destruct Hkey as [[-> Hr] | (-> & Hr & Hm)].
    - rewrite Hr. reflexivity.
    - destruct (dict_get d "run_id") as [run_id |]; [| congruence].
      rewrite Hm. reflexivity. }
  rewrite (main_after_from_run _ _ _ _ Hfrom), inner_handler_catches.
  unfold main_failed. autorewrite with run. reflexivity.
Qed.

(** X4. When experiment_info.json holds JSON that is not an object (a
    list, a string, a number, [true], [false] or [null]), [main] raises a
    [TypeError], without a call to the tracking client and without the
    fallback. *)
Theorem main_not_an_object_raises_TypeError rt w text model_info :
  files w !! "reports/experiment_info.json" = Some (Regular text) ->
  json_loads text = Ok model_info ->
  (forall d, model_info <> PDict d) ->
  exists e,
    exn_type e = TypeError
    /\ main rt w =
         (Raise e,
          emits [ Logged INFO "Model info loaded from %s"
                    [AStr "reports/experiment_info.json"];
                  Logged ERROR "Failed to complete the model registration process: %s"
                    [AExn e];
                  Printed ("Error: " +:+ exn_str e) ] w).
Proof.
  intros Hf Hj Hd.
  assert (Hfrom : exists e,
             exn_type e = TypeError
             /\ main_from_run rt "sentiment_model" w
                = (Raise e, emit (Logged INFO "Model info loaded from %s"
                                    [AStr "reports/experiment_info.json"]) w)).
  { unfold main_from_run.
    rewrite (bind_Ok _ _ _ _ _ (load_model_info_Ok _ _ _ _ Hf Hj)).
    destruct model_info; try (eexists; split; [| reflexivity]; reflexivity).
    exfalso. exact (Hd _ eq_refl). }
  destruct Hfrom as (e & He & Hfrom). exists e. split; [exact He |].
  rewrite (main_after_from_run _ _ _ _ Hfrom).
  destruct e as [c msg]. simpl in He. subst c. rewrite inner_handler_catches.
  unfold main_failed. autorewrite with run. reflexivity.
Qed.

(** ** The runs of [register_model_from_run] *)

Lemma verify_run_artifacts_verified rt run_id w :
  exists paths evs,
    verify_run_artifacts rt run_id w = (Ok paths, emits evs w)
    /\ verified run_id paths evs.
Proof.
  rewrite verify_run_artifacts_run. unfold verified.
  destruct (on_MlflowClient rt (trace w)) as [u | e];
    [destruct (on_list_artifacts rt _ run_id) as [artifacts | e] |];
    eexists _, _; (split; [reflexivity |]); eauto 8.
Qed.

(** Every run of [register_model_from_run] is one of five. *)
Lemma register_model_from_run_cases rt run_id model_path model_name w
    (P : Res pyval -> list event -> Prop) :
  (forall e,
      P (Raise e)
        [ Called MlflowClient (Raise e);
          Logged ERROR "Error during model registration: %s" [AExn e] ]) ->
  (forall paths evs e,
      verified run_id paths evs ->
      py_in model_path paths = false ->
      exn_type e = ValueError ->
      P (Raise e)
        (Called MlflowClient (Ok RNone) :: evs
         ++ [ Logged ERROR "Error during model registration: %s" [AExn e] ])) ->
  (forall paths evs e,
      verified run_id paths evs ->
      py_in model_path paths = true ->
      P (Raise e)
        (Called MlflowClient (Ok RNone) :: evs
         ++ [ Logged INFO "Model URI: %s" [AStr (model_uri rt run_id model_path)];
              Called (register_model (model_uri rt run_id model_path) model_name)
                (Raise e);
              Logged ERROR "Error during model registration: %s" [AExn e] ])) ->
  (forall paths evs mv e,
      verified run_id paths evs ->
      py_in model_path paths = true ->
      P (Raise e)
        (Called MlflowClient (Ok RNone) :: evs
         ++ [ Logged INFO "Model URI: %s" [AStr (model_uri rt run_id model_path)];
              Called (register_model (model_uri rt run_id model_path) model_name)
                (Ok (RModelVersion mv));
              Logged INFO "Model registered with name: %s, version: %s"
                [AStr (mv_name mv); AVal (mv_version mv)];
              Called (transition_model_version_stage
                        model_name (mv_version mv) "Staging" false) (Raise e);
              Logged ERROR "Error during model registration: %s" [AExn e] ])) ->
  (forall paths evs mv,
      verified run_id paths evs ->
      py_in model_path paths = true ->
      P (Ok (mv_version mv))
        (Called MlflowClient (Ok RNone) :: evs
         ++ [ Logged INFO "Model URI: %s" [AStr (model_uri rt run_id model_path)];
              Called (register_model (model_uri rt run_id model_path) model_name)
                (Ok (RModelVersion mv));
              Logged INFO "Model registered with name: %s, version: %s"
                [AStr (mv_name mv); AVal (mv_version mv)];
              Called (transition_model_version_stage
                        model_name (mv_version mv) "Staging" false) (Ok RNone);
              Logged INFO "Model version %s transitioned to Staging"
                [AVal (mv_version mv)] ])) ->
  exists r evs,
    register_model_from_run rt run_id model_path model_name w = (r, emits evs w)
    /\ P r evs.
Proof.
  intros H1 H2 H3 H4 H5.
  unfold register_model_from_run. rewrite try_log_raise.
  unfold register_model_from_run_try, new_MlflowClient.
  rewrite bind_extcall.
  destruct (on_MlflowClient rt (trace w)) as [u | e].
  2:{ autorewrite with run. eexists _, _. split; [reflexivity | apply H1]. }
  destruct (verify_run_artifacts_verified rt run_id
              (emits [Called MlflowClient (Ok RNone)] w))
    as (paths & evs & Hv & Hver).
  rewrite (bind_Ok _ _ _ _ _ Hv).
  destruct (py_in model_path paths) eqn:Hin; cbn [negb].
  2:{ unfold raise. autorewrite with run. eexists _, _.
      split; [reflexivity |]. apply (H2 paths evs); auto. }
  fold (model_uri rt run_id model_path).
  unfold mlflow_register_model, client_transition_model_version_stage.
  autorewrite with run.
  destruct (on_register_model rt _ _ _) as [mv | e]; autorewrite with run.
  2:{ eexists _, _. split; [reflexivity |].
      rewrite <- !app_assoc. apply (H3 paths evs); auto. }
  destruct (on_transition rt _ _ _ _ _) as [u' | e]; autorewrite with run.
  2:{ eexists _, _. split; [reflexivity |].
      rewrite <- !app_assoc. apply (H4 paths evs); auto. }
  unfold ret. eexists _, _. split; [reflexivity |].
  rewrite <- !app_assoc. apply (H5 paths evs); auto.
Qed.

Lemma verified_no_registry_write run_id paths evs :
  verified run_id paths evs -> existsb registry_write evs = false.
Proof. intros [(e & _ & ->) | [(e & _ & ->) | (a & _ & ->)]]; reflexivity. Qed.

Lemma verified_listed run_id paths evs x :
  verified run_id paths evs ->
  py_in x paths = true ->
  exists s artifacts,
    x = PStr s
    /\ In s (map fi_path artifacts)
    /\ In (Called (list_artifacts run_id) (Ok (RFileInfos artifacts))) evs.
Proof.
  intros Hv Hin. apply py_in_among in Hin as (s & -> & Hs).
  destruct Hv as [(e & -> & _) | [(e & -> & _) | (a & -> & ->)]];
    [destruct Hs | destruct Hs |].
  exists s, a. simpl. auto.
Qed.

Lemma In_registry_write ev evs :
  In ev evs -> existsb registry_write evs = false -> registry_write ev = false.
Proof.
  intros Hin Hex. destruct (registry_write ev) eqn:E; [| reflexivity].
  assert (existsb registry_write evs = true) by (apply existsb_exists; eauto).
  congruence.
Qed.

(** X7. Whatever [register_model_from_run] registers, it registers under
    the given model name, from the URI [runs:/<run_id>/<model_path>], and
    in that same call the client listed the artifacts of the run with
    [model_path] among their paths. *)
Theorem register_model_from_run_registers_a_listed_artifact
    rt run_id model_path model_name w r w' :
  register_model_from_run rt run_id model_path model_name w = (r, w') ->
  exists evs,
    w' = emits evs w
    /\ forall uri name ans,
         In (Called (register_model uri name) ans) evs ->
         name = model_name
         /\ exists s artifacts,
              model_path = PStr s
              /\ uri = "runs:/" +:+ py_str rt run_id +:+ "/" +:+ s
              /\ In s (map fi_path artifacts)
              /\ In (Called (list_artifacts run_id) (Ok (RFileInfos artifacts))) evs.
Proof.
  intros H.
  destruct (register_model_from_run_cases rt run_id model_path model_name w
    (fun _ evs =>
       forall uri name ans,
         In (Called (register_model uri name) ans) evs ->
         name = model_name
         /\ exists s artifacts,
              model_path = PStr s
              /\ uri = "runs:/" +:+ py_str rt run_id +:+ "/" +:+ s
              /\ In s (map fi_path artifacts)
              /\ In (Called (list_artifacts run_id) (Ok (RFileInfos artifacts))) evs))
    as (r0 & evs & H0 & HP).
  - intros e uri name ans Hin. simpl in Hin. intuition discriminate.
  - intros paths evs e Hv _ _ uri name ans [Hin | Hin]; [discriminate |].
    apply in_app_or in Hin as [Hin | Hin].
    + apply In_registry_write with (evs := evs) in Hin;
        [discriminate | exact (verified_no_registry_write _ _ _ Hv)].
    + simpl in Hin. intuition discriminate.
  - intros paths evs e Hv Hin uri name ans [Hev | Hev]; [discriminate |].
    apply in_app_or in Hev as [Hev | Hev].
    + apply In_registry_write with (evs := evs) in Hev;
        [discriminate | exact (verified_no_registry_write _ _ _ Hv)].
    + destruct (verified_listed _ _ _ _ Hv Hin) as (s & a & -> & Hs & Ha).
      simpl in Hev. destruct Hev as [Hev | [Hev | [Hev | []]]]; try discriminate.
      injection Hev as <- <- _. split; [reflexivity |].
      exists s, a. repeat split; auto. right. apply in_or_app. auto.
  - intros paths evs mv e Hv Hin uri name ans [Hev | Hev]; [discriminate |].
    apply in_app_or in Hev as [Hev | Hev].
    + apply In_registry_write with (evs := evs) in Hev;
        [discriminate | exact (verified_no_registry_write _ _ _ Hv)].
    + destruct (verified_listed _ _ _ _ Hv Hin) as (s & a & -> & Hs & Ha).
      simpl in Hev.
      destruct Hev as [Hev | [Hev | [Hev | [Hev | [Hev | []]]]]]; try discriminate.
      injection Hev as <- <- _. split; [reflexivity |].
      exists s, a. repeat split; auto. right. apply in_or_app. auto.
  - intros paths evs mv Hv Hin uri name ans [Hev | Hev]; [discriminate |].
    apply in_app_or in Hev as [Hev | Hev].
    + apply In_registry_write with (evs := evs) in Hev;
        [discriminate | exact (verified_no_registry_write _ _ _ Hv)].
    + destruct (verified_listed _ _ _ _ Hv Hin) as (s & a & -> & Hs & Ha).
      simpl in Hev.
      destruct Hev as [Hev | [Hev | [Hev | [Hev | [Hev | []]]]]]; try discriminate.
      injection Hev as <- <- _. split; [reflexivity |].
      exists s, a. repeat split; auto. right. apply in_or_app. auto.
  - rewrite H0 in H. injection H as _ <-. exists evs. split; [reflexivity | exact HP].
Qed.

(** ** The runs of [register_model_directly] *)

(** Every run of the [with] suite is one of seven. *)
Lemma register_model_directly_run_cases rt model model_name run w
    (P : Res string -> list event -> Prop) :
  (forall e,
      P (Raise e) [Called (log_model model "model" model_name) (Raise e)]) ->
  (forall e,
      P (Raise e)
        [ Called (log_model model "model" model_name) (Ok RNone);
          Logged INFO "Model logged and registered to MLflow" [];
          Called (sleep 2) (Ok RNone);
          Called MlflowClient (Raise e) ]) ->
  (forall e, P (Raise e) (until_search model model_name (Raise e))) ->
  P (Raise (mk_exn ValueError ("No versions found for model '" +:+ model_name +:+ "'")))
    (until_search model model_name (Ok (RModelVersions []))) ->
  (forall versions e,
      versions <> [] ->
      Exists (fun mv => py_int_val rt (mv_version mv) = Raise e) versions ->
      P (Raise e) (until_search model model_name (Ok (RModelVersions versions)))) ->
  (forall versions numbers latest e,
      versions <> [] ->
      Forall2 (fun mv z => py_int_val rt (mv_version mv) = Ok z) versions numbers ->
      maximum latest numbers ->
      P (Raise e)
        (until_search model model_name (Ok (RModelVersions versions))
         ++ [ Logged INFO "Model registered with name: %s, version: %s"
                [AStr model_name; AInt latest];
              Called (transition_model_version_stage
                        model_name (PStr (str_of_int latest)) "Staging" false) (Raise e) ])) ->
  (forall versions numbers latest,
      versions <> [] ->
      Forall2 (fun mv z => py_int_val rt (mv_version mv) = Ok z) versions numbers ->
      maximum latest numbers ->
      P (Ok (str_of_int latest)) (suite_events model model_name versions latest)) ->
  exists r evs,
    register_model_directly_run rt model model_name run w = (r, emits evs w)
    /\ P r evs.
Proof.
  intros H1 H2 H3 H4 H5 H6 H7.
  unfold register_model_directly_run, mlflow_sklearn_log_model, time_sleep,
    new_MlflowClient, client_search_model_versions,
    client_transition_model_version_stage.
  autorewrite with run.
  destruct (on_log_model rt _ _ _ _) as [u | e]; autorewrite with run;
    [| eexists _, _; split; [reflexivity | apply H1]].
  destruct (on_MlflowClient rt _) as [u' | e]; autorewrite with run;
    [| eexists _, _; split; [reflexivity | apply H2]].
  destruct (on_search_model_versions rt _ _) as [versions | e]; autorewrite with run;
    [| eexists _, _; split; [reflexivity | apply H3]].
  destruct versions as [| mv rest].
  { autorewrite with run. eexists _, _. split; [reflexivity | apply H4]. }
  remember (mv :: rest) as versions eqn:Hversions.
  assert (Hne : versions <> []) by (subst; discriminate).
  clear Hversions mv rest.
  match goal with
  | |- context [bind (comprehension ?f versions) ?k ?w0] =>
      destruct (comprehension_int rt versions w0)
        as [(numbers & Hc & HF) | (e & Hc & HE)];
      [rewrite (bind_Ok _ _ _ _ _ Hc) | rewrite (bind_Raise _ _ _ _ _ Hc)]
  end.
  2:{ eexists _, _. split; [reflexivity | apply H5; assumption]. }
  destruct numbers as [| x numbers'].
  { inversion HF. congruence. }
  match goal with
  | |- context [bind (py_max (x :: numbers')) ?k ?w0] =>
      destruct (py_max_maximum x numbers' w0) as [Hm Hmax];
      rewrite (bind_Ok _ _ _ _ _ Hm)
  end.
  autorewrite with run.
  destruct (on_transition rt _ _ _ _ _) as [u'' | e]; autorewrite with run.
  2:{ eexists _, _. split; [reflexivity |]. apply (H6 versions (x :: numbers')); assumption. }
  unfold ret. eexists _, _. split; [reflexivity |].
  apply (H7 versions (x :: numbers')); assumption.
Qed.

(** Every run of [register_model_directly] is one of five: the file is
    absent, [open] refuses it, it cannot be unpickled, no run can be
    started, or the [with] suite runs and the run is ended. *)
Lemma register_model_directly_cases rt model_file_path model_name w
    (Q : sk_model -> Res string -> list event -> Prop)
    (P : Res string -> list event -> Prop) :
  (forall model run w0,
      exists rs evs,
        register_model_directly_run rt model model_name run w0 = (rs, emits evs w0)
        /\ Q model rs evs) ->
  (forall e,
      files w !! model_file_path = None ->
      exn_type e = FileNotFoundError ->
      P (Raise e) (direct_error_log (@Raise string e))) ->
  (forall e,
      files w !! model_file_path = Some (Refused e) ->
      P (Raise e) (direct_error_log (@Raise string e))) ->
  (forall data e,
      files w !! model_file_path = Some (Regular data) ->
      P (Raise e)
        (Called (pickle_load data) (Raise e) :: direct_error_log (@Raise string e))) ->
  (forall data model e,
      files w !! model_file_path = Some (Regular data) ->
      P (Raise e)
        ([ Called (pickle_load data) (Ok (RModel model));
           Logged INFO "Model loaded from %s" [AStr model_file_path];
           Called start_run (Raise e) ] ++ direct_error_log (@Raise string e))) ->
  (forall data model run rs evs ended,
      files w !! model_file_path = Some (Regular data) ->
      Q model rs evs ->
      P (after_run rs ended)
        ([ Called (pickle_load data) (Ok (RModel model));
           Logged INFO "Model loaded from %s" [AStr model_file_path];
           Called start_run (Ok (RRun run)) ]
         ++ evs
         ++ Called (end_run (run_status rs)) (Res_map (fun _ => RNone) ended)
            :: direct_error_log (after_run rs ended))) ->
  exists r evs,
    register_model_directly rt model_file_path model_name w = (r, emits evs w)
    /\ P r evs.
Proof.
  intros HQ H1 H2 H3 H4 H5.
  unfold register_model_directly. rewrite try_log_raise.
  unfold register_model_directly_try, pickle_load_, with_start_run.
  unfold bind at 1, open_read.
  destruct (files w !! model_file_path) as [[data | e] |] eqn:Hf.
  3:{ eexists _, _. autorewrite with run. split; [reflexivity |]. apply H1; reflexivity. }
  2:{ eexists _, _. autorewrite with run. split; [reflexivity |]. apply H2; reflexivity. }
  autorewrite with run.
  destruct (on_pickle_load rt data) as [model | e]; autorewrite with run;
    [| eexists _, _; split; [reflexivity | apply (H3 data); reflexivity]].
  destruct (on_start_run rt _) as [run | e]; autorewrite with run;
    [| eexists _, _; split; [reflexivity | apply (H4 data model); reflexivity]].
  match goal with
  | |- context [register_model_directly_run rt model model_name run ?w0] =>
      destruct (HQ model run w0) as (rs & evs & Hr & Hq)
  end.
  autorewrite with run in Hr. rewrite Hr.
  unfold mlflow_end_run, extcall. cbn [trace emits].
  specialize (H5 data model run rs evs).
  destruct rs as [version | e];
    match goal with
    | |- context [on_end_run rt ?h ?s] =>
        specialize (H5 (on_end_run rt h s) eq_refl Hq);
        destruct (on_end_run rt h s) as [u | e']
    end;
    cbn [after_run run_status direct_error_log Res_map] in H5;
    autorewrite with run; eexists _, _; (split; [reflexivity |]);
    cbn [app] in H5 |- *; rewrite <- ?app_assoc in *; exact H5.
Qed.

Ltac in_list H :=
  simpl in H;
  repeat match type of H with
         | _ \/ _ => destruct H as [H | H]; [try discriminate H |]
         | False => destruct H
         end.

(** The [with] suite neither starts nor ends a run. *)
Lemma register_model_directly_run_no_run rt model model_name run w :
  exists rs evs,
    register_model_directly_run rt model model_name run w = (rs, emits evs w)
    /\ forall c ans,
         In (Called c ans) evs -> c <> start_run /\ forall status, c <> end_run status.
Proof.
  apply register_model_directly_run_cases; unfold until_search, suite_events;
    intros; match goal with H : In _ _ |- _ => in_list H; injection H as <- _ end;
    split; discriminate.
Qed.

(** X8. [register_model_directly] ends every run it starts, and ends no
    other: the run is ended as FINISHED when the function returns a
    version, and a run that is ended as FAILED means that the function
    raises. *)
Theorem register_model_directly_ends_its_run rt model_file_path model_name w r w' :
  register_model_directly rt model_file_path model_name w = (r, w') ->
  exists evs,
    w' = emits evs w
    /\ ((exists run, In (Called start_run (Ok (RRun run))) evs)
        <-> (exists status ans, In (Called (end_run status) ans) evs))
    /\ (forall version, r = Ok version ->
        In (Called (end_run "FINISHED") (Ok RNone)) evs)
    /\ (forall ans, In (Called (end_run "FAILED") ans) evs -> exists e, r = Raise e).
Proof.
  intros H.
  destruct (register_model_directly_cases rt model_file_path model_name w
    (fun _ _ evs =>
       forall c ans,
         In (Called c ans) evs -> c <> start_run /\ forall status, c <> end_run status)
    (fun r evs =>
       ((exists run, In (Called start_run (Ok (RRun run))) evs)
        <-> (exists status ans, In (Called (end_run status) ans) evs))
       /\ (forall version, r = Ok version ->
           In (Called (end_run "FINISHED") (Ok RNone)) evs)
       /\ (forall ans, In (Called (end_run "FAILED") ans) evs -> exists e, r = Raise e)))
    as (r0 & evs & H0 & HP).
  - intros model run w0. apply register_model_directly_run_no_run.
  - intros e _ _. simpl. repeat split; try discriminate; eauto;
      intros; repeat match goal with H : exists _, _ |- _ => destruct H end;
      intuition discriminate.
  - intros e _. simpl. repeat split; try discriminate; eauto;
      intros; repeat match goal with H : exists _, _ |- _ => destruct H end;
      intuition discriminate.
  - intros data e _. simpl. repeat split; try discriminate; eauto;
      intros; repeat match goal with H : exists _, _ |- _ => destruct H end;
      intuition discriminate.
  - intros data model e _. simpl. repeat split; try discriminate; eauto;
      intros; repeat match goal with H : exists _, _ |- _ => destruct H end;
      intuition discriminate.
  - intros data model run rs evs ended _ Hq.
    assert (Hend : forall status ans,
               In (Called (end_run status) ans)
                  ([ Called (pickle_load data) (Ok (RModel model));
                     Logged INFO "Model loaded from %s" [AStr model_file_path];
                     Called start_run (Ok (RRun run)) ]
                   ++ evs
                   ++ Called (end_run (run_status rs)) (Res_map (fun _ => RNone) ended)
                      :: direct_error_log (after_run rs ended)) ->
               status = run_status rs).
    { intros status ans Hin. apply in_app_or in Hin as [Hin | Hin]; [in_list Hin |].
      apply in_app_or in Hin as [Hin | Hin].
      - destruct (Hq _ _ Hin) as [_ Hne]. exfalso. exact (Hne status eq_refl).
      - destruct Hin as [Hin | Hin]; [congruence |].
        destruct (after_run rs ended); in_list Hin. }
    repeat split.
    + intros _. exists (run_status rs), (Res_map (fun _ => RNone) ended).
      apply in_or_app. right. apply in_or_app. right. left. reflexivity.
    + intros _. exists run. simpl. auto.
    + intros version Hv. destruct ended as [[] | e]; [| discriminate Hv].
      simpl in Hv. subst rs. apply in_or_app. right. apply in_or_app. right.
      left. reflexivity.
    + intros ans Hin. apply Hend in Hin. destruct rs as [v | e]; [discriminate Hin |].
      destruct ended; simpl; eauto.
  - rewrite H0 in H. injection H as <- <-. exists evs. split; [reflexivity | exact HP].
Qed.

Lemma Forall2_py_int_Exists rt versions numbers :
  Forall2 (fun mv z => py_int_val rt (mv_version mv) = Ok z) versions numbers ->
  Exists (fun mv => exists e, py_int_val rt (mv_version mv) = Raise e) versions ->
  False.
Proof.
  induction 1 as [| mv z versions numbers Hz _ IH]; intros HE; inversion HE; subst.
  - destruct H0 as [e He]. congruence.
  - auto.
Qed.

(** X9. When [int] raises on one of the versions that the client reports
    (a [str] that is no decimal literal, for instance),
    [register_model_directly] raises, and it does not ask for any stage
    transition. *)
Theorem register_model_directly_rejects_a_version_that_is_no_number
    rt model_file_path model_name w r w' :
  register_model_directly rt model_file_path model_name w = (r, w') ->
  exists evs,
    w' = emits evs w
    /\ forall versions,
         In (Called (search_model_versions ("name='" +:+ model_name +:+ "'"))
               (Ok (RModelVersions versions))) evs ->
         Exists (fun mv => exists e, py_int_val rt (mv_version mv) = Raise e) versions ->
         (exists e, r = Raise e)
         /\ forall name version stage archive ans,
              ~ In (Called (transition_model_version_stage name version stage archive)
                      ans) evs.
Proof.
  intros H.
  pose (Q := fun (rs : Res string) (evs : list event) =>
       forall versions,
         In (Called (search_model_versions ("name='" +:+ model_name +:+ "'"))
               (Ok (RModelVersions versions))) evs ->
         Exists (fun mv => exists e, py_int_val rt (mv_version mv) = Raise e) versions ->
         (exists e, rs = Raise e)
         /\ forall name version stage archive ans,
              ~ In (Called (transition_model_version_stage name version stage archive)
                      ans) evs).
  destruct (register_model_directly_cases rt model_file_path model_name w
              (fun _ => Q) Q) as (r0 & evs & H0 & HP).
  - intros model run w0. apply register_model_directly_run_cases; unfold Q;
      unfold until_search, suite_events.
    + intros e versions Hin. in_list Hin.
    + intros e versions Hin. in_list Hin.
    + intros e versions Hin. in_list Hin.
    + intros versions Hin HE. in_list Hin. injection Hin as <-. inversion HE.
    + intros versions e _ _ versions' Hin _. split; [eauto |].
      intros name version stage archive ans Hin'. in_list Hin'.
    + intros versions numbers latest e _ HF _ versions' Hin HE. exfalso.
      in_list Hin. injection Hin as <-.
      exact (Forall2_py_int_Exists _ _ _ HF HE).
    + intros versions numbers latest _ HF _ versions' Hin HE. exfalso.
      in_list Hin. injection Hin as <-.
      exact (Forall2_py_int_Exists _ _ _ HF HE).
  - intros e _ _ versions Hin. in_list Hin.
  - intros e _ versions Hin. in_list Hin.
  - intros data e _ versions Hin. in_list Hin.
  - intros data model e _ versions Hin. in_list Hin.
  - intros data model run rs evs ended _ Hq versions Hin HE.
    assert (Hevs : In (Called (search_model_versions ("name='" +:+ model_name +:+ "'"))
                         (Ok (RModelVersions versions))) evs).
    { apply in_app_or in Hin as [Hin | Hin]; [in_list Hin |].
      apply in_app_or in Hin as [Hin | Hin]; [exact Hin |].
      destruct Hin as [Hin | Hin]; [discriminate |].
      destruct (after_run rs ended); in_list Hin. }
    destruct (Hq versions Hevs HE) as [(e & ->) Hno]. split.
    + destruct ended; simpl; eauto.
    + intros name version stage archive ans Hin'.
      apply in_app_or in Hin' as [Hin' | Hin']; [in_list Hin' |].
      apply in_app_or in Hin' as [Hin' | Hin']; [exact (Hno _ _ _ _ _ Hin') |].
      destruct Hin' as [Hin' | Hin']; [discriminate |].
      destruct (after_run _ ended); in_list Hin'.
  - rewrite H0 in H. injection H as <- <-. exists evs. split; [reflexivity | exact HP].
Qed.

(** X10. [register_model_directly] changes the registry only inside the
    run: whenever it logs a model or asks for a stage transition, it has
    started a run before and it ends a run after. *)
Theorem register_model_directly_writes_inside_the_run
    rt model_file_path model_name w r w' :
  register_model_directly rt model_file_path model_name w = (r, w') ->
  exists evs,
    w' = emits evs w
    /\ forall ev,
         In ev evs -> registry_write ev = true ->
         exists before after run status ans,
           evs = before ++ ev :: after
           /\ In (Called start_run (Ok (RRun run))) before
           /\ In (Called (end_run status) ans) after.
Proof.
  intros H.
  destruct (register_model_directly_cases rt model_file_path model_name w
    (fun _ _ _ => True)
    (fun _ evs =>
       forall ev,
         In ev evs -> registry_write ev = true ->
         exists before after run status ans,
           evs = before ++ ev :: after
           /\ In (Called start_run (Ok (RRun run))) before
           /\ In (Called (end_run status) ans) after))
    as (r0 & evs & H0 & HP).
  - intros model run w0.
    destruct (register_model_directly_run_no_run rt model model_name run w0)
      as (rs & evs & Hr & _). eauto.
  - intros e _ _ ev Hin Hw. simpl in Hin. destruct Hin as [<- | []]. discriminate Hw.
  - intros e _ ev Hin Hw. simpl in Hin. destruct Hin as [<- | []]. discriminate Hw.
  - intros data e _ ev Hin Hw. simpl in Hin.
    destruct Hin as [<- | [<- | []]]; discriminate Hw.
  - intros data model e _ ev Hin Hw. simpl in Hin.
    destruct Hin as [<- | [<- | [<- | [<- | []]]]]; discriminate Hw.
  - intros data model run rs evs ended _ _ ev Hin Hw.
    apply in_app_or in Hin as [Hin | Hin].
    { simpl in Hin. destruct Hin as [<- | [<- | [<- | []]]]; discriminate Hw. }
    apply in_app_or in Hin as [Hin | Hin].
    + apply in_split in Hin as (b & a & ->).
      eexists (_ :: _ :: _ :: b), _, run, _, _. split; [| split].
      * simpl. rewrite <- app_assoc. reflexivity.
      * simpl. auto.
      * apply in_or_app. right. left. reflexivity.
    + destruct Hin as [<- | Hin]; [discriminate Hw |].
      destruct (after_run rs ended); simpl in Hin; [destruct Hin |].
      destruct Hin as [<- | []]. discriminate Hw.
  - rewrite H0 in H. injection H as <- <-. exists evs. split; [reflexivity | exact HP].
Qed.

(** ** [int] reads back what [str] writes *)

Lemma int_digits_digit c rest acc prev :
  is_digit c = true ->
  int_digits (String c rest) acc prev = int_digits rest (10 * acc + digit_val c) true.
Proof. intros H. cbn [int_digits]. rewrite H. reflexivity. Qed.

Lemma py_int_digit c rest :
  is_digit c = true ->
  py_int (String c rest) = int_digits rest (digit_val c) true
  /\ py_int (String "-" (String c rest)) = Z.opp <$> int_digits rest (digit_val c) true.
Proof.
  destruct c as [[] [] [] [] [] [] [] []]; intros H; try discriminate H;
    split; reflexivity.
Qed.

Lemma string_of_uint_digit d :
  d <> Decimal.Nil ->
  exists c rest, NilEmpty.string_of_uint d = String c rest /\ is_digit c = true.
Proof.
  destruct d; [congruence | ..]; intros _; eexists _, _; split; reflexivity.
Qed.

Lemma int_digits_of_uint_acc d : forall acc : positive,
  int_digits (NilEmpty.string_of_uint d) (Z.pos acc) true
  = Some (Z.pos (Pos.of_uint_acc d acc)).
Proof.
  induction d; intros acc; cbn [NilEmpty.string_of_uint Pos.of_uint_acc];
    [reflexivity | ..];
    rewrite int_digits_digit by reflexivity;
    match goal with
    | |- int_digits _ ?z true = Some (Z.pos (Pos.of_uint_acc _ ?q)) =>
        replace z with (Z.pos q) by (unfold digit_val; simpl; lia)
    end; apply IHd.
Qed.

Lemma int_digits_of_uint d :
  int_digits (NilEmpty.string_of_uint d) 0 true = Some (Z.of_N (Pos.of_uint d)).
Proof.
  induction d; cbn [NilEmpty.string_of_uint Pos.of_uint];
    [reflexivity | ..];
    rewrite int_digits_digit by reflexivity;
    first [ exact IHd | apply int_digits_of_uint_acc ].
Qed.

Lemma py_int_of_uint d :
  d <> Decimal.Nil ->
  py_int (NilEmpty.string_of_uint d) = Some (Z.of_N (Pos.of_uint d))
  /\ py_int (String "-" (NilEmpty.string_of_uint d)) = Some (- Z.of_N (Pos.of_uint d))%Z.
Proof.
  intros Hd. pose proof (int_digits_of_uint d) as H.
  destruct (string_of_uint_digit d Hd) as (c & rest & E & Hc).
  rewrite E in H |- *. rewrite (int_digits_digit _ _ _ _ Hc) in H.
  change (10 * 0 + digit_val c)%Z with (digit_val c) in H.
  destruct (py_int_digit c rest Hc) as [-> ->]. rewrite H. split; reflexivity.
Qed.

(** [int(str(z)) == z]. *)
Lemma py_int_str_of_int z : py_int (str_of_int z) = Some z.
Proof.
  unfold str_of_int. destruct z as [| p | p]; [reflexivity | |];
    cbn [Z.to_int NilZero.string_of_int NilZero.string_of_uint];
    pose proof (DecimalPos.Unsigned.to_uint_nonnil p) as Hn;
    destruct (py_int_of_uint _ Hn) as [Hpos Hneg];
    rewrite DecimalPos.Unsigned.of_to in Hpos, Hneg;
    destruct (Pos.to_uint p); try congruence; assumption.
Qed.

(** X11. The version that [register_model_directly] returns is the decimal
    numeral of a number, and [int] reads that number back from it: a later
    [int(mv.version)] on the returned string cannot fail. *)
Theorem returned_version_reads_back rt model_file_path model_name w version w' :
  register_model_directly rt model_file_path model_name w = (Ok version, w') ->
  exists latest, version = str_of_int latest /\ py_int version = Some latest.
Proof.
  intros H.
  destruct (register_model_directly_outcome rt model_file_path model_name w)
    as (r0 & evs & H0 & Hok & _).
  rewrite H0 in H. injection H as -> _.
  destruct (Hok version eq_refl)
    as (data & model & run & versions & numbers & latest & _ & _ & -> & _).
  exists latest. split; [reflexivity | apply py_int_str_of_int].
Qed.

(** ** The text of registered_model_info.json *)

Lemma ascii_text_app a b : ascii_text (a +:+ b) = ascii_text a && ascii_text b.
Proof.
  induction a as [| c a IH]; [reflexivity |].
  rewrite append_cons. cbn [ascii_text]. rewrite IH, andb_assoc. reflexivity.
Qed.

Lemma ascii_text_escape_char c : ascii_text (escape_char c) = true.
Proof. destruct c as [[] [] [] [] [] [] [] []]; reflexivity. Qed.

Lemma ascii_text_escape s : ascii_text (escape s) = true.
Proof.
  induction s as [| c s IH]; [reflexivity |].
  cbn [escape]. rewrite ascii_text_app, ascii_text_escape_char, IH. reflexivity.
Qed.

Lemma ascii_text_member key value rest :
  ascii_text (member key value rest) = ascii_text rest.
Proof.
  unfold member.
  rewrite ascii_text_app, ascii_text_escape. cbn [ascii_text andb].
  change (printable_or_newline dquote) with true.
  change (printable_or_newline ":") with true.
  change (printable_or_newline " ") with true. cbn [andb].
  rewrite ascii_text_app, ascii_text_escape. cbn [ascii_text andb].
  change (printable_or_newline dquote) with true. reflexivity.
Qed.

(** X12. Whatever the model name and the version are, the text that
    [save_registered_model_info] leaves in the file is plain ASCII:
    printable characters and new lines. *)
Theorem save_registered_model_info_writes_ascii model_name version file_path w :
  writable w file_path ->
  exists text,
    files (snd (save_registered_model_info model_name (PStr version) file_path w))
      !! file_path
    = Some (Regular text)
    /\ ascii_text text = true.
Proof.
  intros Hw. rewrite save_registered_model_info_run.
  exists (json_dumps_indent4 (registered_info model_name (PStr version))). split.
  - destruct (files w !! file_path) as [[data | e] |] eqn:Hf;
      [| exfalso; exact (Hw e Hf) |]; simpl; apply lookup_insert_eq.
  - rewrite json_dumps_registered_info. unfold next_member.
    cbn [ascii_text].
    rewrite !ascii_text_member. cbn [ascii_text].
    rewrite !ascii_text_member. cbn [ascii_text].
    rewrite !ascii_text_member. reflexivity.
Qed.

(** ** What [main] has done when it returns *)

Lemma verified_not_staged run_id paths evs :
  verified run_id paths evs -> List.filter staged evs = [].
Proof.
  intros [(e & _ & ->) | [(e & _ & ->) | (artifacts & _ & ->)]]; reflexivity.
Qed.

Lemma register_model_from_run_staged rt run_id model_path model_name w :
  exists r evs,
    register_model_from_run rt run_id model_path model_name w = (r, emits evs w)
    /\ List.filter staged evs = staged_by model_name r.
Proof.
  apply register_model_from_run_cases; intros; cbn [List.filter staged staged_by];
    rewrite ?List.filter_app, ?(verified_not_staged _ _ _ H); reflexivity.
Qed.

Lemma register_model_directly_run_staged rt model model_name run w :
  exists rs evs,
    register_model_directly_run rt model model_name run w = (rs, emits evs w)
    /\ List.filter staged evs = staged_by model_name (Res_map PStr rs).
Proof.
  apply register_model_directly_run_cases; intros;
    unfold until_search, suite_events; rewrite ?List.filter_app; reflexivity.
Qed.

Lemma register_model_directly_staged rt model_file_path model_name w :
  exists r evs,
    register_model_directly rt model_file_path model_name w = (r, emits evs w)
    /\ forall version,
         r = Ok version -> List.filter staged evs = [staging model_name (PStr version)].
Proof.
  apply (register_model_directly_cases rt model_file_path model_name w
           (fun _ rs evs =>
              List.filter staged evs = staged_by model_name (Res_map PStr rs))).
  - intros model run w0. apply register_model_directly_run_staged.
  - discriminate.
  - discriminate.
  - discriminate.
  - discriminate.
  - intros data model run rs evs ended _ Hq version Hv.
    destruct ended as [u | e]; [| discriminate Hv]. simpl in Hv. subst rs.
    rewrite !List.filter_app, Hq. reflexivity.
Qed.

Lemma load_model_info_not_staged file_path w :
  exists r evs,
    load_model_info file_path w = (r, emits evs w) /\ List.filter staged evs = [].
Proof.
  destruct (load_model_info_try file_path w) as [[model_info | e] w1] eqn:Htry.
  - unfold load_model_info. rewrite (try_except_Ok _ _ _ _ _ Htry).
    unfold load_model_info_try, bind at 1, open_read in Htry.
    destruct (files w !! file_path) as [[text | e] |]; try discriminate Htry.
    unfold lift, bind at 1 in Htry. destruct (json_loads text); [| discriminate Htry].
    autorewrite with run in Htry. injection Htry as _ <-.
    eexists _, _. split; reflexivity.
  - rewrite (load_model_info_Raise _ _ _ _ Htry).
    assert (w1 = w) as ->.
    { unfold load_model_info_try, bind at 1, open_read in Htry.
      destruct (files w !! file_path) as [[text | e'] |];
        try (injection Htry as _ <-; reflexivity).
      unfold lift, bind at 1 in Htry. destruct (json_loads text).
      - autorewrite with run in Htry. discriminate Htry.
      - injection Htry as _ <-. reflexivity. }
    rewrite emit_emits. eexists _, _. split; [reflexivity |].
    destruct (isinstance e FileNotFoundError); [reflexivity |].
    destruct (isinstance e JSONDecodeError); reflexivity.
Qed.

Lemma getitem_run obj key w : exists r, getitem obj key w = (r, w).
Proof.
  unfold getitem. destruct obj; try destruct (dict_get _ _); eexists; reflexivity.
Qed.

Lemma main_from_run_staged rt model_name w :
  exists r evs,
    main_from_run rt model_name w = (r, emits evs w)
    /\ List.filter staged evs = staged_by model_name r.
Proof.
  unfold main_from_run.
  destruct (load_model_info_not_staged "reports/experiment_info.json" w)
    as ([model_info | e] & evs & Hl & Hevs);
    [rewrite (bind_Ok _ _ _ _ _ Hl) | rewrite (bind_Raise _ _ _ _ _ Hl); eauto].
  destruct (getitem_run model_info "run_id" (emits evs w)) as ([run_id | e] & Hr);
    [rewrite (bind_Ok _ _ _ _ _ Hr) | rewrite (bind_Raise _ _ _ _ _ Hr); eauto].
  destruct (getitem_run model_info "model_path" (emits evs w)) as ([model_path | e] & Hp);
    [rewrite (bind_Ok _ _ _ _ _ Hp) | rewrite (bind_Raise _ _ _ _ _ Hp); eauto].
  autorewrite with run.
  match goal with
  | |- context [bind (register_model_from_run rt run_id model_path model_name) _ ?w0] =>
      destruct (register_model_from_run_staged rt run_id model_path model_name w0)
        as ([version | e] & evs' & Hreg & Hevs')
  end;
    [rewrite (bind_Ok _ _ _ _ _ Hreg) | rewrite (bind_Raise _ _ _ _ _ Hreg)];
    autorewrite with run; unfold ret; eexists _, _; (split; [reflexivity |]);
    rewrite !List.filter_app, Hevs, Hevs'; reflexivity.
Qed.

Lemma main_fallback_staged rt model_name e w :
  exists r evs,
    main_fallback rt model_name e w = (r, emits evs w)
    /\ forall version, r = Ok version -> List.filter staged evs = [staging model_name version].
Proof.
  unfold main_fallback. autorewrite with run.
  match goal with
  | |- context [bind (register_model_directly rt ?p model_name) _ ?w0] =>
      destruct (register_model_directly_staged rt p model_name w0)
        as ([version | e'] & evs & Hreg & Hevs)
  end;
    [rewrite (bind_Ok _ _ _ _ _ Hreg) | rewrite (bind_Raise _ _ _ _ _ Hreg)];
    autorewrite with run; unfold ret; eexists _, _; (split; [reflexivity |]).
  - intros v [= <-]. rewrite !List.filter_app, (Hevs version eq_refl). reflexivity.
  - discriminate.
Qed.

(** The outer handler of [main] lets no error pass for a return. *)
Lemma main_handler_Ok {A} (body : M A) (failed : exn -> M A) w a w' :
  (forall e w0, exists w1, failed e w0 = (Raise e, w1)) ->
  try_except body [ ([Exception], failed) ] w = (Ok a, w') ->
  body w = (Ok a, w').
Proof.
  intros Hf. unfold try_except. destruct (body w) as [[a' | e] w1]; [auto |].
  simpl. unfold handles. simpl. rewrite isinstance_Exception. simpl.
  destruct (Hf e w1) as [w2 ->]. discriminate.
Qed.

Lemma main_finish_Ok model_name version w w' :
  main_finish model_name version w = (Ok tt, w') ->
  files w'
  = <["reports/registered_model_info.json" :=
        Regular (json_dumps_indent4 (registered_info model_name version))]> (files w)
  /\ trace w'
     = trace w
       ++ [ Logged INFO "Registered model info saved to %s"
              [AStr "reports/registered_model_info.json"];
            Printed "Model transitioned to Staging stage." ].
Proof.
  unfold main_finish, bind at 1. rewrite save_registered_model_info_run.
  destruct (files w !! "reports/registered_model_info.json") as [[data | e] |];
    try discriminate; autorewrite with run; intros [= <-];
    rewrite ?emit_emits, ?emits_emits, ?trace_emits, ?files_emits; split; reflexivity.
Qed.

(** X13. When [main] returns, exactly one stage transition has succeeded
    during the run: the move to Staging of one version of
    'sentiment_model'; reports/registered_model_info.json holds the record
    of that same version, and the run ended by telling so on the standard
    output. *)
Theorem main_returns_after_one_staging rt w w' :
  main rt w = (Ok tt, w') ->
  exists version evs,
    files w'
    = <["reports/registered_model_info.json" :=
          Regular (json_dumps_indent4 (registered_info "sentiment_model" version))]>
        (files w)
    /\ trace w' = trace w ++ evs ++ [Printed "Model transitioned to Staging stage."]
    /\ List.filter staged evs = [staging "sentiment_model" version].
Proof.
  intros H.
  assert (Hfailed : forall e w0, exists w1, main_failed e w0 = (Raise e, w1)).
  { intros e w0. unfold main_failed. autorewrite with run. unfold raise. eauto. }
  destruct (main_from_run_staged rt "sentiment_model" w) as (r & evs & Hrun & Hevs).
  rewrite (main_after_from_run _ _ _ _ Hrun) in H.
  destruct r as [version | e].
  - apply (main_handler_Ok _ _ _ _ _ Hfailed) in H.
    apply main_finish_Ok in H as [Hfiles Htrace].
    exists version, (evs ++ [Logged INFO "Registered model info saved to %s"
                               [AStr "reports/registered_model_info.json"]]).
    rewrite Hfiles, Htrace, files_emits, trace_emits, List.filter_app, Hevs, <- !app_assoc.
    repeat split; reflexivity.
  - destruct (isinstance e FileNotFoundError || isinstance e ValueError).
    2:{ destruct (Hfailed e (emits evs w)) as [w1 Hw1]. rewrite Hw1 in H. discriminate H. }
    unfold main_after_fallback in H.
    apply (main_handler_Ok _ _ _ _ _ Hfailed) in H.
    destruct (main_fallback_staged rt "sentiment_model" e (emits evs w))
      as ([version | e'] & evs' & Hfb & Hevs').
    2:{ rewrite (bind_Raise _ _ _ _ _ Hfb) in H. discriminate H. }
    rewrite (bind_Ok _ _ _ _ _ Hfb) in H.
    apply main_finish_Ok in H as [Hfiles Htrace].
    exists version, (evs ++ evs' ++ [Logged INFO "Registered model info saved to %s"
                                       [AStr "reports/registered_model_info.json"]]).
    rewrite Hfiles, Htrace, !files_emits, !trace_emits, !List.filter_app, Hevs,
      (Hevs' version eq_refl), <- !app_assoc.
    repeat split; reflexivity.
Qed.

(** * The claims on the fallback, on errors and on versions *)

(** ** C1: the fallback of [main] *)

Lemma main_failed_run e w :
  main_failed e w =
    (Raise e,
     emits [ Logged ERROR "Failed to complete the model registration process: %s"
               [AExn e];
             Printed ("Error: " +:+ exn_str e) ] w).
Proof. unfold main_failed. autorewrite with run. reflexivity. Qed.

Lemma try_main_failed (body : M unit) w :
  try_except body [ ([Exception], main_failed) ] w =
    match body w with
    | (Ok a, w1) => (Ok a, w1)
    | (Raise e, w1) => main_failed e w1
    end.
Proof.
  unfold try_except. destruct (body w) as [[a | e] w1]; [reflexivity |].
  simpl. unfold handles. simpl. rewrite isinstance_Exception. reflexivity.
Qed.

(** The handler of the inner [try] and what follows it do what the
    specification says of the fallback. *)
Lemma main_after_fallback_run rt e w :
  main_after_fallback rt e w = fallback_to_saved_model rt e w.
Proof.
  unfold main_after_fallback, fallback_to_saved_model.
  rewrite try_main_failed. unfold main_fallback.
  rewrite bind_bind, bind_logging. cbv beta.
  rewrite bind_bind, bind_logging. cbv beta.
  rewrite emits_emits. cbn [app]. rewrite bind_bind. unfold bind at 1.
  destruct (register_model_directly rt "./models/model.pkl" "sentiment_model" _)
    as [[version | e'] w1]; [| apply main_failed_run].
  rewrite bind_bind, bind_print. cbv beta. rewrite bind_ret.
  unfold main_finish, bind at 1.
  destruct (save_registered_model_info "sentiment_model" (PStr version) _ _)
    as [[[] | e'] w2]; [| apply main_failed_run].
  unfold print. rewrite emit_emits. reflexivity.
Qed.

(** C1, amended. When registering from the known run raises a
    [FileNotFoundError] or a [ValueError] (so also a [JSONDecodeError]),
    [main] falls back: it goes on with [register_model_directly] on
    './models/model.pkl', saves the information of the version that this
    returns, and ends; an error on that way is logged, printed and
    raised.  On any other error of the registration from the run, [main]
    does not fall back: it logs the error, prints it and raises it. *)
Theorem main_falls_back_on_FileNotFoundError_or_ValueError rt w e w1 :
  main_from_run rt "sentiment_model" w = (Raise e, w1) ->
  main rt w =
    if isinstance e FileNotFoundError || isinstance e ValueError
    then fallback_to_saved_model rt e w1
    else (Raise e,
          emits [ Logged ERROR "Failed to complete the model registration process: %s"
                    [AExn e];
                  Printed ("Error: " +:+ exn_str e) ] w1).
Proof.
  intros H. rewrite (main_after_from_run _ _ _ _ H).
  destruct (isinstance e FileNotFoundError || isinstance e ValueError).
  - apply main_after_fallback_run.
  - apply main_failed_run.
Qed.

(** C1 as stated fails: with both files there and a registry that refuses
    the registration from the run, [register_model_from_run] raises an
    [MlflowException]; [main] raises it too, and it has neither opened
    the saved model nor logged a model, although registering the saved
    model directly would have succeeded. *)
Lemma main_does_not_fall_back_on_MlflowException :
  let e := mk_exn MlflowException "RESOURCE_DOES_NOT_EXIST" in
  let from_run := main_from_run registry_refuses "sentiment_model" world_known_run in
  let out := main registry_refuses world_known_run in
  fst from_run = Raise e
  /\ fst out = Raise e
  /\ (forall data r, ~ In (Called (pickle_load data) r) (trace (snd out)))
  /\ (forall model path name r,
         ~ In (Called (log_model model path name) r) (trace (snd out)))
  /\ fst (register_model_directly registry_refuses "./models/model.pkl"
            "sentiment_model" (snd from_run)) = Ok "10".
Proof.
  repeat split; try (vm_compute; reflexivity).
  - intros data r. vm_compute. intuition discriminate.
  - intros model path name r. vm_compute. intuition discriminate.
Qed.

(** With no experiment_info.json, [main] falls back and registers the
    saved model. *)
Lemma main_falls_back_witness :
  main quiet_runtime world_saved_model =
    fallback_to_saved_model quiet_runtime
      (mk_exn FileNotFoundError
         "[Errno 2] No such file or directory: 'reports/experiment_info.json'")
      (emit (Logged ERROR "File not found: %s" [AStr "reports/experiment_info.json"])
         world_saved_model).
Proof.
  refine (main_falls_back_on_FileNotFoundError_or_ValueError
            quiet_runtime world_saved_model
            (mk_exn FileNotFoundError
               "[Errno 2] No such file or directory: 'reports/experiment_info.json'")
            (emit (Logged ERROR "File not found: %s"
                     [AStr "reports/experiment_info.json"]) world_saved_model) _).
  vm_compute. reflexivity.
Defined.

(** ** C2: which errors are logged and raised again *)


(** [load_model_info], run by hand. *)
Lemma load_model_info_run file_path w :
  load_model_info file_path w =
    match files w !! file_path with
    | None =>
        let e := mk_exn FileNotFoundError
                   ("[Errno 2] No such file or directory: '" +:+ file_path +:+ "'") in
        (Raise e, emits [load_error_record file_path e] w)
    | Some (Refused e) => (Raise e, emits [load_error_record file_path e] w)
    | Some (Regular text) =>
        match json_loads text with
        | Ok model_info =>
            (Ok model_info,
             emits [Logged INFO "Model info loaded from %s" [AStr file_path]] w)
        | Raise e => (Raise e, emits [load_error_record file_path e] w)
        end
    end.
Proof.
  destruct (files w !! file_path) as [[text | e] |] eqn:Hf.
  - destruct (json_loads text) as [model_info | e] eqn:Hj.
    + rewrite (load_model_info_Ok _ _ _ _ Hf Hj). apply f_equal, emit_emits.
    + rewrite (load_model_info_Raise file_path w e w).
      * rewrite emit_emits. reflexivity.
      * unfold load_model_info_try, bind at 1, open_read. rewrite Hf.
        unfold lift, bind at 1. rewrite Hj. reflexivity.
  - rewrite (load_model_info_Raise file_path w e w).
    + rewrite emit_emits. reflexivity.
    + unfold load_model_info_try, bind at 1, open_read. rewrite Hf. reflexivity.
  - cbv zeta. erewrite (load_model_info_Raise file_path w _ w).
    + rewrite emit_emits. reflexivity.
    + unfold load_model_info_try, bind at 1, open_read. rewrite Hf. reflexivity.
Qed.








(** ** The errors of [load_model_info], and invalid JSON in [main] *)

(** Decoding a text that no JSON value begins raises a [JSONDecodeError]
    at once. *)
Lemma json_loads_begins_no_value s :
  begins_no_value s = true ->
  json_loads s = Raise (mk_exn JSONDecodeError "Expecting value").
Proof.
  unfold begins_no_value, json_loads.
  destruct (skip_ws s) as [| c rest]; [reflexivity |].
  destruct c as [[] [] [] [] [] [] [] []]; intros H; try discriminate H; reflexivity.
Qed.

(** X5. When experiment_info.json is there and holds no JSON at all (it
    is empty or blank, or begins with a character that begins no JSON
    value), [load_model_info] logs 'Failed to parse JSON file' with the
    [JSONDecodeError], and [main] falls back: it goes on with
    [register_model_directly] on './models/model.pkl', as after any
    [ValueError] of the registration from the run. *)
Theorem main_falls_back_on_invalid_JSON rt w text :
  files w !! "reports/experiment_info.json" = Some (Regular text) ->
  begins_no_value text = true ->
  main rt w =
    fallback_to_saved_model rt (mk_exn JSONDecodeError "Expecting value")
      (emits [Logged ERROR "Failed to parse JSON file: %s"
                [AExn (mk_exn JSONDecodeError "Expecting value")]] w).
Proof.
  intros Hf Hj. apply json_loads_begins_no_value in Hj.
  assert (Hfrom : main_from_run rt "sentiment_model" w
                  = (Raise (mk_exn JSONDecodeError "Expecting value"),
                     emits [Logged ERROR "Failed to parse JSON file: %s"
                              [AExn (mk_exn JSONDecodeError "Expecting value")]] w)).
  { unfold main_from_run.
    erewrite bind_Raise; [reflexivity |].
    rewrite load_model_info_run, Hf, Hj. reflexivity. }
  rewrite (main_after_from_run _ _ _ _ Hfrom). apply main_after_fallback_run.
Qed.

(** X6. [load_model_info] raises only what [open] or [json.load] raised:
    the [FileNotFoundError] of an absent file, the error with which
    [open] refuses the path, or the error of decoding the text of the
    file.  It then logs one ERROR record, chosen by the class of the
    error, and changes nothing else: 'File not found' for a
    [FileNotFoundError], 'Failed to parse JSON file' for a
    [JSONDecodeError], 'Unexpected error occurred while loading model
    info' for any other error. *)
Theorem load_model_info_errors file_path w e w' :
  load_model_info file_path w = (Raise e, w') ->
  ((files w !! file_path = None
    /\ e = mk_exn FileNotFoundError
             ("[Errno 2] No such file or directory: '" +:+ file_path +:+ "'"))
   \/ files w !! file_path = Some (Refused e)
   \/ (exists text,
          files w !! file_path = Some (Regular text) /\ json_loads text = Raise e))
  /\ w' = emits [ if isinstance e FileNotFoundError
                  then Logged ERROR "File not found: %s" [AStr file_path]
                  else if isinstance e JSONDecodeError
                  then Logged ERROR "Failed to parse JSON file: %s" [AExn e]
                  else Logged ERROR
                         "Unexpected error occurred while loading model info: %s"
                         [AExn e] ] w.
Proof.
  rewrite load_model_info_run. fold (load_error_record file_path e).
  destruct (files w !! file_path) as [[text | e0] |].
  - destruct (json_loads text) as [v | e0] eqn:Hj; intros [= <- <-].
    split; [| reflexivity]. right. right. eauto.
  - intros [= <- <-]. auto.
  - cbv zeta. intros [= <- <-]. auto.
Qed.

(** ** C7: the version that is returned *)

(** C7. With a registry over the SQL store, [mlflow.register_model]
    answers with the version as an [int]: [register_model_from_run], whose
    line 79 returns [model_details.version] as it is, returns the [int] 1
    and no [str], and [main] writes a number under 'version' in
    registered_model_info.json; [register_model_directly], which returns
    [str(latest_version)], returns a [str] with the same registry. *)
Lemma register_model_from_run_returns_the_int_of_the_store :
  let out := register_model_from_run sql_store (PStr "abc123") (PStr "model")
               "sentiment_model" world_known_run in
  fst out = Ok (PInt 1)
  /\ (forall s, fst out <> Ok (PStr s))
  /\ In (staging "sentiment_model" (PInt 1)) (trace (snd out))
  /\ files (snd (main sql_store world_known_run)) !! "reports/registered_model_info.json"
     = Some (Regular (json_dumps_indent4
                        (PDict [ ("model_name", PStr "sentiment_model");
                                 ("version", PInt 1);
                                 ("stage", PStr "Staging") ])))
  /\ fst (register_model_directly sql_store "./models/model.pkl" "sentiment_model"
            world_saved_model) = Ok "2".
Proof.
  repeat split; try (vm_compute; reflexivity).
  - intros s. vm_compute. discriminate.
  - vm_compute. tauto.
Qed.

(** X17. When [register_model_from_run] returns a version, that version is
    the one [mlflow.register_model] gave, and when [register_model_directly]
    returns a version, the model was logged under the model name; in both,
    the last thing the function did to the registry before it returned was
    to move that version to "Staging" with
    [archive_existing_versions=False]. *)
Theorem returned_version_is_staged rt model_name w :
  (forall run_id model_path version w',
      register_model_from_run rt run_id model_path model_name w = (Ok version, w') ->
      exists evs,
        w' = emits evs w
        /\ staged_last model_name version evs
        /\ exists uri mv,
             In (Called (register_model uri model_name) (Ok (RModelVersion mv))) evs
             /\ version = mv_version mv)
  /\ (forall model_file_path version w',
         register_model_directly rt model_file_path model_name w = (Ok version, w') ->
         exists evs,
           w' = emits evs w
           /\ staged_last model_name (PStr version) evs
           /\ exists model,
                In (Called (log_model model "model" model_name) (Ok RNone)) evs).
Proof.
  split.
  - intros run_id model_path version w' H.
    destruct (register_model_from_run_Ok _ _ _ _ _ _ _ H)
      as (evs & uri & mv & Hv & Hevs & ->).
    eexists. split; [reflexivity |]. split.
    + eexists (evs ++ [_; _; _]), [_]. rewrite <- app_assoc. split; reflexivity.
    + exists uri, mv. split; [| exact Hv].
      apply in_or_app. right. simpl. auto.
  - intros model_file_path version w' H.
    destruct (register_model_directly_outcome rt model_file_path model_name w)
      as (r0 & evs & H0 & Hok & _).
    rewrite H0 in H. injection H as -> <-.
    destruct (Hok version eq_refl)
      as (data & model & run & versions & numbers & latest & _ & _ & -> & ->).
    eexists. split; [reflexivity |]. split.
    + eexists [_; _; _; _; _; _; _; _; _], [_; _]. split; reflexivity.
    + exists model. simpl. auto.
Qed.

Lemma returned_version_is_staged_witness :
  (exists evs,
      snd (register_model_from_run quiet_runtime (PStr "abc123") (PStr "model")
             "sentiment_model" world_known_run) = emits evs world_known_run
      /\ staged_last "sentiment_model" (PStr "3") evs
      /\ exists uri mv,
           In (Called (register_model uri "sentiment_model") (Ok (RModelVersion mv))) evs
           /\ PStr "3" = mv_version mv)
  /\ (exists evs,
         snd (register_model_directly quiet_runtime "./models/model.pkl"
                "sentiment_model" world_known_run) = emits evs world_known_run
         /\ staged_last "sentiment_model" (PStr "10") evs
         /\ exists model,
              In (Called (log_model model "model" "sentiment_model") (Ok RNone)) evs).
Proof.
  split.
  - apply (proj1 (returned_version_is_staged quiet_runtime "sentiment_model"
                    world_known_run) (PStr "abc123") (PStr "model") (PStr "3")).
    vm_compute. reflexivity.
  - apply (proj2 (returned_version_is_staged quiet_runtime "sentiment_model"
                    world_known_run) "./models/model.pkl" "10").
    vm_compute. reflexivity.
Defined.

(** ** C8: a missing artifact, and no client *)


(** ** C9: the latest version *)

(** With no version reported, the [with] suite raises the [ValueError] of
    line 118. *)
Lemma register_model_directly_run_no_versions rt model model_name run w :
  exists rs evs,
    register_model_directly_run rt model model_name run w = (rs, emits evs w)
    /\ (In (no_versions model_name) evs ->
        rs = Raise (mk_exn ValueError
                      ("No versions found for model '" +:+ model_name +:+ "'")))
    /\ forall status ans, ~ In (Called (end_run status) ans) evs.
Proof.
  apply register_model_directly_run_cases; unfold until_search, suite_events, no_versions;
    intros; (split; [intros Hin | intros status ans Hin]); in_list Hin;
    try reflexivity;
    match goal with
    | Hne : ?versions <> [], Hin : _ = _ |- _ =>
        injection Hin as Hin; destruct (Hne Hin)
    end.
Qed.

Lemma register_model_directly_no_versions rt model_file_path model_name w :
  exists r evs,
    register_model_directly rt model_file_path model_name w = (r, emits evs w)
    /\ (In (no_versions model_name) evs ->
        exists ended : Res unit,
          In (Called (end_run "FAILED") (Res_map (fun _ => RNone) ended)) evs
          /\ r = Raise match ended with
                       | Ok _ =>
                           mk_exn ValueError
                             ("No versions found for model '" +:+ model_name +:+ "'")
                       | Raise e => e
                       end).
Proof.
  apply (register_model_directly_cases rt model_file_path model_name w
           (fun _ rs evs =>
              (In (no_versions model_name) evs ->
               rs = Raise (mk_exn ValueError
                             ("No versions found for model '" +:+ model_name +:+ "'")))
              /\ forall status ans, ~ In (Called (end_run status) ans) evs)).
  - intros model run w0. apply register_model_directly_run_no_versions.
  - intros e _ _ Hin. unfold no_versions in Hin. in_list Hin.
  - intros e _ Hin. unfold no_versions in Hin. in_list Hin.
  - intros data e _ Hin. unfold no_versions in Hin. in_list Hin.
  - intros data model e _ Hin. unfold no_versions in Hin. in_list Hin.
  - intros data model run rs evs ended _ [Hnone Hend] Hin.
    assert (Hevs : In (no_versions model_name) evs).
    { unfold no_versions in Hin |- *.
      apply in_app_or in Hin as [Hin | Hin]; [in_list Hin |].
      apply in_app_or in Hin as [Hin | Hin]; [exact Hin |].
      destruct Hin as [Hin | Hin]; [discriminate |].
      destruct (after_run rs ended); in_list Hin. }
    rewrite (Hnone Hevs). exists ended. split.
    + apply in_or_app. right. apply in_or_app. right. left. reflexivity.
    + destruct ended; reflexivity.
Qed.

(** C9, amended. When [register_model_directly] returns, it returns [str]
    of the greatest of the numbers [int] reads in the versions that the
    client reported for the model name, asked after the model was logged.
    When the client reported no version, the function ends the run as
    failed and raises: the [ValueError] of line 118 when ending the run
    returned, and the error of ending the run when that raised. *)
Theorem latest_version_is_returned rt model_file_path model_name w r w' :
  register_model_directly rt model_file_path model_name w = (r, w') ->
  latest_version_outcome rt model_name w r w'.
Proof.
  intros H. unfold latest_version_outcome.
  destruct (register_model_directly_outcome rt model_file_path model_name w)
    as (r0 & evs & H0 & Hok & _).
  destruct (register_model_directly_no_versions rt model_file_path model_name w)
    as (r1 & evs1 & H1 & Hnone).
  rewrite H0 in H1. injection H1 as <- H1. apply app_inv_head in H1. subst evs1.
  rewrite H0 in H. injection H as <- <-.
  exists evs. split; [reflexivity |]. split; [| exact Hnone].
  intros version Hv.
  destruct (Hok version Hv)
    as (data & model & run & versions & numbers & latest & HF & Hmax & -> & ->).
  eexists (_ :: _ :: _ :: _ :: _ :: _ :: [_]), versions, numbers, latest, _.
  split; [reflexivity |].
  split; [exists model; simpl; auto |]. auto.
Qed.

(** C9 as stated fails.  The client reports no version of the model and
    ending the run raises: [register_model_directly] raises the error of
    ending the run, an [MlflowException], and no [ValueError]. *)
Lemma no_version_and_no_ValueError :
  let out := register_model_directly run_cannot_end "./models/model.pkl"
               "sentiment_model" world_saved_model in
  In (no_versions "sentiment_model") (trace (snd out))
  /\ fst out = Raise (mk_exn MlflowException "INTERNAL_ERROR")
  /\ forall e, fst out = Raise e -> exn_type e <> ValueError.
Proof.
  repeat split; try (vm_compute; reflexivity).
  - vm_compute. tauto.
  - intros e He. vm_compute in He. injection He as <-. discriminate.
Qed.

Lemma latest_version_is_returned_witness :
  latest_version_outcome quiet_runtime "sentiment_model" world_saved_model (Ok "10")
    (snd (register_model_directly quiet_runtime "./models/model.pkl"
            "sentiment_model" world_saved_model))
  /\ latest_version_outcome no_version_reported "sentiment_model" world_saved_model
       (Raise (mk_exn ValueError "No versions found for model 'sentiment_model'"))
       (snd (register_model_directly no_version_reported "./models/model.pkl"
               "sentiment_model" world_saved_model))
  /\ latest_version_outcome run_cannot_end "sentiment_model" world_saved_model
       (Raise (mk_exn MlflowException "INTERNAL_ERROR"))
       (snd (register_model_directly run_cannot_end "./models/model.pkl"
               "sentiment_model" world_saved_model)).
Proof.
  split; [| split].
  - apply (latest_version_is_returned quiet_runtime "./models/model.pkl").
    vm_compute. reflexivity.
  - apply (latest_version_is_returned no_version_reported "./models/model.pkl").
    vm_compute. reflexivity.
  - apply (latest_version_is_returned run_cannot_end "./models/model.pkl").
    vm_compute. reflexivity.
Defined.

(** * The properties on concrete runs *)

Lemma main_failure_writes_nothing_witness :
  files (snd (main no_version_reported world_saved_model)) = files world_saved_model
  /\ exists evs,
       trace (snd (main no_version_reported world_saved_model)) =
         trace world_saved_model ++ evs
         ++ [ Logged ERROR "Failed to complete the model registration process: %s"
                [AExn (mk_exn ValueError "No versions found for model 'sentiment_model'")];
              Printed ("Error: "
                       +:+ exn_str (mk_exn ValueError
                                      "No versions found for model 'sentiment_model'")) ].
Proof.
  apply (main_failure_writes_nothing no_version_reported world_saved_model
           (mk_exn ValueError "No versions found for model 'sentiment_model'")).
  vm_compute. reflexivity.
Defined.

Lemma main_missing_field_witness :
  main quiet_runtime world_no_run_id =
    (Raise (mk_exn KeyError ("'" +:+ "run_id" +:+ "'")),
     emits [ Logged INFO "Model info loaded from %s"
               [AStr "reports/experiment_info.json"];
             Logged ERROR "Failed to complete the model registration process: %s"
               [AExn (mk_exn KeyError ("'" +:+ "run_id" +:+ "'"))];
             Printed ("Error: '" +:+ "run_id" +:+ "'") ] world_no_run_id).
Proof.
  apply (main_missing_field_raises_KeyError quiet_runtime world_no_run_id
           ("{" +:+ quoted "model_path" +:+ ": " +:+ quoted "model" +:+ "}")
           [("model_path", PStr "model")] "run_id").
  - vm_compute. reflexivity.
  - vm_compute. reflexivity.
  - left. split; reflexivity.
Defined.

Lemma main_not_an_object_witness :
  exists e,
    exn_type e = TypeError
    /\ main quiet_runtime world_not_an_object =
         (Raise e,
          emits [ Logged INFO "Model info loaded from %s"
                    [AStr "reports/experiment_info.json"];
                  Logged ERROR "Failed to complete the model registration process: %s"
                    [AExn e];
                  Printed ("Error: " +:+ exn_str e) ] world_not_an_object).
Proof.
  apply (main_not_an_object_raises_TypeError quiet_runtime world_not_an_object
           "[1, 2]" (PList [PInt 1; PInt 2])).
  - vm_compute. reflexivity.
  - vm_compute. reflexivity.
  - intros d. discriminate.
Defined.

Lemma main_falls_back_on_invalid_JSON_witness :
  main quiet_runtime world_invalid_json =
    fallback_to_saved_model quiet_runtime (mk_exn JSONDecodeError "Expecting value")
      (emits [Logged ERROR "Failed to parse JSON file: %s"
                [AExn (mk_exn JSONDecodeError "Expecting value")]]
         world_invalid_json).
Proof.
  apply (main_falls_back_on_invalid_JSON quiet_runtime world_invalid_json
           "run_id: abc123").
  - vm_compute. reflexivity.
  - reflexivity.
Defined.

Lemma load_model_info_errors_witness :
  let e := mk_exn FileNotFoundError
             "[Errno 2] No such file or directory: 'reports/experiment_info.json'" in
  ((files world_saved_model !! "reports/experiment_info.json" = None
    /\ e = mk_exn FileNotFoundError
             ("[Errno 2] No such file or directory: '"
              +:+ "reports/experiment_info.json" +:+ "'"))
   \/ files world_saved_model !! "reports/experiment_info.json" = Some (Refused e)
   \/ (exists text,
          files world_saved_model !! "reports/experiment_info.json"
          = Some (Regular text)
          /\ json_loads text = Raise e))
  /\ snd (load_model_info "reports/experiment_info.json" world_saved_model)
     = emits [ if isinstance e FileNotFoundError
               then Logged ERROR "File not found: %s"
                      [AStr "reports/experiment_info.json"]
               else if isinstance e JSONDecodeError
               then Logged ERROR "Failed to parse JSON file: %s" [AExn e]
               else Logged ERROR
                      "Unexpected error occurred while loading model info: %s"
                      [AExn e] ] world_saved_model.
Proof.
  apply (load_model_info_errors "reports/experiment_info.json" world_saved_model).
  vm_compute. reflexivity.
Defined.

Lemma register_model_from_run_registers_a_listed_artifact_witness :
  exists evs,
    snd (register_model_from_run quiet_runtime (PStr "abc123") (PStr "model")
           "sentiment_model" world_known_run) = emits evs world_known_run
    /\ forall uri name ans,
         In (Called (register_model uri name) ans) evs ->
         name = "sentiment_model"
         /\ exists s artifacts,
              PStr "model" = PStr s
              /\ uri = "runs:/" +:+ py_str quiet_runtime (PStr "abc123") +:+ "/" +:+ s
              /\ In s (map fi_path artifacts)
              /\ In (Called (list_artifacts (PStr "abc123")) (Ok (RFileInfos artifacts)))
                   evs.
Proof.
  apply (register_model_from_run_registers_a_listed_artifact quiet_runtime
           (PStr "abc123") (PStr "model") "sentiment_model" world_known_run
           (Ok (PStr "3"))).
  vm_compute. reflexivity.
Defined.

Lemma register_model_directly_ends_its_run_witness :
  exists evs,
    snd (register_model_directly quiet_runtime "./models/model.pkl" "sentiment_model"
           world_saved_model) = emits evs world_saved_model
    /\ ((exists run, In (Called start_run (Ok (RRun run))) evs)
        <-> (exists status ans, In (Called (end_run status) ans) evs))
    /\ (forall version, Ok "10" = Ok version ->
        In (Called (end_run "FINISHED") (Ok RNone)) evs)
    /\ (forall ans, In (Called (end_run "FAILED") ans) evs ->
        exists e, @Ok string "10" = Raise e).
Proof.
  apply (register_model_directly_ends_its_run quiet_runtime "./models/model.pkl"
           "sentiment_model" world_saved_model (Ok "10")).
  vm_compute. reflexivity.
Defined.

Lemma register_model_directly_rejects_a_version_witness :
  exists evs,
    snd (register_model_directly version_is_no_number "./models/model.pkl"
           "sentiment_model" world_saved_model) = emits evs world_saved_model
    /\ forall versions,
         In (Called (search_model_versions ("name='" +:+ "sentiment_model" +:+ "'"))
               (Ok (RModelVersions versions))) evs ->
         Exists (fun mv =>
                   exists e, py_int_val version_is_no_number (mv_version mv) = Raise e)
           versions ->
         (exists e,
             @Raise string
               (mk_exn ValueError "invalid literal for int() with base 10: 'v1'")
             = Raise e)
         /\ forall name version stage archive ans,
              ~ In (Called (transition_model_version_stage name version stage archive)
                      ans) evs.
Proof.
  apply (register_model_directly_rejects_a_version_that_is_no_number
           version_is_no_number "./models/model.pkl" "sentiment_model" world_saved_model
           (Raise (mk_exn ValueError "invalid literal for int() with base 10: 'v1'"))).
  vm_compute. reflexivity.
Defined.

Lemma register_model_directly_writes_inside_the_run_witness :
  exists evs,
    snd (register_model_directly quiet_runtime "./models/model.pkl" "sentiment_model"
           world_saved_model) = emits evs world_saved_model
    /\ forall ev,
         In ev evs -> registry_write ev = true ->
         exists before after run status ans,
           evs = before ++ ev :: after
           /\ In (Called start_run (Ok (RRun run))) before
           /\ In (Called (end_run status) ans) after.
Proof.
  apply (register_model_directly_writes_inside_the_run quiet_runtime
           "./models/model.pkl" "sentiment_model" world_saved_model (Ok "10")).
  vm_compute. reflexivity.
Defined.

Lemma returned_version_reads_back_witness :
  exists latest, "10" = str_of_int latest /\ py_int "10" = Some latest.
Proof.
  apply (returned_version_reads_back quiet_runtime "./models/model.pkl"
           "sentiment_model" world_saved_model "10"
           (snd (register_model_directly quiet_runtime "./models/model.pkl"
                   "sentiment_model" world_saved_model))).
  vm_compute. reflexivity.
Defined.

Lemma save_registered_model_info_writes_ascii_witness :
  exists text,
    files (snd (save_registered_model_info "sentiment_model" (PStr "3")
                  "reports/registered_model_info.json" world_saved_model))
      !! "reports/registered_model_info.json"
    = Some (Regular text)
    /\ ascii_text text = true.
Proof.
  apply (save_registered_model_info_writes_ascii "sentiment_model" "3"
           "reports/registered_model_info.json" world_saved_model).
  intros e. vm_compute. discriminate.
Defined.

Lemma main_returns_after_one_staging_witness :
  exists version evs,
    files (snd (main quiet_runtime world_known_run))
    = <["reports/registered_model_info.json" :=
          Regular (json_dumps_indent4 (registered_info "sentiment_model" version))]>
        (files world_known_run)
    /\ trace (snd (main quiet_runtime world_known_run))
       = trace world_known_run ++ evs ++ [Printed "Model transitioned to Staging stage."]
    /\ List.filter staged evs = [staging "sentiment_model" version].
Proof.
  apply (main_returns_after_one_staging quiet_runtime world_known_run).
  vm_compute. reflexivity.
Defined.

(** * The diagnostic script (test.py) *)

Section TestScriptProperties.
Import TestScript.




Lemma test_bind_Ok {A B} (c : M A) (k : A -> M B) h a h1 :
  c h = (Ok a, h1) -> bind c k h = k a h1.
Proof. intros H. unfold bind. rewrite H. reflexivity. Qed.

Lemma test_bind_Raise {A B} (c : M A) (k : A -> M B) h e h1 :
  c h = (Raise e, h1) -> bind c k h = (Raise e, h1).
Proof. intros H. unfold bind. rewrite H. reflexivity. Qed.

Lemma test_bind_print {B} line (k : unit -> M B) h :
  bind (print line) k h = k tt (h ++ [Printed line]).
Proof. reflexivity. Qed.

Lemma test_bind_bind {A B C} (c : M A) (k : A -> M B) (k' : B -> M C) h :
  bind (bind c k) k' h = bind c (fun a => bind (k a) k') h.
Proof. unfold bind. destruct (c h) as [[a | e] h1]; reflexivity. Qed.

Lemma test_bind_ret {A B} (a : A) (k : A -> M B) h : bind (ret a) k h = k a h.
Proof. reflexivity. Qed.

Lemma test_bind_extcall {A B} c inj (respond : list event -> Res A) (k : A -> M B) h :
  bind (extcall c inj respond) k h =
    match respond h with
    | Ok a => k a (h ++ [Called c (Ok (inj a))])
    | Raise e => (Raise e, h ++ [Called c (Raise e)])
    end.
Proof. unfold bind, extcall. destruct (respond h); reflexivity. Qed.

Lemma for_each_print {A} (f : A -> string) l : forall h,
  for_each l (fun x => print (f x)) h = (Ok tt, h ++ map (fun x => Printed (f x)) l).
Proof.
  induction l as [| x rest IH]; intros h; cbn [for_each map].
  - unfold ret. rewrite app_nil_r. reflexivity.
  - rewrite test_bind_print, IH, <- app_assoc. reflexivity.
Qed.

Lemma sub_listings_app evs1 evs2 :
  sub_listings (evs1 ++ evs2) = sub_listings evs1 ++ sub_listings evs2.
Proof.
  induction evs1 as [| ev rest IH]; [reflexivity |].
  destruct ev as [line | [| run_id [path |]] r]; cbn [app sub_listings];
    rewrite IH; reflexivity.
Qed.

Lemma sub_listings_printed {A} (f : A -> string) l :
  sub_listings (map (fun x => Printed (f x)) l) = [].
Proof. induction l; [reflexivity | exact IHl]. Qed.

Lemma failed_printed {A} (f : A -> string) l :
  List.filter failed (map (fun x => Printed (f x)) l) = [].
Proof. induction l; [reflexivity | exact IHl]. Qed.

Lemma In_printed {A} (f : A -> string) l c ans :
  In (Called c ans) (map (fun x => Printed (f x)) l) -> False.
Proof. induction l; simpl; [tauto | intros [H | H]; [discriminate | auto]]. Qed.

Lemma stops_at_app e run_id pre evs :
  List.filter failed pre = [] -> stops_at e run_id evs -> stops_at e run_id (pre ++ evs).
Proof.
  intros Hpre (evs0 & p & -> & Hf). exists (pre ++ evs0), p.
  rewrite app_assoc, List.filter_app, Hpre, Hf. split; reflexivity.
Qed.

Lemma show_artifacts_shown rt run_id artifacts : forall h,
  exists r evs,
    for_each artifacts (show_artifact rt run_id) h = (r, h ++ evs)
    /\ shown run_id artifacts r evs.
Proof.
  induction artifacts as [| [path is_dir] rest IH]; intros h.
  - exists (Ok tt), []. cbn [for_each]. unfold ret. rewrite app_nil_r.
    split; [reflexivity |]. split; [intros c ans [] |]. split; reflexivity.
  - cbn [for_each]. unfold show_artifact at 1. cbn [fi_path fi_is_dir].
    rewrite test_bind_bind, test_bind_print. destruct is_dir.
    + unfold client_list_artifacts. rewrite test_bind_bind, test_bind_extcall.
      destruct (on_list_artifacts rt _ run_id (Some path)) as [subs | e].
      * rewrite (test_bind_Ok _ _ _ _ _ (for_each_print _ _ _)).
        match goal with |- context [for_each rest _ ?h0] =>
          destruct (IH h0) as (r & evs & Hrun & Hasks & Hr) end.
        rewrite Hrun. exists r. rewrite <- !app_assoc. eexists.
        split; [reflexivity |]. split.
        { intros c ans Hin. cbn [app] in Hin.
          destruct Hin as [Hin | [Hin | Hin]]; [discriminate | |].
          - injection Hin as <- _. eauto.
          - apply in_app_or in Hin as [Hin | Hin];
              [destruct (In_printed _ _ _ _ Hin) | eauto]. }
        unfold directories. cbn [List.filter fi_is_dir map app sub_listings].
        rewrite sub_listings_app, sub_listings_printed. cbn [app failed].
        rewrite List.filter_app, failed_printed. cbn [app].
        destruct r as [u | e].
        { destruct Hr as [-> ->]. split; reflexivity. }
        destruct Hr as [Hpre (evs0 & p & -> & Hf)]. split.
        { apply prefix_cons. exact Hpre. }
        apply (stops_at_app e run_id (_ :: _ :: _));
          [| exists evs0, p; split; [reflexivity | exact Hf]].
        cbn [List.filter failed]. apply failed_printed.
      * exists (Raise e). rewrite <- !app_assoc. eexists. split; [reflexivity |]. split.
        { intros c ans Hin. cbn [app] in Hin.
          destruct Hin as [Hin | [Hin | []]]; [discriminate |].
          injection Hin as <- _. eauto. }
        split.
        { cbn [app sub_listings]. unfold directories. cbn [List.filter fi_is_dir map].
          apply prefix_cons, prefix_nil. }
        exists [Printed ("  - " +:+ path +:+ " (is_dir: " +:+ str_of_bool true +:+ ")")], path.
        split; reflexivity.
    + rewrite test_bind_ret.
      match goal with |- context [for_each rest _ ?h0] =>
        destruct (IH h0) as (r & evs & Hrun & Hasks & Hr) end.
      rewrite Hrun. exists r. rewrite <- !app_assoc. eexists.
      split; [reflexivity |]. split.
      { intros c ans [Hin | Hin]; [discriminate | eauto]. }
      unfold directories. cbn [List.filter fi_is_dir map app sub_listings failed].
      destruct r as [u | e]; [exact Hr |].
      destruct Hr as [Hpre Hstop]. split; [exact Hpre |].
      apply (stops_at_app e run_id [_]); [reflexivity | exact Hstop].
Qed.







Lemma only_prints_sub_listings evs : only_prints evs -> sub_listings evs = [].
Proof.
  induction evs as [| ev rest IH]; [reflexivity |]. intros H.
  destruct ev as [line | c ans].
  - apply IH. intros c ans Hin. apply (H c ans). right. exact Hin.
  - destruct (H c ans). left. reflexivity.
Qed.

Lemma only_prints_failed evs : only_prints evs -> List.filter failed evs = [].
Proof.
  induction evs as [| ev rest IH]; [reflexivity |]. intros H.
  destruct ev as [line | c ans].
  - apply IH. intros c ans Hin. apply (H c ans). right. exact Hin.
  - destruct (H c ans). left. reflexivity.
Qed.

Lemma only_prints_cons line evs : only_prints evs -> only_prints (Printed line :: evs).
Proof. intros H c ans [Hin | Hin]; [discriminate | exact (H c ans Hin)]. Qed.

Lemma only_prints_nil : only_prints [].
Proof. intros c ans []. Qed.

Lemma listing_listed rt run_id h :
  exists r evs, listing rt run_id h = (r, h ++ evs) /\ listed run_id r evs.
Proof.
  unfold listing, client_list_artifacts. rewrite test_bind_extcall.
  destruct (on_list_artifacts rt h run_id None) as [artifacts | e].
  2:{ exists (Raise e). eexists. split; [reflexivity |].
      exists (Raise e), []. split; [reflexivity |]. split; reflexivity. }
  rewrite !test_bind_print.
  assert (Hloop : exists r evs,
             match artifacts with
             | [] => print "No artifacts found!"
             | _ => for_each artifacts (show_artifact rt run_id)
             end ((h ++ [Called (list_artifacts run_id None) (Ok (RFileInfos artifacts))])
                  ++ [Printed (String newline
                                 ("Available artifacts in run " +:+ py_str rt run_id +:+ ":"))]
                  ++ [Printed (repeat_str 50 "-")])
             = (r, ((h ++ [Called (list_artifacts run_id None) (Ok (RFileInfos artifacts))])
                    ++ [Printed (String newline
                                   ("Available artifacts in run " +:+ py_str rt run_id +:+ ":"))]
                    ++ [Printed (repeat_str 50 "-")]) ++ evs)
             /\ shown run_id artifacts r evs).
  { destruct artifacts as [| a rest]; [| apply show_artifacts_shown].
    exists (Ok tt), [Printed "No artifacts found!"]. split; [reflexivity |].
    split; [| split; reflexivity].
    intros c ans [Hin | []]. discriminate. }
  destruct Hloop as (r & evs & Hrun & Hasks & Hr).
  rewrite <- !app_assoc in Hrun |- *. cbn [app] in Hrun |- *.
  destruct r as [[] | e].
  - rewrite (test_bind_Ok _ _ _ _ _ Hrun), !test_bind_print. unfold print.
    rewrite <- !app_assoc. cbn [app].
    exists (Ok tt). eexists. split; [reflexivity |].
    exists (Ok artifacts). eexists. split; [reflexivity |].
    destruct Hr as [Hsub Hfailed]. split; [| split].
    + intros c ans Hin. cbn [In] in Hin.
      destruct Hin as [Hin | [Hin | Hin]]; try discriminate.
      apply in_app_or in Hin as [Hin | Hin]; [eauto |].
      cbn [In] in Hin. repeat (destruct Hin as [Hin | Hin]; [discriminate |]).
      destruct Hin.
    + cbn [sub_listings]. rewrite sub_listings_app, Hsub. cbn [sub_listings].
      apply app_nil_r.
    + cbn [List.filter failed]. rewrite List.filter_app, Hfailed. reflexivity.
  - rewrite (test_bind_Raise _ _ _ _ _ Hrun).
    exists (Raise e). eexists. split; [reflexivity |].
    exists (Ok artifacts). eexists. split; [reflexivity |].
    destruct Hr as [Hpre Hstop]. split; [| split].
    + intros c ans Hin. cbn [In] in Hin.
      destruct Hin as [Hin | [Hin | Hin]]; try discriminate. eauto.
    + exact Hpre.
    + apply (stops_at_app e run_id [_; _]); [reflexivity | exact Hstop].
Qed.

Lemma test_getitem_run obj key h : exists r, getitem obj key h = (r, h).
Proof.
  unfold getitem. destruct obj; try destruct (dict_get _ _); eexists; reflexivity.
Qed.

Lemma test_getitem_Ok obj key h v h' :
  getitem obj key h = (Ok v, h') -> exists d, obj = PDict d /\ dict_get d key = Some v.
Proof.
  unfold getitem. destruct obj; try discriminate.
  destruct (dict_get d key) eqn:Hd; [| discriminate].
  intros [= <- _]. eauto.
Qed.

Lemma script_ran rt fs h :
  exists r evs, script rt fs h = (r, h ++ evs) /\ ran fs r evs.
Proof.
  unfold script, open_read, lift. unfold bind at 1.
  destruct (fs !! "reports/experiment_info.json") as [[text | e] |] eqn:Hf.
  3:{ eexists _, []. rewrite app_nil_r. split; [reflexivity |].
      left. eexists. split; [reflexivity | apply only_prints_nil]. }
  2:{ eexists _, []. rewrite app_nil_r. split; [reflexivity |].
      left. eexists. split; [reflexivity | apply only_prints_nil]. }
  unfold bind at 1.
  destruct (json_loads text) as [model_info | e] eqn:Hj.
  2:{ eexists _, []. rewrite app_nil_r. split; [reflexivity |].
      left. eexists. split; [reflexivity | apply only_prints_nil]. }
  rewrite !test_bind_print. rewrite <- !app_assoc. cbn [app].
  match goal with
  | |- context [bind (getitem model_info "run_id") _ ?h0] =>
      destruct (test_getitem_run model_info "run_id" h0) as ([run_id | e] & Hg)
  end.
  2:{ rewrite (test_bind_Raise _ _ _ _ _ Hg). eexists _, _. split; [reflexivity |].
      left. eexists. split; [reflexivity |].
      do 3 apply only_prints_cons. apply only_prints_nil. }
  rewrite (test_bind_Ok _ _ _ _ _ Hg). apply test_getitem_Ok in Hg as (d & -> & Hd).
  rewrite test_bind_print. unfold new_MlflowClient. rewrite test_bind_extcall.
  rewrite <- !app_assoc. cbn [app].
  destruct (on_MlflowClient rt _) as [u | e].
  2:{ rewrite <- app_assoc. eexists _, _. split; [reflexivity |].
      right. left. eexists _, [_; _; _; _]. split; [reflexivity |].
      split; [| reflexivity]. do 4 apply only_prints_cons. apply only_prints_nil. }
  unfold try_except_Exception.
  match goal with
  | |- context [listing rt run_id ?h0] =>
      destruct (listing_listed rt run_id h0) as (rl & levs & Hl & Hlisted)
  end.
  rewrite Hl. rewrite <- !app_assoc. cbn [app].
  exists (Ok tt), ([Printed "Model Info from JSON:";
                    Printed (json_dumps_indent2 rt (PDict d));
                    Printed (String newline (repeat_str 50 "=" +:+ str1 newline));
                    Printed ("Run ID: " +:+ py_str rt run_id)]
                   ++ Called MlflowClient (Ok RNone) :: levs ++ error_line rl).
  split.
  - destruct rl as [[] | e]; cbn [error_line app].
    + rewrite app_nil_r. reflexivity.
    + rewrite isinstance_Exception. unfold print. rewrite <- !app_assoc. reflexivity.
  - right. right. exists run_id. eexists _, rl, levs.
    split; [reflexivity |]. split; [exists text, d; auto |].
    split; [| split; [exact Hlisted | reflexivity]].
    do 4 apply only_prints_cons. apply only_prints_nil.
Qed.


Lemma only_prints_is_listing evs : only_prints evs -> List.filter is_listing evs = [].
Proof.
  induction evs as [| ev rest IH]; [reflexivity |]. intros H.
  destruct ev as [line | c ans].
  - apply IH. intros c ans Hin. apply (H c ans). right. exact Hin.
  - destruct (H c ans). left. reflexivity.
Qed.

Lemma In_failed ev evs : In ev evs -> failed ev = true -> List.filter failed evs <> [].
Proof.
  intros Hin Hf Hnil.
  assert (Hin' : In ev (List.filter failed evs)) by (apply List.filter_In; auto).
  rewrite Hnil in Hin'. destruct Hin'.
Qed.

Lemma error_line_only_prints r : only_prints (error_line r).
Proof. destruct r; intros c ans Hin; simpl in Hin; intuition discriminate. Qed.

(** The listing call that raised, in a listing. *)
Lemma listed_failure run_id0 rl levs run_id path e :
  listed run_id0 rl levs ->
  In (Called (list_artifacts run_id path) (Raise e)) levs ->
  rl = Raise e
  /\ exists evs0, levs = evs0 ++ [Called (list_artifacts run_id path) (Raise e)].
Proof.
  intros (first & evs1 & -> & Hfirst) Hin.
  destruct first as [artifacts | e0].
  - destruct Hin as [Hin | Hin]; [discriminate |].
    destruct Hfirst as [_ Hr]. destruct rl as [u | e1].
    + destruct Hr as [_ Hf]. destruct (In_failed _ _ Hin eq_refl Hf).
    + destruct Hr as [_ (evs0 & p & -> & Hf)].
      apply in_app_or in Hin as [Hin | Hin];
        [destruct (In_failed _ _ Hin eq_refl Hf) |].
      destruct Hin as [Hin | []]. injection Hin as <- <- <-.
      split; [reflexivity |]. eexists (_ :: evs0). reflexivity.
  - destruct Hfirst as [-> ->]. destruct Hin as [Hin | []].
    injection Hin as <- <- <-. split; [reflexivity |]. exists []. reflexivity.
Qed.

(** X14. No error of the listing leaves the script of test.py.  When the
    script raises, it has listed nothing: the error came from reading
    experiment_info.json, from its [run_id], or from creating the client.
    When a listing call raises, that call is the last one, the script
    prints "Error listing artifacts: " with the error, and ends
    normally. *)
Theorem test_script_prints_listing_errors rt fs h r h' :
  script rt fs h = (r, h') ->
  exists evs,
    h' = h ++ evs
    /\ (forall e, r = Raise e -> List.filter is_listing evs = [])
    /\ (forall run_id path e,
           In (Called (list_artifacts run_id path) (Raise e)) evs ->
           r = Ok tt
           /\ exists evs0,
                evs = evs0 ++ [ Called (list_artifacts run_id path) (Raise e);
                                Printed ("Error listing artifacts: " +:+ exn_str e) ]).
Proof.
  intros H. destruct (script_ran rt fs h) as (r0 & evs & H0 & Hran).
  rewrite H0 in H. injection H as <- <-. exists evs. split; [reflexivity |].
  destruct Hran as [(e0 & -> & Hp) | [(e0 & pre & -> & Hp & ->)
                                     | (run_id0 & pre & rl & levs & -> & _ & Hp & Hl & ->)]].
  - split; [intros; apply only_prints_is_listing, Hp |].
    intros run_id path e Hin. destruct (Hp _ _ Hin).
  - split.
    + intros _ _. rewrite List.filter_app, (only_prints_is_listing _ Hp). reflexivity.
    + intros run_id path e Hin. apply in_app_or in Hin as [Hin | [Hin | []]];
        [destruct (Hp _ _ Hin) | discriminate].
  - split; [discriminate |].
    intros run_id path e Hin. split; [reflexivity |].
    apply in_app_or in Hin as [Hin | [Hin | Hin]];
      [destruct (Hp _ _ Hin) | discriminate |].
    apply in_app_or in Hin as [Hin | Hin];
      [| destruct (error_line_only_prints _ _ _ Hin)].
    destruct (listed_failure _ _ _ _ _ _ Hl Hin) as [-> (evs0 & ->)].
    exists (pre ++ Called MlflowClient (Ok RNone) :: evs0).
    cbn [error_line]. rewrite <- !app_assoc. reflexivity.
Qed.

(** X15. The script of test.py asks what the directories among the
    artifacts of the run hold, one after the other in the order of the
    listing, and asks about nothing else: the paths it asked about are a
    beginning of the list of the directories, and all of it when no call
    raised. *)
Theorem test_script_lists_each_directory rt fs h r h' :
  script rt fs h = (r, h') ->
  exists evs,
    h' = h ++ evs
    /\ forall run_id artifacts,
         In (Called (list_artifacts run_id None) (Ok (RFileInfos artifacts))) evs ->
         sub_listings evs `prefix_of` directories artifacts
         /\ (List.filter failed evs = [] -> sub_listings evs = directories artifacts).
Proof.
  intros H. destruct (script_ran rt fs h) as (r0 & evs & H0 & Hran).
  rewrite H0 in H. injection H as <- <-. exists evs. split; [reflexivity |].
  intros run_id artifacts Hin.
  destruct Hran as [(e0 & -> & Hp) | [(e0 & pre & -> & Hp & ->)
                                     | (run_id0 & pre & rl & levs & -> & _ & Hp & Hl & ->)]].
  - destruct (Hp _ _ Hin).
  - apply in_app_or in Hin as [Hin | [Hin | []]];
      [destruct (Hp _ _ Hin) | discriminate].
  - apply in_app_or in Hin as [Hin | [Hin | Hin]];
      [destruct (Hp _ _ Hin) | discriminate |].
    apply in_app_or in Hin as [Hin | Hin];
      [| destruct (error_line_only_prints _ _ _ Hin)].
    destruct Hl as (first & evs1 & -> & Hfirst).
    assert (Hfirst' : first = Ok artifacts /\ shown run_id0 artifacts rl evs1).
    { destruct Hin as [Hin | Hin].
      - destruct first as [artifacts' | e]; [| discriminate].
        injection Hin as _ <-. auto.
      - destruct first as [artifacts' | e].
        + destruct Hfirst as [Hasks _]. destruct (Hasks _ _ Hin) as [p Hp']. discriminate.
        + destruct Hfirst as [_ ->]. destruct Hin. }
    destruct Hfirst' as [-> [_ Hr]].
    rewrite sub_listings_app, (only_prints_sub_listings _ Hp). cbn [app sub_listings Res_map].
    rewrite sub_listings_app, (only_prints_sub_listings _ (error_line_only_prints rl)),
      app_nil_r.
    destruct rl as [u | e].
    + destruct Hr as [-> _]. split; [reflexivity | auto].
    + destruct Hr as [Hpre (evs0 & p & -> & _)]. split; [exact Hpre |].
      intros Hf. exfalso. revert Hf. apply (In_failed (Called (list_artifacts run_id0 (Some p)) (Raise e))); [| reflexivity].
      apply in_or_app. right. right. right. apply in_or_app. left.
      apply in_or_app. right. left. reflexivity.
Qed.

(** X16. Every listing call of the script of test.py is about the run
    that reports/experiment_info.json names under [run_id]. *)
Theorem test_script_lists_the_run_of_experiment_info rt fs h r h' :
  script rt fs h = (r, h') ->
  exists evs,
    h' = h ++ evs
    /\ forall run_id path ans,
         In (Called (list_artifacts run_id path) ans) evs ->
         exists text d,
           fs !! "reports/experiment_info.json" = Some (Regular text)
           /\ json_loads text = Ok (PDict d)
           /\ dict_get d "run_id" = Some run_id.
Proof.
  intros H. destruct (script_ran rt fs h) as (r0 & evs & H0 & Hran).
  rewrite H0 in H. injection H as <- <-. exists evs. split; [reflexivity |].
  intros run_id path ans Hin.
  destruct Hran as [(e0 & -> & Hp) | [(e0 & pre & -> & Hp & ->)
                                     | (run_id0 & pre & rl & levs & -> & Hn & Hp & Hl & ->)]].
  - destruct (Hp _ _ Hin).
  - apply in_app_or in Hin as [Hin | [Hin | []]];
      [destruct (Hp _ _ Hin) | discriminate].
  - apply in_app_or in Hin as [Hin | [Hin | Hin]];
      [destruct (Hp _ _ Hin) | discriminate |].
    apply in_app_or in Hin as [Hin | Hin];
      [| destruct (error_line_only_prints _ _ _ Hin)].
    destruct Hl as (first & evs1 & -> & Hfirst).
    destruct Hin as [Hin | Hin]; [injection Hin as <- _ _; exact Hn |].
    destruct first as [artifacts | e].
    + destruct Hfirst as [Hasks _]. destruct (Hasks _ _ Hin) as [p Hp'].
      injection Hp' as <- _. exact Hn.
    + destruct Hfirst as [_ ->]. destruct Hin.
Qed.

Lemma test_script_prints_listing_errors_witness :
  exists evs,
    snd (script directory_refused (files world_known_run) []) = [] ++ evs
    /\ (forall e, Ok tt = Raise e -> List.filter is_listing evs = [])
    /\ (forall run_id path e,
           In (Called (list_artifacts run_id path) (Raise e)) evs ->
           Ok tt = Ok tt
           /\ exists evs0,
                evs = evs0 ++ [ Called (list_artifacts run_id path) (Raise e);
                                Printed ("Error listing artifacts: " +:+ exn_str e) ]).
Proof.
  apply (test_script_prints_listing_errors directory_refused (files world_known_run) []
           (Ok tt)).
  vm_compute. reflexivity.
Defined.

Lemma test_script_lists_each_directory_witness :
  exists evs,
    snd (script one_directory (files world_known_run) []) = [] ++ evs
    /\ forall run_id artifacts,
         In (Called (list_artifacts run_id None) (Ok (RFileInfos artifacts))) evs ->
         sub_listings evs `prefix_of` directories artifacts
         /\ (List.filter failed evs = [] -> sub_listings evs = directories artifacts).
Proof.
  apply (test_script_lists_each_directory one_directory (files world_known_run) []
           (Ok tt)).
  vm_compute. reflexivity.
Defined.

Lemma test_script_lists_the_run_witness :
  exists evs,
    snd (script one_directory (files world_known_run) []) = [] ++ evs
    /\ forall run_id path ans,
         In (Called (list_artifacts run_id path) ans) evs ->
         exists text d,
           files world_known_run !! "reports/experiment_info.json" = Some (Regular text)
           /\ json_loads text = Ok (PDict d)
           /\ dict_get d "run_id" = Some run_id.
Proof.
  apply (test_script_lists_the_run_of_experiment_info one_directory
           (files world_known_run) [] (Ok tt)).
  vm_compute. reflexivity.
Defined.

End TestScriptProperties.
